(** * The daily-recipe pipeline of App-Lancheirinha

    A shallow embedding of [fetchDailyRecipe] (src/App.tsx), of
    [generateDailyRecipe] (services/geminiService.ts, both copies found in
    the repository) and of the Supabase client module
    (services/supabaseClient.ts, both copies), with the properties of the
    two-tier cache that the specification states about them.

    Definitions come first: JavaScript strings and values, the string and
    date built-ins the code calls, the effect monad (device state,
    completions, awaited calls), the three modules of the application, the
    interpreters, the shared store, a reference host, the stages of a
    resolution, and two devices running against one store. The properties
    follow: facts about texts and dates, the agreement of the program with
    its stages, and the claims of the specification, C1 to C10. The rest of
    [App.tsx] (the session, the viewer of materials, the notifications, the
    list of videos, the recipe card) is modelled after the scenarios, and
    further properties of the code, X1 to X28, close the development. *)

From Stdlib Require Import ZArith String Ascii Lia.
From Stdlib Require Import Floats.SpecFloat.
From stdpp Require Import base option list gmap.

Set Warnings "-register-all".
Local Open Scope Z_scope.

(* ===================================================================== *)
(** * JavaScript strings *)
(* ===================================================================== *)

(** A JavaScript string is a sequence of UTF-16 code units. *)
Definition code_unit := N.
Definition jsstring := list code_unit.

(** An ASCII literal of the source, as code units. *)
Definition lit (s : string) : jsstring :=
  List.map N_of_ascii (list_ascii_of_string s).

Module JSString.

(** WhiteSpace and LineTerminator code points of ECMAScript, the ones
    [String.prototype.trim] removes. *)
Definition is_white_space (c : code_unit) : bool :=
  ((9 <=? c) && (c <=? 13))%N          (* TAB LF VT FF CR *)
  || (c =? 32)%N || (c =? 160)%N       (* SP, NBSP *)
  || (c =? 5760)%N                     (* U+1680 *)
  || ((8192 <=? c) && (c <=? 8202))%N  (* U+2000 .. U+200A *)
  || (c =? 8232)%N || (c =? 8233)%N    (* LS, PS *)
  || (c =? 8239)%N || (c =? 8287)%N    (* U+202F, U+205F *)
  || (c =? 12288)%N || (c =? 65279)%N. (* U+3000, BOM *)

Fixpoint trimStart (s : jsstring) : jsstring :=
  match s with
  | c :: s' => if is_white_space c then trimStart s' else s
  | [] => []
  end.

Definition trimEnd (s : jsstring) : jsstring := rev (trimStart (rev s)).

(** [s.trim()] *)
Definition trim (s : jsstring) : jsstring := trimEnd (trimStart s).

(** [pat] is a prefix of [s]. *)
Fixpoint starts_with (pat s : jsstring) : bool :=
  match pat, s with
  | [], _ => true
  | p :: pat', c :: s' => (p =? c)%N && starts_with pat' s'
  | _ :: _, [] => false
  end.

(** [s.includes(pat)] *)
Fixpoint includes (s pat : jsstring) : bool :=
  starts_with pat s ||
  match s with
  | [] => false
  | _ :: s' => includes s' pat
  end.

(** [s.replace(/pat/g, '')] for a pattern without metacharacters: the
    matches are found from left to right and do not overlap; [skip] counts
    the code units of the current match still to be dropped. *)
Fixpoint remove_all_from (pat : jsstring) (skip : nat) (s : jsstring) : jsstring :=
  match s with
  | [] => []
  | c :: s' =>
      match skip with
      | S n => remove_all_from pat n s'
      | O =>
          if starts_with pat s
          then remove_all_from pat (Nat.pred (length pat)) s'
          else c :: remove_all_from pat O s'
      end
  end.

Definition remove_all (pat s : jsstring) : jsstring :=
  match pat with
  | [] => s
  | _ => remove_all_from pat O s
  end.

(** [s.split(sep)] for a one-code-unit separator; the result is never
    empty. *)
Fixpoint split (sep : code_unit) (s : jsstring) : list jsstring :=
  match s with
  | [] => [[]]
  | c :: s' =>
      if (c =? sep)%N then [] :: split sep s'
      else match split sep s' with
           | piece :: rest => (c :: piece) :: rest
           | [] => [[c]]
           end
  end.

(** Truthiness of a string: only the empty string is falsy. *)
Definition truthy (s : jsstring) : bool :=
  match s with [] => false | _ => true end.

(** The last code unit of a text, and the one before its last space. *)
Definition last_unit (s : jsstring) : option code_unit := head (rev s).

Fixpoint from_space (s : jsstring) : jsstring :=
  match s with
  | [] => []
  | c :: s' => if (c =? 32)%N then s else from_space s'
  end.

Definition before_last_space (s : jsstring) : option code_unit :=
  match from_space (rev s) with
  | _ :: c :: _ => Some c
  | _ => None
  end.

End JSString.

(* ===================================================================== *)
(** * JavaScript values *)
(* ===================================================================== *)

(** The values that reach the pipeline: what [JSON.parse] and the network
    clients produce, plus [undefined] (the result of reading a property that
    is not there). Numbers are IEEE-754 doubles; objects keep their own
    properties in insertion order. *)
Inductive JSValue : Type :=
| JUndefined
| JNull
| JBool (b : bool)
| JNumber (x : spec_float)
| JString (s : jsstring)
| JArray (items : list JSValue)
| JObject (fields : list (jsstring * JSValue)).

Module JS.

(** ToBoolean *)
Definition truthy (v : JSValue) : bool :=
  match v with
  | JUndefined | JNull => false
  | JBool b => b
  | JNumber (S754_zero _) | JNumber S754_nan => false
  | JNumber _ => true
  | JString s => JSString.truthy s
  | JArray _ | JObject _ => true
  end.

Fixpoint assoc (name : jsstring) (fields : list (jsstring * JSValue)) : JSValue :=
  match fields with
  | [] => JUndefined
  | (k, v) :: rest => if decide (k = name) then v else assoc name rest
  end.

(** [v.name] for a truthy [v] and a name that no built-in prototype
    defines and that is neither an index nor [length] (the code reads
    [benefits] and [recipe_data] only): the own property of an object, and
    [undefined] on every other value. *)
Definition get (v : JSValue) (name : jsstring) : JSValue :=
  match v with
  | JObject fields => assoc name fields
  | _ => JUndefined
  end.

(** [Array.isArray(v)] *)
Definition isArray (v : JSValue) : bool :=
  match v with JArray _ => true | _ => false end.

(** [a || ''] on an environment variable that is a string or absent. *)
Definition or_empty (a : option jsstring) : jsstring := default [] a.

End JS.

(* ===================================================================== *)
(** * Dates *)
(* ===================================================================== *)

(** Time values are milliseconds since the epoch, as in ECMAScript
    (section "Time Values and Time Range"); the functions keep the names of
    the standard. *)
Module JSDate.

Definition msPerDay : Z := 86400000.
Definition msPerHour : Z := 3600000.
Definition msPerMinute : Z := 60000.
Definition msPerSecond : Z := 1000.

Definition Day (t : Z) : Z := t / msPerDay.
Definition TimeWithinDay (t : Z) : Z := t mod msPerDay.
Definition WeekDay (t : Z) : Z := (Day t + 4) mod 7.
Definition HourFromTime (t : Z) : Z := (t / msPerHour) mod 24.
Definition MinFromTime (t : Z) : Z := (t / msPerMinute) mod 60.
Definition SecFromTime (t : Z) : Z := (t / msPerSecond) mod 60.
Definition msFromTime (t : Z) : Z := t mod msPerSecond.

(** Proleptic Gregorian date of a day number (days since 1970-01-01):
    year, month 1..12 and day of the month 1..31, computed by eras of 400
    years that start on the first of March. *)
Definition civil (day : Z) : Z * Z * Z :=
  let z := day + 719468 in
  let era := z / 146097 in
  let doe := z - era * 146097 in
  let yoe := (doe - doe / 1460 + doe / 36524 - doe / 146096) / 365 in
  let doy := doe - (365 * yoe + yoe / 4 - yoe / 100) in
  let mp := (5 * doy + 2) / 153 in
  let d := doy - (153 * mp + 2) / 5 + 1 in
  let m := if mp <? 10 then mp + 3 else mp - 9 in
  let y := yoe + era * 400 + (if m <=? 2 then 1 else 0) in
  (y, m, d).

Definition YearFromTime (t : Z) : Z := fst (fst (civil (Day t))).
(** 0 = January, as in the standard. *)
Definition MonthFromTime (t : Z) : Z := snd (fst (civil (Day t))) - 1.
Definition DateFromTime (t : Z) : Z := snd (civil (Day t)).

(** The calendar date a time value falls on. *)
Definition calendar_date (t : Z) : Z * Z * Z :=
  (YearFromTime t, MonthFromTime t, DateFromTime t).

Definition digit (d : Z) : code_unit := Z.to_N (48 + d).

Fixpoint decimal_from (fuel : nat) (n : Z) (acc : jsstring) : jsstring :=
  match fuel with
  | O => digit (n mod 10) :: acc
  | S fuel' =>
      if n <? 10 then digit n :: acc
      else decimal_from fuel' (n / 10) (digit (n mod 10) :: acc)
  end.

(** Decimal digits of a non-negative integer. *)
Definition decimal (n : Z) : jsstring :=
  decimal_from (Z.to_nat (Z.log2 n)) n [].

(** ToZeroPaddedDecimalString *)
Definition ToZeroPaddedDecimalString (n : Z) (minLength : nat) : jsstring :=
  let ds := decimal n in
  replicate (minLength - length ds)%nat 48%N ++ ds.

Definition pad2 (n : Z) : jsstring := ToZeroPaddedDecimalString n 2.
Definition pad3 (n : Z) : jsstring := ToZeroPaddedDecimalString n 3.

(** The year of [Date.prototype.toISOString]: four digits from 0 to 9999,
    a sign and six digits outside. *)
Definition iso_year (y : Z) : jsstring :=
  if (0 <=? y) && (y <=? 9999) then ToZeroPaddedDecimalString y 4
  else (if y <? 0 then lit "-" else lit "+")
       ++ ToZeroPaddedDecimalString (Z.abs y) 6.

(** [new Date(t).toISOString()] : YYYY-MM-DDTHH:mm:ss.sssZ, in UTC. *)
Definition toISOString (t : Z) : jsstring :=
  iso_year (YearFromTime t) ++ lit "-" ++ pad2 (MonthFromTime t + 1)
  ++ lit "-" ++ pad2 (DateFromTime t) ++ lit "T"
  ++ pad2 (HourFromTime t) ++ lit ":" ++ pad2 (MinFromTime t) ++ lit ":"
  ++ pad2 (SecFromTime t) ++ lit "." ++ pad3 (msFromTime t) ++ lit "Z".

Definition day_name (w : Z) : jsstring :=
  nth (Z.to_nat w)
    [lit "Sun"; lit "Mon"; lit "Tue"; lit "Wed"; lit "Thu"; lit "Fri"; lit "Sat"] [].

Definition month_name (m : Z) : jsstring :=
  nth (Z.to_nat m)
    [lit "Jan"; lit "Feb"; lit "Mar"; lit "Apr"; lit "May"; lit "Jun";
     lit "Jul"; lit "Aug"; lit "Sep"; lit "Oct"; lit "Nov"; lit "Dec"] [].

(** DateString(tv) of the standard, on a local time value. *)
Definition DateString (tv : Z) : jsstring :=
  let yv := YearFromTime tv in
  day_name (WeekDay tv) ++ lit " " ++ month_name (MonthFromTime tv)
  ++ lit " " ++ pad2 (DateFromTime tv) ++ lit " "
  ++ (if 0 <=? yv then [] else lit "-")
  ++ ToZeroPaddedDecimalString (Z.abs yv) 4.

(** [new Date(t).toDateString()], where [LocalTZA t] is the offset of the
    host's time zone from UTC at [t], in milliseconds. *)
Definition toDateString (LocalTZA : Z -> Z) (t : Z) : jsstring :=
  DateString (t + LocalTZA t).

Definition UTC : Z -> Z := fun _ => 0.

(** The date part of [toISOString], from a calendar date. *)
Definition iso_date (date : Z * Z * Z) : jsstring :=
  let '(y, m, d) := date in
  iso_year y ++ lit "-" ++ pad2 (m + 1) ++ lit "-" ++ pad2 d.

End JSDate.


(* ===================================================================== *)
(** * Effects *)
(* ===================================================================== *)

(** What a [throw] carries: the [SyntaxError] of [JSON.parse], the
    [TypeError] of a property read on [null], an [Error] made by the code,
    or the reason a promise was rejected with. *)
Inductive Exn : Type :=
| SyntaxError (source : jsstring)
| TypeError
| Error (message : jsstring)
| Rejection (reason : JSValue).

(** How an awaited promise settles. *)
Inductive Settled (X : Type) : Type :=
| Fulfilled (x : X)
| Rejected (e : Exn).
Arguments Fulfilled {X} x.
Arguments Rejected {X} e.

(** [{ data, error }] of a Supabase query. *)
Record PostgrestResponse : Type := { data : JSValue; error : JSValue }.

(** The response of [ai.models.generateContent]; [text] is a string or
    [undefined]. *)
Record GenerateContentResponse : Type := { text : option jsstring }.

(** The calls that leave the device. [SelectSingle date] is
    [supabase.from('daily_recipes').select('recipe_data').eq('date', date).single()],
    [Upsert date recipe] is
    [supabase.from('daily_recipes').upsert({ date, recipe_data: recipe }, { onConflict: 'date' })],
    [GenerateContent] is [ai.models.generateContent] with the fixed prompt and
    schema, and [NewDate] reads the clock. *)
Inductive Call : Type -> Type :=
| NewDate : Call Z
| SelectSingle (date : jsstring) : Call (Settled PostgrestResponse)
| Upsert (date : jsstring) (recipe_data : JSValue) : Call (Settled PostgrestResponse)
| GenerateContent : Call (Settled GenerateContentResponse).

(** A program is a tree of calls; the continuation receives the answer. *)
Inductive Prog (A : Type) : Type :=
| Ret (a : A)
| Vis {X : Type} (c : Call X) (k : X -> Prog A).
Arguments Ret {A} a.
Arguments Vis {A X} c k.

Fixpoint pbind {A B : Type} (p : Prog A) (f : A -> Prog B) : Prog B :=
  match p with
  | Ret a => f a
  | Vis c k => Vis c (fun x => pbind (k x) f)
  end.

(** The client object [createClient(url, key)] returns. *)
Record SupabaseClient : Type := { client_url : jsstring; client_key : jsstring }.

(** The state of one device: the browser's local storage, the two React
    state cells of [App] that the pipeline sets, the labels passed to
    [console.error] (latest first), and the module variable [client] of the
    Supabase module. *)
Record Device : Type := {
  localStorage : gmap jsstring jsstring;
  dailyRecipe : JSValue;
  isGeneratingRecipe : bool;
  console : list jsstring;
  client : option SupabaseClient
}.

(** How a block of statements completes: normally, by [return], or by
    [throw]. *)
Inductive Completion (R A : Type) : Type :=
| Normal (a : A)
| Return (r : R)
| Throw (e : Exn).
Arguments Normal {R A} a.
Arguments Return {R A} r.
Arguments Throw {R A} e.

(** Statements of a function whose [return] carries an [R]. *)
Definition M (R A : Type) : Type := Device -> Prog (Completion R A * Device).

Module Stmt.

Definition ret {R A} (a : A) : M R A := fun d => Ret (Normal a, d).

Definition bind {R A B} (m : M R A) (f : A -> M R B) : M R B :=
  fun d => pbind (m d) (fun '(c, d') =>
    match c with
    | Normal a => f a d'
    | Return r => Ret (Return r, d')
    | Throw e => Ret (Throw e, d')
    end).

Definition return_ {R A} (r : R) : M R A := fun d => Ret (Return r, d).
Definition throw {R A} (e : Exn) : M R A := fun d => Ret (Throw e, d).

(** A call that cannot fail. *)
Definition perform {R X} (c : Call X) : M R X :=
  fun d => Vis c (fun x => Ret (Normal x, d)).

(** [await] of a promise: a rejection is thrown at the [await]. *)
Definition await {R X} (c : Call (Settled X)) : M R X :=
  fun d => Vis c (fun s =>
    match s with
    | Fulfilled x => Ret (Normal x, d)
    | Rejected e => Ret (Throw e, d)
    end).

(** [if (b) { body }] *)
Definition when {R} (b : bool) (body : M R unit) : M R unit :=
  if b then body else ret tt.

(** [try { body } catch (e) { handler e }] *)
Definition try_catch {R A} (body : M R A) (handler : Exn -> M R A) : M R A :=
  fun d => pbind (body d) (fun '(c, d') =>
    match c with
    | Throw e => handler e d'
    | _ => Ret (c, d')
    end).

(** [try { body } finally { fin }]: [fin] runs however [body] completes,
    and the completion of [body] stands unless [fin] is abrupt itself. *)
Definition try_finally {R A} (body : M R A) (fin : M R unit) : M R A :=
  fun d => pbind (body d) (fun '(c, d') =>
    pbind (fin d') (fun '(cf, d'') =>
      match cf with
      | Normal _ => Ret (c, d'')
      | Return r => Ret (Return r, d'')
      | Throw e => Ret (Throw e, d'')
      end)).

(** [try { body } catch (e) { handler e } finally { fin }] *)
Definition try_catch_finally {R A}
    (body : M R A) (handler : Exn -> M R A) (fin : M R unit) : M R A :=
  try_finally (try_catch body handler) fin.

(** [await f()] for an [async] function with body [body]: the value it
    returns ([undefined] when it falls off the end), or its exception. *)
Definition await_call {R} (body : M JSValue unit) : M R JSValue :=
  fun d => pbind (body d) (fun '(c, d') =>
    match c with
    | Normal _ => Ret (Normal JUndefined, d')
    | Return r => Ret (Normal r, d')
    | Throw e => Ret (Throw e, d')
    end).

(** Reads and writes of the device state. *)
Definition gets {R A} (f : Device -> A) : M R A := fun d => Ret (Normal (f d), d).
Definition modify {R} (f : Device -> Device) : M R unit := fun d => Ret (Normal tt, f d).

End Stmt.

Declare Scope stmt_scope.
Delimit Scope stmt_scope with stmt.
Notation "x <- m ;; k" := (Stmt.bind m (fun x => k))
  (at level 100, m at next level, k at level 200, right associativity) : stmt_scope.
Notation "m ;; k" := (Stmt.bind m (fun _ => k))
  (at level 100, k at level 200, right associativity) : stmt_scope.

(** ** Device operations *)

Definition set_localStorage (ls : gmap jsstring jsstring) (d : Device) : Device :=
  {| localStorage := ls; dailyRecipe := dailyRecipe d;
     isGeneratingRecipe := isGeneratingRecipe d; console := console d;
     client := client d |}.

Definition set_dailyRecipe (v : JSValue) (d : Device) : Device :=
  {| localStorage := localStorage d; dailyRecipe := v;
     isGeneratingRecipe := isGeneratingRecipe d; console := console d;
     client := client d |}.

Definition set_isGeneratingRecipe (b : bool) (d : Device) : Device :=
  {| localStorage := localStorage d; dailyRecipe := dailyRecipe d;
     isGeneratingRecipe := b; console := console d; client := client d |}.

Definition log_error (label : jsstring) (d : Device) : Device :=
  {| localStorage := localStorage d; dailyRecipe := dailyRecipe d;
     isGeneratingRecipe := isGeneratingRecipe d; console := label :: console d;
     client := client d |}.

Definition set_client (c : option SupabaseClient) (d : Device) : Device :=
  {| localStorage := localStorage d; dailyRecipe := dailyRecipe d;
     isGeneratingRecipe := isGeneratingRecipe d; console := console d;
     client := c |}.

Module Browser.

(** [localStorage.getItem(key)]: the stored string or [null]. *)
Definition getItem {R} (key : jsstring) : M R (option jsstring) :=
  Stmt.gets (fun d => localStorage d !! key).

(** [localStorage.setItem(key, value)]; storage is taken to accept the
    write (no quota). *)
Definition setItem {R} (key value : jsstring) : M R unit :=
  Stmt.modify (fun d => set_localStorage (<[key := value]> (localStorage d)) d).

(** [console.error(label, ...)] *)
Definition console_error {R} (label : jsstring) : M R unit :=
  Stmt.modify (log_error label).

End Browser.

(** React state setters of [App]. *)
Definition setDailyRecipe {R} (v : JSValue) : M R unit :=
  Stmt.modify (set_dailyRecipe v).
Definition setIsGeneratingRecipe {R} (b : bool) : M R unit :=
  Stmt.modify (set_isGeneratingRecipe b).

(* ===================================================================== *)
(** * The host *)
(* ===================================================================== *)

(** The built-ins whose result the pipeline only passes on: [JSON.parse]
    ([None] when it throws a [SyntaxError]), [JSON.stringify] ([None] when it
    returns [undefined]) and the offset of the local time zone. Everything
    below holds for any host. *)
Class Host : Type := {
  JSON_parse : jsstring -> option JSValue;
  JSON_stringify : JSValue -> option jsstring;
  LocalTZA : Z -> Z
}.

(** [JSON.parse(s)] as a statement. *)
Definition JSON_parse_stmt `{Host} {R} (s : jsstring) : M R JSValue :=
  match JSON_parse s with
  | Some v => Stmt.ret v
  | None => Stmt.throw (SyntaxError s)
  end.

(** The string [localStorage.setItem] stores for [JSON.stringify(v)]. *)
Definition stringified `{Host} (v : JSValue) : jsstring :=
  default (lit "undefined") (JSON_stringify v).

(** [import.meta.env], the part the code reads. *)
Record ImportMetaEnv : Type := {
  VITE_SUPABASE_URL : option jsstring;
  VITE_SUPABASE_ANON_KEY : option jsstring
}.

(* ===================================================================== *)
(** * services/supabaseClient.ts *)
(* ===================================================================== *)

(** [createClient(url, key)]; it is taken to succeed, a client that cannot
    reach the store shows as calls that are rejected or answered with an
    [error]. *)
Definition createClient (url key : jsstring) : SupabaseClient :=
  {| client_url := url; client_key := key |}.

(** What the two copies of the module share. *)
Module SupabaseConfig.
Section Config.
Variable env : ImportMetaEnv.

Definition supabaseUrl : jsstring := JS.or_empty (VITE_SUPABASE_URL env).
Definition supabaseAnonKey : jsstring := JS.or_empty (VITE_SUPABASE_ANON_KEY env).

(** [Boolean(supabaseUrl && supabaseAnonKey)] *)
Definition isSupabaseConfigured : bool :=
  JSString.truthy (if JSString.truthy supabaseUrl then supabaseAnonKey else supabaseUrl).
End Config.
End SupabaseConfig.

(** The copy that builds the client when the module is loaded. *)
Module SupabaseClientEager.
Section Copy.
Variable env : ImportMetaEnv.

Definition isSupabaseConfigured : bool := SupabaseConfig.isSupabaseConfigured env.

(** The value of [client] once the module is loaded. *)
Definition loaded_client : option SupabaseClient :=
  if isSupabaseConfigured
  then Some (createClient (SupabaseConfig.supabaseUrl env) (SupabaseConfig.supabaseAnonKey env))
  else None.

(** A property read on [supabase = client as SupabaseClient]: a
    [TypeError] when [client] is [null]. *)
Definition supabase {R} : M R SupabaseClient :=
  match loaded_client with
  | Some c => Stmt.ret c
  | None => Stmt.throw TypeError
  end.
End Copy.
End SupabaseClientEager.

(** The copy with [getSupabase] and the proxy. *)
Module SupabaseClientLazy.
Section Copy.
Variable env : ImportMetaEnv.

Definition isSupabaseConfigured : bool := SupabaseConfig.isSupabaseConfigured env.

(** [getSupabase()]: [null] without credentials, otherwise the client,
    created at the first call and kept in [client]. *)
Definition getSupabase {R} : M R (option SupabaseClient) :=
  if negb isSupabaseConfigured then Stmt.ret None
  else
    (c <- Stmt.gets client ;;
     Stmt.when (match c with None => true | Some _ => false end)
       (Stmt.modify (set_client
          (Some (createClient (SupabaseConfig.supabaseUrl env)
                              (SupabaseConfig.supabaseAnonKey env))))) ;;
     Stmt.gets client)%stmt.

Definition not_configured_message : jsstring :=
  lit "Supabase is not configured. Please set VITE_SUPABASE_URL and VITE_SUPABASE_ANON_KEY in your environment variables.".

(** The [get] trap of the proxy [supabase]. *)
Definition supabase {R} : M R SupabaseClient :=
  (s <- getSupabase ;;
   match s with
   | None => Stmt.throw (Error not_configured_message)
   | Some c => Stmt.ret c
   end)%stmt.
End Copy.
End SupabaseClientLazy.

(* ===================================================================== *)
(** * services/geminiService.ts *)
(* ===================================================================== *)

Definition fence : jsstring := lit "```".
Definition fence_json : jsstring := lit "```json".

(** The text handed to [JSON.parse] by the copy that removes code fences:
    [response.text.trim()], and when that includes a fence,
    [.replace(/```json/g, '').replace(/```/g, '').trim()] of it. *)
Definition strip_fences (response_text : jsstring) : jsstring :=
  let text := JSString.trim response_text in
  if JSString.includes text fence
  then JSString.trim (JSString.remove_all fence (JSString.remove_all fence_json text))
  else text.

(** [if (response.text)] *)
Definition text_truthy (t : option jsstring) : bool :=
  match t with Some s => JSString.truthy s | None => false end.

(** The copy that removes code fences before parsing. *)
Module GeminiService.
Section Copy.
Context `{Host}.

Definition generateDailyRecipe : M JSValue unit :=
  Stmt.try_catch
    (response <- Stmt.await GenerateContent ;;
     Stmt.when (text_truthy (text response))
       (let text := strip_fences (default [] (text response)) in
        Stmt.try_catch
          (v <- JSON_parse_stmt text ;; Stmt.return_ v)
          (fun parseError =>
             Browser.console_error (lit "Failed to parse Gemini response as JSON:") ;;
             Stmt.return_ JNull)) ;;
     Stmt.return_ JNull)%stmt
    (fun error =>
       Browser.console_error (lit "Error generating daily recipe:") ;;
       Stmt.return_ JNull)%stmt.
End Copy.
End GeminiService.

(** The copy that parses [response.text.trim()] as it is. *)
Module GeminiServicePlain.
Section Copy.
Context `{Host}.

Definition generateDailyRecipe : M JSValue unit :=
  Stmt.try_catch
    (response <- Stmt.await GenerateContent ;;
     Stmt.when (text_truthy (text response))
       (v <- JSON_parse_stmt (JSString.trim (default [] (text response))) ;;
        Stmt.return_ v) ;;
     Stmt.return_ JNull)%stmt
    (fun error =>
       Browser.console_error (lit "Error generating daily recipe:") ;;
       Stmt.return_ JNull)%stmt.
End Copy.
End GeminiServicePlain.

(* ===================================================================== *)
(** * App.tsx *)
(* ===================================================================== *)

(** Which copy of each service module [App.tsx] is built with. *)
Inductive SupabaseCopy : Type := EagerClient | LazyClient.
Inductive GeminiCopy : Type := FenceStripping | PlainParse.
Record Build : Type := { supabaseCopy : SupabaseCopy; geminiCopy : GeminiCopy }.

Module App.
Section Component.
Context `{Host}.
Variable build : Build.
Variable env : ImportMetaEnv.

Definition isSupabaseConfigured : bool :=
  match supabaseCopy build with
  | EagerClient => SupabaseClientEager.isSupabaseConfigured env
  | LazyClient => SupabaseClientLazy.isSupabaseConfigured env
  end.

Definition supabase {R} : M R SupabaseClient :=
  match supabaseCopy build with
  | EagerClient => SupabaseClientEager.supabase env
  | LazyClient => SupabaseClientLazy.supabase env
  end.

Definition generateDailyRecipe : M JSValue unit :=
  match geminiCopy build with
  | FenceStripping => GeminiService.generateDailyRecipe
  | PlainParse => GeminiServicePlain.generateDailyRecipe
  end.

Definition daily_recipe : jsstring := lit "daily_recipe".
Definition daily_recipe_date : jsstring := lit "daily_recipe_date".
Definition benefits : jsstring := lit "benefits".
Definition recipe_data : jsstring := lit "recipe_data".

(** [new Date().toISOString().split('T')[0]] *)
Definition dateKey (now : Z) : jsstring :=
  default [] (head (JSString.split 84%N (JSDate.toISOString now))).

(** [new Date().toDateString()] *)
Definition freshnessTag (now : Z) : jsstring :=
  JSDate.toDateString LocalTZA now.

Definition fetchDailyRecipe : M unit unit :=
  (now <- Stmt.perform NewDate ;;
   let today := dateKey now in
   now' <- Stmt.perform NewDate ;;
   let todayString := freshnessTag now' in

   (* 1. Check Local Cache first for speed *)
   cachedRecipeStr <- Browser.getItem daily_recipe ;;
   cachedDate <- Browser.getItem daily_recipe_date ;;
   Stmt.when (text_truthy cachedRecipeStr && bool_decide (cachedDate = Some todayString))
     (Stmt.try_catch
        (parsed <- JSON_parse_stmt (default [] cachedRecipeStr) ;;
         Stmt.when (JS.truthy parsed && JS.isArray (JS.get parsed benefits))
           (setDailyRecipe parsed ;;
            Stmt.return_ tt))
        (fun e => Browser.console_error (lit "Local cache error"))) ;;

   setIsGeneratingRecipe true ;;

   Stmt.try_catch_finally
     ((* 2. Check Supabase Global Cache (if configured) *)
      Stmt.when isSupabaseConfigured
        (_ <- supabase ;;
         response <- Stmt.await (SelectSingle today) ;;
         let supabaseData := data response in
         let supabaseError := error response in
         Stmt.when (JS.truthy supabaseData && negb (JS.truthy supabaseError))
           (let recipe := JS.get supabaseData recipe_data in
            setDailyRecipe recipe ;;
            Browser.setItem daily_recipe (stringified recipe) ;;
            Browser.setItem daily_recipe_date todayString ;;
            setIsGeneratingRecipe false ;;
            Stmt.return_ tt)) ;;

      (* 3. Generate with Gemini *)
      recipe <- Stmt.await_call generateDailyRecipe ;;
      Stmt.when (JS.truthy recipe)
        (setDailyRecipe recipe ;;
         Browser.setItem daily_recipe (stringified recipe) ;;
         Browser.setItem daily_recipe_date todayString ;;

         (* 4. Save to Supabase for everyone else (if configured) *)
         Stmt.when isSupabaseConfigured
           (_ <- supabase ;;
            _ <- Stmt.await (Upsert today recipe) ;;
            Stmt.ret tt)))
     (fun error => Browser.console_error (lit "Supabase/Gemini error"))
     (setIsGeneratingRecipe false))%stmt.

(** The state [App] mounts with: [useState(null)], [useState(false)]. *)
Definition mount (storage : gmap jsstring jsstring) : Device :=
  {| localStorage := storage; dailyRecipe := JNull;
     isGeneratingRecipe := false; console := [];
     client := match supabaseCopy build with
               | EagerClient => SupabaseClientEager.loaded_client env
               | LazyClient => None
               end |}.

End Component.
End App.

(* ===================================================================== *)
(** * Running a resolution *)
(* ===================================================================== *)

(** One call together with its answer, as seen from outside the device. *)
Inductive Obs : Type :=
| ObsNewDate (t : Z)
| ObsSelect (date : jsstring) (answer : Settled PostgrestResponse)
| ObsUpsert (date : jsstring) (recipe : JSValue) (answer : Settled PostgrestResponse)
| ObsGenerate (answer : Settled GenerateContentResponse).

Definition observe {X} (c : Call X) : X -> Obs :=
  match c in Call X return X -> Obs with
  | NewDate => ObsNewDate
  | SelectSingle date => ObsSelect date
  | Upsert date recipe => ObsUpsert date recipe
  | GenerateContent => ObsGenerate
  end.

Definition is_select (o : Obs) : bool :=
  match o with ObsSelect _ _ => true | _ => false end.
Definition is_upsert (o : Obs) : bool :=
  match o with ObsUpsert _ _ _ => true | _ => false end.
Definition is_generate (o : Obs) : bool :=
  match o with ObsGenerate _ => true | _ => false end.
Definition is_network (o : Obs) : bool :=
  match o with ObsNewDate _ => false | _ => true end.

(** The environment answers each call and moves to a new state. *)
Definition Handler (W : Type) : Type := forall X, Call X -> W -> X * W.

(** The result of a program, the environment it leaves, and the calls it
    made, in order. *)
Fixpoint interp {W A} (h : Handler W) (p : Prog A) (w : W) : A * W * list Obs :=
  match p with
  | Ret a => (a, w, [])
  | Vis c k =>
      let '(x, w') := h _ c w in
      let '(a, w'', trace) := interp h (k x) w' in
      (a, w'', observe c x :: trace)
  end.

(** ** A scripted environment

    One resolution reads the clock twice and makes each network call at
    most once, so an environment is given by the clock readings and by the
    answer it has for each call. *)
Record Env : Type := {
  clock : nat -> Z;
  select_single : jsstring -> Settled PostgrestResponse;
  generateContent : Settled GenerateContentResponse;
  upsert : jsstring -> JSValue -> Settled PostgrestResponse
}.

Definition scripted (e : Env) : Handler nat :=
  fun X c =>
    match c in Call X return nat -> X * nat with
    | NewDate => fun n => (clock e n, S n)
    | SelectSingle date => fun n => (select_single e date, n)
    | Upsert date recipe => fun n => (upsert e date recipe, n)
    | GenerateContent => fun n => (generateContent e, n)
    end.

(** What is left when a run is over. *)
Record Outcome (R : Type) : Type := {
  completion : Completion R unit;
  device : Device;
  trace : list Obs
}.
Arguments completion {R} _.
Arguments device {R} _.
Arguments trace {R} _.

Definition run {R} (e : Env) (m : M R unit) (d : Device) : Outcome R :=
  let '(c, d', _, tr) := interp (scripted e) (m d) O in
  {| completion := c; device := d'; trace := tr |}.

(** ** The shared store

    The table [daily_recipes] of the specification (section 6): records
    [{date, recipe_data}], at most one per date; a point lookup by date and
    an upsert with [date] as the conflict target, which overwrites. The
    store is an external service; this is the store when it is reachable. *)
Module Store.

Definition row (recipe : JSValue) : JSValue :=
  JObject [(lit "recipe_data", recipe)].

(** The error of [.single()] on no row. *)
Definition no_rows : JSValue :=
  JObject [(lit "code", JString (lit "PGRST116"))].

Definition select (store : gmap jsstring JSValue) (date : jsstring) : PostgrestResponse :=
  match store !! date with
  | Some recipe => {| data := row recipe; error := JNull |}
  | None => {| data := JNull; error := no_rows |}
  end.

Definition upsert (store : gmap jsstring JSValue) (date : jsstring)
    (recipe : JSValue) : gmap jsstring JSValue :=
  <[date := recipe]> store.

End Store.

(** The environment of a device that reaches the store: the clock and the
    generation service are scripted by [e], lookups and upserts are served
    by the store. *)
Definition served (e : Env) : Handler (nat * gmap jsstring JSValue) :=
  fun X c =>
    match c in Call X return nat * gmap jsstring JSValue -> X * (nat * gmap jsstring JSValue) with
    | NewDate => fun w => (clock e (fst w), (S (fst w), snd w))
    | SelectSingle date => fun w => (Fulfilled (Store.select (snd w) date), w)
    | Upsert date recipe => fun w =>
        (Fulfilled {| data := JNull; error := JNull |},
         (fst w, Store.upsert (snd w) date recipe))
    | GenerateContent => fun w => (generateContent e, w)
    end.

Record StoreOutcome (R : Type) : Type := {
  s_completion : Completion R unit;
  s_device : Device;
  s_store : gmap jsstring JSValue;
  s_trace : list Obs
}.
Arguments s_completion {R} _.
Arguments s_device {R} _.
Arguments s_store {R} _.
Arguments s_trace {R} _.

Definition run_with_store {R} (e : Env) (m : M R unit) (d : Device)
    (store : gmap jsstring JSValue) : StoreOutcome R :=
  let '(c, d', w, tr) := interp (served e) (m d) (O, store) in
  {| s_completion := c; s_device := d'; s_store := snd w; s_trace := tr |}.

(* ===================================================================== *)
(** * A reference host *)
(* ===================================================================== *)

(** [JSON.parse] and [JSON.stringify] of ECMAScript on the texts and values
    whose numbers are integers below 2^53 in magnitude (a number with a
    fraction or an exponent is outside this reader, which gives [None] for
    it), in a host whose local time is UTC. The theorems do not depend on
    it: it is the host of the examples. *)
Module ReferenceHost.

Definition is_json_ws (c : code_unit) : bool :=
  ((c =? 32) || (c =? 9) || (c =? 10) || (c =? 13))%N.

Fixpoint skip_ws (s : jsstring) : jsstring :=
  match s with
  | c :: s' => if is_json_ws c then skip_ws s' else s
  | [] => []
  end.

Definition is_digit (c : code_unit) : bool := ((48 <=? c) && (c <=? 57))%N.

Definition hex_value (c : code_unit) : option N :=
  if is_digit c then Some (c - 48)%N
  else if ((97 <=? c) && (c <=? 102))%N then Some (c - 87)%N
  else if ((65 <=? c) && (c <=? 70))%N then Some (c - 55)%N
  else None.

Definition hex4 (a b c d : code_unit) : option code_unit :=
  match hex_value a, hex_value b, hex_value c, hex_value d with
  | Some x, Some y, Some z, Some w => Some (((x * 16 + y) * 16 + z) * 16 + w)%N
  | _, _, _, _ => None
  end.

(** The single-character escapes of a JSON string. *)
Definition unescape (c : code_unit) : option code_unit :=
  if ((c =? 34) || (c =? 92) || (c =? 47))%N then Some c
  else if (c =? 98)%N then Some 8%N
  else if (c =? 102)%N then Some 12%N
  else if (c =? 110)%N then Some 10%N
  else if (c =? 114)%N then Some 13%N
  else if (c =? 116)%N then Some 9%N
  else None.

(** After the opening quote: the characters up to the closing quote, and
    the rest of the input. *)
Fixpoint read_string (s : jsstring) (acc : jsstring) : option (jsstring * jsstring) :=
  match s with
  | [] => None
  | c :: rest =>
      if (c =? 34)%N then Some (rev acc, rest)
      else if (c =? 92)%N then
        match rest with
        | [] => None
        | e :: rest' =>
            if (e =? 117)%N then
              match rest' with
              | h1 :: h2 :: h3 :: h4 :: rest'' =>
                  match hex4 h1 h2 h3 h4 with
                  | Some u => read_string rest'' (u :: acc)
                  | None => None
                  end
              | _ => None
              end
            else match unescape e with
                 | Some u => read_string rest' (u :: acc)
                 | None => None
                 end
        end
      else if (c <? 32)%N then None
      else read_string rest (c :: acc)
  end.

Fixpoint read_digits (s : jsstring) (acc : Z) : Z * jsstring :=
  match s with
  | c :: s' => if is_digit c then read_digits s' (acc * 10 + Z.of_N (c - 48)) else (acc, s)
  | [] => (acc, [])
  end.

Definition double_of_Z (negative : bool) (n : Z) : spec_float :=
  if n =? 0 then S754_zero negative
  else binary_normalize 53 1024 (if negative then - n else n) 0 false.

(** An integer literal; a leading zero stands alone. *)
Definition read_number (s : jsstring) : option (JSValue * jsstring) :=
  let '(negative, s1) :=
    match s with
    | c :: s' => if (c =? 45)%N then (true, s') else (false, s)
    | [] => (false, s)
    end in
  match s1 with
  | d :: s2 =>
      if is_digit d then
        let '(n, s3) := if (d =? 48)%N then (0, s2) else read_digits s1 0 in
        match s3 with
        | c :: _ =>
            if is_digit c || (c =? 46)%N || (c =? 101)%N || (c =? 69)%N then None
            else if 9007199254740992 <=? n then None
            else Some (JNumber (double_of_Z negative n), s3)
        | [] =>
            if 9007199254740992 <=? n then None
            else Some (JNumber (double_of_Z negative n), s3)
        end
      else None
  | [] => None
  end.

(** CreateDataProperty: a repeated name keeps its place and takes the new
    value. *)
Fixpoint set_field (name : jsstring) (v : JSValue)
    (fields : list (jsstring * JSValue)) : list (jsstring * JSValue) :=
  match fields with
  | [] => [(name, v)]
  | (k, w) :: rest =>
      if decide (k = name) then (k, v) :: rest else (k, w) :: set_field name v rest
  end.

Definition keyword (word : jsstring) (v : JSValue) (s : jsstring) : option (JSValue * jsstring) :=
  if JSString.starts_with word s then Some (v, drop (length word) s) else None.

Fixpoint read_value (fuel : nat) (s : jsstring) : option (JSValue * jsstring) :=
  match fuel with
  | O => None
  | S fuel' =>
      match skip_ws s with
      | [] => None
      | c :: rest =>
          if (c =? 34)%N then
            match read_string rest [] with
            | Some (str, rest') => Some (JString str, rest')
            | None => None
            end
          else if (c =? 91)%N then
            match skip_ws rest with
            | c' :: rest' =>
                if (c' =? 93)%N then Some (JArray [], rest')
                else match read_items fuel' (skip_ws rest) [] with
                     | Some (items, rest'') => Some (JArray items, rest'')
                     | None => None
                     end
            | [] => None
            end
          else if (c =? 123)%N then
            match skip_ws rest with
            | c' :: rest' =>
                if (c' =? 125)%N then Some (JObject [], rest')
                else match read_members fuel' (skip_ws rest) [] with
                     | Some (fields, rest'') => Some (JObject fields, rest'')
                     | None => None
                     end
            | [] => None
            end
          else if (c =? 110)%N then keyword (lit "null") JNull (c :: rest)
          else if (c =? 116)%N then keyword (lit "true") (JBool true) (c :: rest)
          else if (c =? 102)%N then keyword (lit "false") (JBool false) (c :: rest)
          else read_number (c :: rest)
      end
  end
with read_items (fuel : nat) (s : jsstring) (acc : list JSValue)
    : option (list JSValue * jsstring) :=
  match fuel with
  | O => None
  | S fuel' =>
      match read_value fuel' s with
      | Some (v, rest) =>
          match skip_ws rest with
          | c :: rest' =>
              if (c =? 44)%N then read_items fuel' rest' (v :: acc)
              else if (c =? 93)%N then Some (rev (v :: acc), rest')
              else None
          | [] => None
          end
      | None => None
      end
  end
with read_members (fuel : nat) (s : jsstring) (acc : list (jsstring * JSValue))
    : option (list (jsstring * JSValue) * jsstring) :=
  match fuel with
  | O => None
  | S fuel' =>
      match skip_ws s with
      | q :: rest =>
          if (q =? 34)%N then
            match read_string rest [] with
            | Some (name, rest1) =>
                match skip_ws rest1 with
                | colon :: rest2 =>
                    if (colon =? 58)%N then
                      match read_value fuel' rest2 with
                      | Some (v, rest3) =>
                          match skip_ws rest3 with
                          | c :: rest4 =>
                              if (c =? 44)%N then read_members fuel' rest4 (set_field name v acc)
                              else if (c =? 125)%N then Some (set_field name v acc, rest4)
                              else None
                          | [] => None
                          end
                      | None => None
                      end
                    else None
                | [] => None
                end
            | None => None
            end
          else None
      | [] => None
      end
  end.

(** [JSON.parse(s)]: one value, and nothing but white space after it. *)
Definition parse (s : jsstring) : option JSValue :=
  match read_value (S (length s)) s with
  | Some (v, rest) => match skip_ws rest with [] => Some v | _ => None end
  | None => None
  end.

Definition hex_digit (n : N) : code_unit :=
  if (n <? 10)%N then (48 + n)%N else (87 + n)%N.

(** QuoteJSONString, one code unit. *)
Definition quote_unit (c : code_unit) : jsstring :=
  if (c =? 34)%N then [92; 34]%N
  else if (c =? 92)%N then lit "\\"
  else if (c =? 8)%N then lit "\b"
  else if (c =? 12)%N then lit "\f"
  else if (c =? 10)%N then lit "\n"
  else if (c =? 13)%N then lit "\r"
  else if (c =? 9)%N then lit "\t"
  else if ((c <? 32) || ((55296 <=? c) && (c <=? 57343)))%N then
    lit "\u" ++ [hex_digit (c / 4096); hex_digit ((c / 256) mod 16);
                 hex_digit ((c / 16) mod 16); hex_digit (c mod 16)]%N
  else [c].

Definition quote (s : jsstring) : jsstring :=
  [34%N] ++ concat (List.map quote_unit s) ++ [34%N].

(** Number::toString on the integers of this host; [null] for what is not
    finite. *)
Definition number_text (x : spec_float) : jsstring :=
  match x with
  | S754_zero _ => lit "0"
  | S754_finite negative m e =>
      (if negative then lit "-" else [])
      ++ JSDate.decimal (Z.shiftl (Z.pos m) e)
  | S754_infinity _ | S754_nan => lit "null"
  end.

Definition join_with_commas (parts : list jsstring) : jsstring :=
  match parts with
  | [] => []
  | p :: rest => p ++ concat (List.map (fun q => lit "," ++ q) rest)
  end.

(** SerializeJSONProperty; [None] is [undefined]. *)
Fixpoint serialize (v : JSValue) : option jsstring :=
  match v with
  | JUndefined => None
  | JNull => Some (lit "null")
  | JBool true => Some (lit "true")
  | JBool false => Some (lit "false")
  | JNumber x => Some (number_text x)
  | JString s => Some (quote s)
  | JArray items =>
      Some (lit "[" ++ join_with_commas
              (List.map (fun item => default (lit "null") (serialize item)) items)
            ++ lit "]")
  | JObject fields =>
      Some (lit "{" ++ join_with_commas
              (omap (fun kv => match serialize (snd kv) with
                               | Some text => Some (quote (fst kv) ++ lit ":" ++ text)
                               | None => None
                               end) fields)
            ++ lit "}")
  end.

Definition host : Host :=
  {| JSON_parse := parse; JSON_stringify := serialize; LocalTZA := JSDate.UTC |}.

End ReferenceHost.

(* ===================================================================== *)
(** * The stages of a resolution *)
(* ===================================================================== *)

(** What the local stage finds: a hit, or a miss; [parse_failed] tells the
    miss that went through the [catch] of the local block. *)
Inductive LocalResult : Type :=
| LocalHit (recipe : JSValue)
| LocalMiss (parse_failed : bool).

(** What the shared stage finds: a hit, a miss (an answer without usable
    data), the store not configured, or the lookup itself throwing. *)
Inductive SharedResult : Type :=
| SharedHit (recipe : JSValue)
| SharedMiss
| SharedUnavailable
| SharedThrows (e : Exn).

Section Stages.
Context `{Host}.
Variable build : Build.
Variable env : ImportMetaEnv.

(** The condition of the local block of [fetchDailyRecipe] on the two
    slots of local storage. *)
Definition readLocal (storage : gmap jsstring jsstring) (freshnessTag : jsstring)
    : LocalResult :=
  let cachedRecipeStr := storage !! App.daily_recipe in
  let cachedDate := storage !! App.daily_recipe_date in
  if text_truthy cachedRecipeStr && bool_decide (cachedDate = Some freshnessTag)
  then match JSON_parse (default [] cachedRecipeStr) with
       | Some parsed =>
           if JS.truthy parsed && JS.isArray (JS.get parsed App.benefits)
           then LocalHit parsed
           else LocalMiss false
       | None => LocalMiss true
       end
  else LocalMiss false.

(** The condition [supabaseData && !supabaseError] on an answer. *)
Definition usable (response : PostgrestResponse) : bool :=
  JS.truthy (data response) && negb (JS.truthy (error response)).

(** The shared block of [fetchDailyRecipe] on the answer of the store. *)
Definition readShared (e : Env) (dateKey : jsstring) : SharedResult :=
  if App.isSupabaseConfigured build env then
    match select_single e dateKey with
    | Fulfilled response =>
        if usable response
        then SharedHit (JS.get (data response) App.recipe_data)
        else SharedMiss
    | Rejected x => SharedThrows x
    end
  else SharedUnavailable.

(** The text the build's copy of the service parses. *)
Definition parsed_text (response_text : jsstring) : jsstring :=
  match geminiCopy build with
  | FenceStripping => strip_fences response_text
  | PlainParse => JSString.trim response_text
  end.

(** The label the build's copy of the service logs on a parse error. *)
Definition parse_error_label : jsstring :=
  match geminiCopy build with
  | FenceStripping => lit "Failed to parse Gemini response as JSON:"
  | PlainParse => lit "Error generating daily recipe:"
  end.

(** What [generateDailyRecipe] returns on an answer of the service, and
    what it logs. *)
Definition generate (answer : Settled GenerateContentResponse) : JSValue * option jsstring :=
  match answer with
  | Rejected _ => (JNull, Some (lit "Error generating daily recipe:"))
  | Fulfilled response =>
      if text_truthy (text response) then
        match JSON_parse (parsed_text (default [] (text response))) with
        | Some v => (v, None)
        | None => (JNull, Some parse_error_label)
        end
      else (JNull, None)
  end.

(** The recipe the generation stage returns in environment [e]. *)
Definition generated (e : Env) : JSValue := fst (generate (generateContent e)).

Definition log_if (label : option jsstring) (d : Device) : Device :=
  match label with Some l => log_error l d | None => d end.

(** The effect of reading a property of [supabase] on the module
    variable [client], with credentials present. *)
Definition connect (d : Device) : Device :=
  match supabaseCopy build, client d with
  | LazyClient, None =>
      set_client (Some (createClient (SupabaseConfig.supabaseUrl env)
                                     (SupabaseConfig.supabaseAnonKey env))) d
  | _, _ => d
  end.

(** Local storage after the two [localStorage.setItem] of a resolved
    recipe: the serialized recipe, then the tag. *)
Definition written (recipe : JSValue) (tag : jsstring)
    (storage : gmap jsstring jsstring) : gmap jsstring jsstring :=
  <[App.daily_recipe_date := tag]> (<[App.daily_recipe := stringified recipe]> storage).

Definition store_local (recipe : JSValue) (tag : jsstring) (d : Device) : Device :=
  set_localStorage (written recipe tag (localStorage d)) d.

(** The whole resolution, stage by stage. *)
Definition resolve (e : Env) (d : Device) : Outcome unit :=
  let today := App.dateKey (clock e 0) in
  let todayString := App.freshnessTag (clock e 1) in
  let dates := [ObsNewDate (clock e 0); ObsNewDate (clock e 1)] in
  match readLocal (localStorage d) todayString with
  | LocalHit parsed =>
      {| completion := Return tt; device := set_dailyRecipe parsed d; trace := dates |}
  | LocalMiss parse_failed =>
      let d1 := set_isGeneratingRecipe true
                  (if parse_failed then log_error (lit "Local cache error") d else d) in
      let configured := App.isSupabaseConfigured build env in
      let d2 := if configured then connect d1 else d1 in
      let lookup := if configured then [ObsSelect today (select_single e today)] else [] in
      match readShared e today with
      | SharedHit recipe =>
          {| completion := Return tt;
             device := set_isGeneratingRecipe false
                         (store_local recipe todayString (set_dailyRecipe recipe d2));
             trace := dates ++ lookup |}
      | SharedThrows x =>
          {| completion := Normal tt;
             device := set_isGeneratingRecipe false
                         (log_error (lit "Supabase/Gemini error") d2);
             trace := dates ++ lookup |}
      | SharedMiss | SharedUnavailable =>
          let '(recipe, label) := generate (generateContent e) in
          let d3 := log_if label d2 in
          let generation := [ObsGenerate (generateContent e)] in
          if JS.truthy recipe then
            let d4 := store_local recipe todayString (set_dailyRecipe recipe d3) in
            if configured then
              {| completion := Normal tt;
                 device := set_isGeneratingRecipe false
                             (match upsert e today recipe with
                              | Fulfilled _ => d4
                              | Rejected _ => log_error (lit "Supabase/Gemini error") d4
                              end);
                 trace := dates ++ lookup ++ generation
                          ++ [ObsUpsert today recipe (upsert e today recipe)] |}
            else
              {| completion := Normal tt;
                 device := set_isGeneratingRecipe false d4;
                 trace := dates ++ lookup ++ generation |}
          else
            {| completion := Normal tt;
               device := set_isGeneratingRecipe false d3;
               trace := dates ++ lookup ++ generation |}
      end
  end.

End Stages.

(** The environment one run under any handler amounts to: the two clock
    readings and the answers the handler has at each point of the run. *)
Definition script `{Host} (build : Build) (env : ImportMetaEnv)
    {W} (h : Handler W) (w : W) : Env :=
  let '(t0, w1) := h _ NewDate w in
  let '(t1, w2) := h _ NewDate w1 in
  let today := App.dateKey t0 in
  let w3 := if App.isSupabaseConfigured build env
            then snd (h _ (SelectSingle today) w2) else w2 in
  let w4 := snd (h _ GenerateContent w3) in
  {| clock := fun n => match n with O => t0 | _ => t1 end;
     select_single := fun k => fst (h _ (SelectSingle k) w2);
     generateContent := fst (h _ GenerateContent w3);
     upsert := fun k v => fst (h _ (Upsert k v) w4) |}.

(** The store after the upserts of a trace. *)
Definition apply_upserts (tr : list Obs) (store : gmap jsstring JSValue)
    : gmap jsstring JSValue :=
  fold_left (fun s o => match o with
                        | ObsUpsert date recipe _ => Store.upsert s date recipe
                        | _ => s
                        end) tr store.

(** The scripted environment of a device that reaches the store [store],
    as long as the store does not change under it. *)
Definition with_store (e : Env) (store : gmap jsstring JSValue) : Env :=
  {| clock := clock e;
     select_single := fun date => Fulfilled (Store.select store date);
     generateContent := generateContent e;
     upsert := fun _ _ => Fulfilled {| data := JNull; error := JNull |} |}.

(** The reading of "today" that the specification asks for: the date key
    and the freshness tag of one resolution are renderings of one instant. *)
Definition from_one_instant `{Host} (e : Env) : Prop :=
  exists t : Z,
    App.dateKey (clock e 0) = App.dateKey t
    /\ App.freshnessTag (clock e 1) = App.freshnessTag t.


(** What a trace published to the shared store: the date keys and the
    recipes of its upserts, in order. *)
Definition published (tr : list Obs) : list (jsstring * JSValue) :=
  omap (fun o => match o with
                 | ObsUpsert date recipe _ => Some (date, recipe)
                 | _ => None
                 end) tr.

(** A JSON text written with apostrophes for its quotation marks. *)
Definition quoted (s : string) : jsstring :=
  List.map (fun c => if (c =? 39)%N then 34%N else c) (lit s).

(** [tr] is a sequence of calls and answers along [p], and [p'] is what is
    left of [p] after it. *)
Fixpoint follows {A} (p : Prog A) (tr : list Obs) (p' : Prog A) {struct tr} : Prop :=
  match tr with
  | [] => p = p'
  | o :: tr' =>
      match p with
      | Ret _ => False
      | Vis c k => exists x, o = observe c x /\ follows (k x) tr' p'
      end
  end.


(** A text that does not begin with a fence begins with at most two
    backticks. *)
Inductive Head : jsstring -> Prop :=
| head_nil : Head []
| head_other (a : code_unit) (s : jsstring) : a <> 96%N -> Head (a :: s)
| head_tick : Head [96%N]
| head_tick_other (b : code_unit) (s : jsstring) : b <> 96%N -> Head (96%N :: b :: s)
| head_ticks : Head [96%N; 96%N]
| head_ticks_other (c : code_unit) (s : jsstring) :
    c <> 96%N -> Head (96%N :: 96%N :: c :: s).

(* ===================================================================== *)
(** * Two devices and one store *)
(* ===================================================================== *)

(** Resolutions on different devices share nothing but the store. Each
    device runs its program one call at a time (a call is where the program
    is suspended); between two calls of one device the other may take any
    number of steps. The clock and the generation service of a device are
    its own, lookups and upserts go to the one store. *)
Module System.

Record Node : Type := {
  program : Prog (Completion unit unit * Device);
  host : Env;
  ticks : nat;
  seen : list Obs
}.

(** The two devices, the store, and the calls answered so far, each with
    the device that made it ([false] for the first, [true] for the
    second), in the order in which they were answered. *)
Record State : Type := {
  first : Node;
  second : Node;
  shared : gmap jsstring JSValue;
  log : list (bool * Obs)
}.

Definition boot (e : Env) (p : Prog (Completion unit unit * Device)) : Node :=
  {| program := p; host := e; ticks := O; seen := [] |}.

(** Whether an upsert got through: it did when its answer is a fulfilment
    without an [error]. *)
Definition accepted (answer : Settled PostgrestResponse) : bool :=
  match answer with
  | Fulfilled response => negb (JS.truthy (error response))
  | Rejected _ => false
  end.

(** The environment of a device that shares the store with another: the
    clock and the generation service are its own, a lookup is answered
    from the store, and an upsert is answered as [upsert e] says (the
    store, or the way to it, may fail); the store takes the write, over
    whatever it holds under the key, exactly when the answer says that it
    got through. *)
Definition contended (e : Env) : Handler (nat * gmap jsstring JSValue) :=
  fun X c =>
    match c in Call X return nat * gmap jsstring JSValue -> X * (nat * gmap jsstring JSValue) with
    | NewDate => fun w => (clock e (fst w), (S (fst w), snd w))
    | SelectSingle date => fun w => (Fulfilled (Store.select (snd w) date), w)
    | Upsert date recipe => fun w =>
        let answer := upsert e date recipe in
        (answer,
         (fst w, if accepted answer then Store.upsert (snd w) date recipe else snd w))
    | GenerateContent => fun w => (generateContent e, w)
    end.

(** The next call of a device, answered, and what was observed; a device
    that has returned stays as it is. *)
Definition step_node (n : Node) (store : gmap jsstring JSValue)
    : option Obs * Node * gmap jsstring JSValue :=
  match program n with
  | Ret _ => (None, n, store)
  | Vis c k =>
      let '(x, w) := contended (host n) _ c (ticks n, store) in
      (Some (observe c x),
       {| program := k x; host := host n; ticks := fst w;
          seen := seen n ++ [observe c x] |},
       snd w)
  end.

(** [false] lets the first device take a step, [true] the second. *)
Definition step (s : State) (who : bool) : State :=
  let '(o, n, store) := step_node (if who then second s else first s) (shared s) in
  {| first := if who then first s else n;
     second := if who then n else second s;
     shared := store;
     log := log s ++ match o with Some obs => [(who, obs)] | None => [] end |}.

Definition run (schedule : list bool) (s : State) : State :=
  fold_left step schedule s.

Definition finished (n : Node) : bool :=
  match program n with Ret _ => true | Vis _ _ => false end.

(** How the resolution of a finished device completed. *)
Definition result (n : Node) : option (Completion unit unit) :=
  match program n with Ret (c, _) => Some c | Vis _ _ => None end.

(** The calls of one device in a log. *)
Definition calls_of (who : bool) (l : list (bool * Obs)) : list Obs :=
  omap (fun entry => if Bool.eqb (fst entry) who then Some (snd entry) else None) l.

(** The upserts of a trace that got through. *)
Definition taken (tr : list Obs) : list (jsstring * JSValue) :=
  omap (fun o => match o with
                 | ObsUpsert date recipe answer =>
                     if accepted answer then Some (date, recipe) else None
                 | _ => None
                 end) tr.

(** The writes the store took, in the order in which it took them, each
    with the device it came from. *)
Definition writes (l : list (bool * Obs)) : list (bool * (jsstring * JSValue)) :=
  omap (fun entry => match snd entry with
                     | ObsUpsert date recipe answer =>
                         if accepted answer then Some (fst entry, (date, recipe)) else None
                     | _ => None
                     end) l.

(** The store after a sequence of writes: each one overwrites what is
    under its key. *)
Definition apply_writes (ws : list (bool * (jsstring * JSValue)))
    (store : gmap jsstring JSValue) : gmap jsstring JSValue :=
  fold_left (fun st w => Store.upsert st (fst (snd w)) (snd (snd w))) ws store.

(** What holds of a device all along. *)
Definition NodeInv (p0 : Prog (Completion unit unit * Device)) (e : Env) (n : Node) : Prop :=
  follows p0 (seen n) (program n)
  /\ host n = e
  /\ (forall a, In (ObsGenerate a) (seen n) -> a = generateContent e)
  /\ (forall k r a, In (ObsUpsert k r a) (seen n) -> a = upsert e k r).

(** What holds of the log all along: it is the calls of the two devices
    interleaved, and the store is what the writes it took make of the
    store of the start. *)
Definition LogInv (store0 : gmap jsstring JSValue) (s : State) : Prop :=
  seen (first s) = calls_of false (log s)
  /\ seen (second s) = calls_of true (log s)
  /\ shared s = apply_writes (writes (log s)) store0.

End System.

(** The answer an observation holds for a call of its kind. *)
Definition answer_for {X} (c : Call X) (o : Obs) : option X :=
  match c in Call X return option X with
  | NewDate => match o with ObsNewDate t => Some t | _ => None end
  | SelectSingle _ => match o with ObsSelect _ a => Some a | _ => None end
  | Upsert _ _ => match o with ObsUpsert _ _ a => Some a | _ => None end
  | GenerateContent => match o with ObsGenerate a => Some a | _ => None end
  end.

Definition no_answer {X} (c : Call X) : X :=
  match c in Call X return X with
  | NewDate => 0
  | SelectSingle _ => Rejected TypeError
  | Upsert _ _ => Rejected TypeError
  | GenerateContent => Rejected TypeError
  end.

(** The environment that answers from a recorded trace. *)
Definition replay : Handler (list Obs) :=
  fun X c w =>
    match w with
    | o :: w' => (default (no_answer c) (answer_for c o), w')
    | [] => (no_answer c, [])
    end.

(* ===================================================================== *)
(** * Scenarios *)
(* ===================================================================== *)

(** The concrete inputs of the examples: the scenarios of section 8 of the
    specification, on the reference host. *)
Module Scenario.

(** The recipe of scenario A, as the generation service sends it. *)
Definition recipe_text : jsstring :=
  quoted "{'title':'Espeto de Frutas','description':'Frutas no palito','ingredients':['morango','banana'],'instructions':['Corte as frutas','Monte no espeto'],'benefits':['Vitamina C'],'quickTip':'Sirva gelado'}".

Definition recipe : JSValue :=
  JObject [(lit "title", JString (lit "Espeto de Frutas"));
           (lit "description", JString (lit "Frutas no palito"));
           (lit "ingredients", JArray [JString (lit "morango"); JString (lit "banana")]);
           (lit "instructions",
             JArray [JString (lit "Corte as frutas"); JString (lit "Monte no espeto")]);
           (lit "benefits", JArray [JString (lit "Vitamina C")]);
           (lit "quickTip", JString (lit "Sirva gelado"))].

(** A second recipe, for a second device. *)
Definition other_text : jsstring :=
  quoted "{'title':'Salada de Frutas','benefits':['Fibras']}".

Definition other_recipe : JSValue :=
  JObject [(lit "title", JString (lit "Salada de Frutas"));
           (lit "benefits", JArray [JString (lit "Fibras")])].

(** Scenario C: the same text inside a code fence. *)
Definition fenced_text : jsstring :=
  fence_json ++ [10%N] ++ recipe_text ++ [10%N] ++ fence.

(** Scenario D: a response without [benefits]. *)
Definition no_benefits_text : jsstring :=
  quoted "{'title':'Espeto de Frutas','description':'Frutas no palito','ingredients':['morango','banana'],'instructions':['Corte as frutas','Monte no espeto'],'quickTip':'Sirva gelado'}".

Definition no_benefits : JSValue :=
  JObject [(lit "title", JString (lit "Espeto de Frutas"));
           (lit "description", JString (lit "Frutas no palito"));
           (lit "ingredients", JArray [JString (lit "morango"); JString (lit "banana")]);
           (lit "instructions",
             JArray [JString (lit "Corte as frutas"); JString (lit "Monte no espeto")]);
           (lit "quickTip", JString (lit "Sirva gelado"))].

(** 2026-11-03T10:00:00.123Z, the last millisecond of that day in UTC, and
    the first of the next. *)
Definition morning : Z := 1793700000123.
Definition before_midnight : Z := 1793750399999.
Definition midnight : Z := 1793750400000.

Definition unconfigured : ImportMetaEnv :=
  {| VITE_SUPABASE_URL := None; VITE_SUPABASE_ANON_KEY := None |}.

Definition configured : ImportMetaEnv :=
  {| VITE_SUPABASE_URL := Some (lit "https://example.supabase.co");
     VITE_SUPABASE_ANON_KEY := Some (lit "anon-key") |}.

Definition build : Build :=
  {| supabaseCopy := LazyClient; geminiCopy := FenceStripping |}.

(** An environment where it is [morning], the store has no row and
    accepts upserts, and the service answers [answer]. *)
Definition answering (answer : Settled GenerateContentResponse) : Env :=
  {| clock := fun _ => morning;
     select_single := fun _ => Fulfilled {| data := JNull; error := Store.no_rows |};
     generateContent := answer;
     upsert := fun _ _ => Fulfilled {| data := JNull; error := JNull |} |}.

Definition sending (response_text : jsstring) : Env :=
  answering (Fulfilled {| text := Some response_text |}).

(** The service is down. *)
Definition failing : Env := answering (Rejected (Error (lit "503"))).

(** Midnight (UTC) passes between the two readings of the clock. *)
Definition across_midnight : Env :=
  {| clock := fun n => match n with O => before_midnight | _ => midnight end;
     select_single := fun _ => Fulfilled {| data := JNull; error := Store.no_rows |};
     generateContent := Fulfilled {| text := Some recipe_text |};
     upsert := fun _ _ => Fulfilled {| data := JNull; error := JNull |} |}.

(** Local storage with the recipe of scenario A under a tag. *)
Definition cached (tag : jsstring) : gmap jsstring jsstring :=
  <[App.daily_recipe_date := tag]> (<[App.daily_recipe := recipe_text]> ∅).

Definition today_key : jsstring := lit "2026-11-03".
Definition today_tag : jsstring := lit "Tue Nov 03 2026".
Definition yesterday_tag : jsstring := lit "Mon Nov 02 2026".

(** Both devices look the store up before either publishes. *)
Definition both_miss : list bool :=
  [false; false; false; true; true; true; false; true; false; true].

End Scenario.

(* ===================================================================== *)
(** * Runs under any environment *)
(* ===================================================================== *)

(** What is left of a run in the environment [h] from its state [w]. *)
Definition run_under {W R} (h : Handler W) (w : W) (m : M R unit) (d : Device)
    : Outcome R :=
  let '(c, d', _, tr) := interp h (m d) w in
  {| completion := c; device := d'; trace := tr |}.

(* ===================================================================== *)
(** * The rest of App.tsx: session, notifications, viewers *)
(* ===================================================================== *)

(** More of [String.prototype] and the one regular expression of the
    code. *)
Module JSText.

(** [s.endsWith(suffix)] *)
Definition endsWith (s suffix : jsstring) : bool :=
  JSString.starts_with (rev suffix) (rev s).

(** LineTerminator of ECMAScript: what [.] does not match. *)
Definition is_line_terminator (c : code_unit) : bool :=
  ((c =? 10) || (c =? 13) || (c =? 8232) || (c =? 8233))%N.

(** Whether [/\/view.*$/] matches at the start of [s]: [/view], then
    code units other than line terminators up to the end of the input
    (there is no [m] flag, so [$] is the end of the input). *)
Definition view_to_end (s : jsstring) : bool :=
  JSString.starts_with (lit "/view") s
  && forallb (fun c => negb (is_line_terminator c)) (drop 5 s).

(** [s.replace(/\/view.*$/, '')]: the leftmost match is removed, and it
    runs to the end; without a match the string is returned as it is. *)
Fixpoint remove_view_to_end (s : jsstring) : jsstring :=
  match s with
  | [] => []
  | c :: s' => if view_to_end s then [] else c :: remove_view_to_end s'
  end.

End JSText.

(** types.ts *)
Module Types.

Inductive TabType : Type := home | materiais | aulas | bonus | especial.

(** The [category] of a [Video]. *)
Inductive Category : Type := Salgadas | Doces | SemGluten.

Record Video : Type := {
  id : jsstring;
  title : jsstring;
  category : Category;
  thumbnail : jsstring;
  youtubeId : jsstring
}.

(** The string each category is in the source; the u with an acute accent
    is the code unit 250. *)
Definition category_name (c : Category) : jsstring :=
  match c with
  | Salgadas => lit "Salgadas"
  | Doces => lit "Doces"
  | SemGluten => lit "Sem Gl" ++ [250%N] ++ lit "ten"
  end.

End Types.

(** [new Date(s)] for a string [s]: the time value, [None] for an invalid
    date. ECMAScript fixes it on the format of [toISOString] and leaves the
    other formats to the host. *)
Class DateHost : Type := {
  Date_parse : jsstring -> option Z
}.

(** The state cells of [App] besides [dailyRecipe] and
    [isGeneratingRecipe], which are in [Device]. *)
Record Cells : Type := {
  activeTab : Types.TabType;
  isMenuOpen : bool;
  viewingMaterial : option jsstring;
  viewingVideo : option jsstring;
  userName : option jsstring;
  isLoading : bool;
  showNotification : bool;
  notificationsDisabledUntil : option jsstring
}.

(** The component on its device. *)
Record Page : Type := { ui : Cells; dev : Device }.

Module Shell.

Definition with_ui (f : Cells -> Cells) (p : Page) : Page :=
  {| ui := f (ui p); dev := dev p |}.

(** The setters of [useState]. *)
Definition setActiveTab (tab : Types.TabType) : Page -> Page :=
  with_ui (fun u =>
    {| activeTab := tab; isMenuOpen := isMenuOpen u;
       viewingMaterial := viewingMaterial u; viewingVideo := viewingVideo u;
       userName := userName u; isLoading := isLoading u;
       showNotification := showNotification u;
       notificationsDisabledUntil := notificationsDisabledUntil u |}).

Definition setViewingMaterial (v : option jsstring) : Page -> Page :=
  with_ui (fun u =>
    {| activeTab := activeTab u; isMenuOpen := isMenuOpen u;
       viewingMaterial := v; viewingVideo := viewingVideo u;
       userName := userName u; isLoading := isLoading u;
       showNotification := showNotification u;
       notificationsDisabledUntil := notificationsDisabledUntil u |}).

Definition setViewingVideo (v : option jsstring) : Page -> Page :=
  with_ui (fun u =>
    {| activeTab := activeTab u; isMenuOpen := isMenuOpen u;
       viewingMaterial := viewingMaterial u; viewingVideo := v;
       userName := userName u; isLoading := isLoading u;
       showNotification := showNotification u;
       notificationsDisabledUntil := notificationsDisabledUntil u |}).

Definition setUserName (v : option jsstring) : Page -> Page :=
  with_ui (fun u =>
    {| activeTab := activeTab u; isMenuOpen := isMenuOpen u;
       viewingMaterial := viewingMaterial u; viewingVideo := viewingVideo u;
       userName := v; isLoading := isLoading u;
       showNotification := showNotification u;
       notificationsDisabledUntil := notificationsDisabledUntil u |}).

Definition setIsLoading (b : bool) : Page -> Page :=
  with_ui (fun u =>
    {| activeTab := activeTab u; isMenuOpen := isMenuOpen u;
       viewingMaterial := viewingMaterial u; viewingVideo := viewingVideo u;
       userName := userName u; isLoading := b;
       showNotification := showNotification u;
       notificationsDisabledUntil := notificationsDisabledUntil u |}).

Definition setShowNotification (b : bool) : Page -> Page :=
  with_ui (fun u =>
    {| activeTab := activeTab u; isMenuOpen := isMenuOpen u;
       viewingMaterial := viewingMaterial u; viewingVideo := viewingVideo u;
       userName := userName u; isLoading := isLoading u;
       showNotification := b;
       notificationsDisabledUntil := notificationsDisabledUntil u |}).

Definition setNotificationsDisabledUntil (v : option jsstring) : Page -> Page :=
  with_ui (fun u =>
    {| activeTab := activeTab u; isMenuOpen := isMenuOpen u;
       viewingMaterial := viewingMaterial u; viewingVideo := viewingVideo u;
       userName := userName u; isLoading := isLoading u;
       showNotification := showNotification u;
       notificationsDisabledUntil := v |}).

(** [localStorage] of the page. *)
Definition getItem (key : jsstring) (p : Page) : option jsstring :=
  localStorage (dev p) !! key.

Definition setItem (key value : jsstring) (p : Page) : Page :=
  {| ui := ui p;
     dev := set_localStorage (<[key := value]> (localStorage (dev p))) (dev p) |}.

Definition removeItem (key : jsstring) (p : Page) : Page :=
  {| ui := ui p;
     dev := set_localStorage (delete key (localStorage (dev p))) (dev p) |}.

Definition lancheirinha_user_name : jsstring := lit "lancheirinha_user_name".
Definition notifications_disabled_until : jsstring := lit "notifications_disabled_until".

(** The cells as [useState] initializes them. *)
Definition initial : Cells :=
  {| activeTab := Types.home; isMenuOpen := false;
     viewingMaterial := None; viewingVideo := None;
     userName := None; isLoading := true;
     showNotification := false; notificationsDisabledUntil := None |}.

(** ** The handlers of [App] *)

Definition handleLogin (name : jsstring) (p : Page) : Page :=
  let p := setItem lancheirinha_user_name name p in
  setUserName (Some name) p.

Definition handleLogout (p : Page) : Page :=
  let p := removeItem lancheirinha_user_name p in
  let p := setUserName None p in
  let p := setActiveTab Types.home p in
  setShowNotification false p.

(** [now] is the reading of the clock by [new Date()]. *)
Definition disableNotificationsForToday (now : Z) (p : Page) : Page :=
  let today := JSDate.toISOString now in
  let p := setItem notifications_disabled_until today p in
  let p := setNotificationsDisabledUntil (Some today) p in
  setShowNotification false p.

(** The link [handleViewMaterial] opens for [url]. *)
Definition previewUrl (url : jsstring) : jsstring :=
  if JSString.includes url (lit "drive.google.com")
     && negb (JSText.endsWith url (lit "/preview"))
  then JSText.remove_view_to_end url ++ lit "/preview"
  else url.

Definition handleViewMaterial (url : jsstring) (p : Page) : Page :=
  setViewingMaterial (Some (previewUrl url)) p.

Definition handleViewVideo (youtubeId : jsstring) (p : Page) : Page :=
  setViewingVideo (Some youtubeId) p.

(** [handleSubmit] of [LoginScreen], on the text of the input field. *)
Definition handleSubmit (onLogin : jsstring -> Page -> Page) (name : jsstring)
    (p : Page) : Page :=
  if JSString.truthy (JSString.trim name)
  then onLogin (JSString.trim name) p
  else p.

(** ** The effect that runs when [App] mounts

    Its statements around the call of [fetchDailyRecipe], in the order of
    the source. *)

(** The saved name is taken up again. *)
Definition restoreUserName (p : Page) : Page :=
  let savedName := getItem lancheirinha_user_name p in
  if text_truthy savedName then setUserName savedName p else p.

Section Notifications.
Context `{Host} `{DateHost}.

(** [date.toDateString()] of a date object. *)
Definition toDateString (tv : option Z) : jsstring :=
  match tv with
  | Some t => JSDate.toDateString LocalTZA t
  | None => lit "Invalid Date"
  end.

(** Notifications come back on a new day; [now] is the reading of the
    clock by [new Date()]. *)
Definition checkNotifications (now : Z) (p : Page) : Page :=
  let disabledUntil := getItem notifications_disabled_until p in
  if text_truthy disabledUntil then
    let disabledDate := Date_parse (default [] disabledUntil) in
    let today := Some now in
    if bool_decide (toDateString today <> toDateString disabledDate)
    then
      let p := removeItem notifications_disabled_until p in
      setNotificationsDisabledUntil None p
    else setNotificationsDisabledUntil disabledUntil p
  else p.

(** The statements of the effect besides the call of
    [fetchDailyRecipe] and the registration of the timers. *)
Definition mountEffect (now : Z) (p : Page) : Page :=
  let p := restoreUserName p in
  let p := checkNotifications now p in
  setIsLoading false p.
End Notifications.

(** The callback of [setInterval], every 30 minutes. *)
Definition notificationTick (p : Page) : Page :=
  let isDisabled := getItem notifications_disabled_until p in
  if negb (text_truthy isDisabled) then setShowNotification true p else p.

(** The second effect, on [userName] and [notificationsDisabledUntil]:
    whether it arms the timer that shows the notification 3 seconds
    later. *)
Definition armsLoginNotification (p : Page) : bool :=
  text_truthy (userName (ui p))
  && negb (text_truthy (notificationsDisabledUntil (ui p))).

(** The page when the application is loaded again on the same browser:
    the cells start over, local storage stays. *)
Definition reload (build : Build) (env : ImportMetaEnv) (p : Page) : Page :=
  {| ui := initial; dev := App.mount build env (localStorage (dev p)) |}.

(** ** [VideosSection] *)

(** The state [filter] of the section: one of the four strings of the
    row of buttons. *)
Inductive Filter : Type := Tudo | Salgadas | Doces | SemGluten.

(** The four strings as the source of the section spells them. The fourth
    has the code units 8730 and 8747 (the characters U+221A and U+222B)
    between [Sem Gl] and [ten], where [Types.category_name] has the one
    code unit 250. *)
Definition filter_name (f : Filter) : jsstring :=
  match f with
  | Tudo => lit "Tudo"
  | Salgadas => lit "Salgadas"
  | Doces => lit "Doces"
  | SemGluten => lit "Sem Gl" ++ [8730%N; 8747%N] ++ lit "ten"
  end.

(** [filteredVideos], with the strict equality of the two strings. *)
Definition filteredVideos (VIDEOS : list Types.Video) (filter : Filter)
    : list Types.Video :=
  if bool_decide (filter_name filter = lit "Tudo") then VIDEOS
  else List.filter
         (fun v => bool_decide (Types.category_name (Types.category v) = filter_name filter))
         VIDEOS.

End Shell.

(** ** The recipe card of [HomeSection]

    The expressions of the card on the recipe it is given, as JavaScript
    evaluates them; what React then does with the values is not part of
    this. *)
Module HomeSection.

(** [v?.map(...)] on a value that [JSON.parse] or the store produced:
    [undefined] for [null] and [undefined], the items for an array, and a
    [TypeError] for every other value, which has no function [map]. *)
Definition optional_map (v : JSValue) : Exn + option (list JSValue) :=
  match v with
  | JUndefined | JNull => inr None
  | JArray items => inr (Some items)
  | _ => inl TypeError
  end.

(** [Array.isArray(v) ? v.map(...) : v] *)
Inductive Instructions : Type :=
| Steps (items : list JSValue)
| Single (v : JSValue).

Definition instructions_of (v : JSValue) : Instructions :=
  match v with
  | JArray items => Steps items
  | _ => Single v
  end.

(** The three states of the card. *)
Inductive RecipeCard : Type :=
| Generating
| Recipe (title description : JSValue) (ingredients benefits : option (list JSValue))
         (instructions : Instructions) (quickTip : JSValue)
| NotLoaded.

Definition recipeCard (dailyRecipe : JSValue) (isGeneratingRecipe : bool)
    : Exn + RecipeCard :=
  if isGeneratingRecipe then inr Generating
  else if JS.truthy dailyRecipe then
    let title := JS.get dailyRecipe (lit "title") in
    let description := JS.get dailyRecipe (lit "description") in
    match optional_map (JS.get dailyRecipe (lit "ingredients")) with
    | inl e => inl e
    | inr ingredients =>
        match optional_map (JS.get dailyRecipe (lit "benefits")) with
        | inl e => inl e
        | inr benefits =>
            let instructions := instructions_of (JS.get dailyRecipe (lit "instructions")) in
            let quickTip := JS.get dailyRecipe (lit "quickTip") in
            inr (Recipe title description ingredients benefits instructions quickTip)
        end
    end
  else inr NotLoaded.

End HomeSection.

(** A host that reads the format [toISOString] writes and no other. *)
Module ReferenceDate.

Fixpoint number_from (acc : Z) (s : jsstring) : option Z :=
  match s with
  | [] => Some acc
  | c :: s' =>
      if ReferenceHost.is_digit c
      then number_from (10 * acc + (Z.of_N c - 48)) s'
      else None
  end.

Definition number (s : jsstring) : option Z := number_from 0 s.

(** The day number of a calendar date with the month from 1 to 12. *)
Definition days_from_civil (y m d : Z) : Z :=
  let y' := if m <=? 2 then y - 1 else y in
  let era := y' / 400 in
  let yoe := y' - era * 400 in
  let mp := if m <=? 2 then m + 9 else m - 3 in
  let doy := (153 * mp + 2) / 5 + d - 1 in
  let doe := yoe * 365 + yoe / 4 - yoe / 100 + doy in
  era * 146097 + doe - 719468.

Definition in_range (lo n hi : Z) : bool := (lo <=? n) && (n <=? hi).

(** The time value of the fields, [None] when one is out of its range or
    the date is not one of the calendar. *)
Definition time_value (y m d h mi s ms : Z) : option Z :=
  let day := days_from_civil y m d in
  if in_range 1 m 12 && in_range 1 d 31 && in_range 0 h 23 && in_range 0 mi 59
     && in_range 0 s 59 && in_range 0 ms 999
     && bool_decide (JSDate.civil day = (y, m, d))
  then Some (day * JSDate.msPerDay + h * JSDate.msPerHour + mi * JSDate.msPerMinute
             + s * JSDate.msPerSecond + ms)
  else None.

(** After the year: [-MM-DDTHH:mm:ss.sssZ]. *)
Definition parse_after_year (y : Z) (rest : jsstring) : option Z :=
  match rest with
  | [p1; m1; m2; p2; d1; d2; p3; h1; h2; p4; n1; n2; p5; s1; s2; p6; f1; f2; f3; p7] =>
      if bool_decide ([p1; p2; p3; p4; p5; p6; p7] = lit "--T::.Z") then
        match number [m1; m2], number [d1; d2], number [h1; h2],
              number [n1; n2], number [s1; s2], number [f1; f2; f3] with
        | Some m, Some d, Some h, Some mi, Some s, Some ms => time_value y m d h mi s ms
        | _, _, _, _, _, _ => None
        end
      else None
  | _ => None
  end.

(** Four digits, or a sign and six digits for the years outside 0 to
    9999 ([-000000] is not a year). *)
Definition parse (s : jsstring) : option Z :=
  match s with
  | c :: body =>
      if (c =? 43)%N then
        match number (take 6 body) with
        | Some y => parse_after_year y (drop 6 body)
        | None => None
        end
      else if (c =? 45)%N then
        match number (take 6 body) with
        | Some y => if y =? 0 then None else parse_after_year (- y) (drop 6 body)
        | None => None
        end
      else
        match number (take 4 s) with
        | Some y => parse_after_year y (drop 4 s)
        | None => None
        end
  | [] => None
  end.

Definition host : DateHost := {| Date_parse := parse |}.

End ReferenceDate.

(** More inputs of the examples. *)
Module Cases.

(** A page that has just been loaded on an empty browser. *)
Definition page : Page :=
  {| ui := Shell.initial;
     dev := App.mount Scenario.build Scenario.configured ∅ |}.

(** The share link of a file, before and after [/view]. *)
Definition share_base : jsstring := lit "https://drive.google.com/file/d/1AbC".
Definition share_query : jsstring := lit "?usp=sharing".

(** The store cannot be reached for the lookup. *)
Definition lookup_down : Env :=
  {| clock := fun _ => Scenario.morning;
     select_single := fun _ => Rejected (Error (lit "Failed to fetch"));
     generateContent := Fulfilled {| text := Some Scenario.recipe_text |};
     upsert := fun _ _ => Fulfilled {| data := JNull; error := JNull |} |}.

(** The store has no row and cannot be reached for the upsert. *)
Definition upsert_down : Env :=
  {| clock := fun _ => Scenario.morning;
     select_single := fun _ => Fulfilled {| data := JNull; error := Store.no_rows |};
     generateContent := Fulfilled {| text := Some Scenario.recipe_text |};
     upsert := fun _ _ => Rejected (Error (lit "Failed to fetch")) |}.

(** The store has a row for the day, without [recipe_data]. *)
Definition empty_row : Env :=
  {| clock := fun _ => Scenario.morning;
     select_single := fun _ => Fulfilled {| data := JObject []; error := JNull |};
     generateContent := Fulfilled {| text := Some Scenario.recipe_text |};
     upsert := fun _ _ => Fulfilled {| data := JNull; error := JNull |} |}.

(** The store has a row for the day whose recipe has a text where the
    list of ingredients should be. *)
Definition text_for_a_list : JSValue :=
  JObject [(lit "title", JString (lit "Espeto de Frutas"));
           (lit "ingredients", JString (lit "morango, banana"));
           (lit "benefits", JArray [JString (lit "Vitamina C")])].

Definition odd_row : Env :=
  {| clock := fun _ => Scenario.morning;
     select_single := fun _ =>
       Fulfilled {| data := Store.row text_for_a_list; error := JNull |};
     generateContent := Fulfilled {| text := Some Scenario.recipe_text |};
     upsert := fun _ _ => Fulfilled {| data := JNull; error := JNull |} |}.




(** The build with the copy of the service that does not remove code
    fences. *)
Definition plain_build : Build :=
  {| supabaseCopy := LazyClient; geminiCopy := PlainParse |}.

End Cases.

(* ===================================================================== *)
(* ===================================================================== *)
(** * Properties *)
(* ===================================================================== *)
(* ===================================================================== *)

(** ** The built-ins on samples *)

Example trim_sample :
  JSString.trim (lit "  ab c  ") = lit "ab c".
Proof. reflexivity. Qed.

Example remove_all_sample :
  JSString.remove_all (lit "```") (lit "a```b````c") = lit "ab`c".
Proof. reflexivity. Qed.

Example split_sample :
  JSString.split 84%N (lit "2026-11-03T10:00:00.000Z")
  = [lit "2026-11-03"; lit "10:00:00.000Z"].
Proof. reflexivity. Qed.

Example iso_epoch : JSDate.toISOString 0 = lit "1970-01-01T00:00:00.000Z".
Proof. reflexivity. Qed.

Example datestring_epoch :
  JSDate.toDateString JSDate.UTC 0 = lit "Thu Jan 01 1970".
Proof. reflexivity. Qed.

Example iso_sample :
  JSDate.toISOString 1793700000123 = lit "2026-11-03T10:00:00.123Z".
Proof. vm_compute. reflexivity. Qed.

Example datestring_sample :
  JSDate.toDateString JSDate.UTC 1793700000123 = lit "Tue Nov 03 2026".
Proof. vm_compute. reflexivity. Qed.

Example iso_leap_day :
  JSDate.toISOString 951782400000 = lit "2000-02-29T00:00:00.000Z".
Proof. vm_compute. reflexivity. Qed.

Example iso_before_epoch :
  JSDate.toISOString (-1) = lit "1969-12-31T23:59:59.999Z".
Proof. vm_compute. reflexivity. Qed.

(** ** Texts *)

Module StringFacts.
Import JSString.

Lemma starts_with_app (pat s w : jsstring) :
  starts_with pat s = true -> starts_with pat (s ++ w) = true.
Proof.
  revert s. induction pat as [|p pat IH]; intros [|c s]; simpl; try reflexivity;
    try discriminate.
  intros [Hc Hs]%andb_prop. rewrite Hc. simpl. apply IH, Hs.
Qed.

Lemma includes_app_l (s w pat : jsstring) :
  includes s pat = true -> includes (s ++ w) pat = true.
Proof.
  induction s as [|c s IH]; simpl.
  - rewrite orb_false_r. intros Hp. destruct pat; [|discriminate].
    destruct w; reflexivity.
  - intros [Hp|Hs]%orb_prop.
    + change (c :: s ++ w) with ((c :: s) ++ w). rewrite (starts_with_app _ _ _ Hp).
      reflexivity.
    + rewrite (IH Hs). apply orb_true_r.
Qed.

Lemma includes_app_r (w s pat : jsstring) :
  includes s pat = true -> includes (w ++ s) pat = true.
Proof.
  intros Hs. induction w as [|c w IH]; [exact Hs|].
  simpl. rewrite IH. apply orb_true_r.
Qed.

Lemma trimStart_suffix (s : jsstring) : exists w, s = w ++ trimStart s.
Proof.
  induction s as [|c s [w IH]]; [exists []; reflexivity|].
  simpl. destruct (is_white_space c).
  - exists (c :: w). simpl. f_equal. exact IH.
  - exists []. reflexivity.
Qed.

Lemma trimEnd_prefix (s : jsstring) : exists w, s = trimEnd s ++ w.
Proof.
  unfold trimEnd. destruct (trimStart_suffix (rev s)) as [w Hw].
  exists (rev w). rewrite <- rev_app_distr, <- Hw, rev_involutive. reflexivity.
Qed.

(** Trimming creates no occurrence of a pattern. *)
Lemma includes_trim (s pat : jsstring) :
  includes s pat = false -> includes (trim s) pat = false.
Proof.
  intros Hs. destruct (includes (trim s) pat) eqn:Ht; [|reflexivity].
  unfold trim in Ht.
  destruct (trimEnd_prefix (trimStart s)) as [w Hw].
  destruct (trimStart_suffix s) as [w' Hw'].
  rewrite <- Hs, Hw', Hw. symmetry.
  apply includes_app_r, includes_app_l, Ht.
Qed.

Lemma remove_all_from_skip (pat : jsstring) (n : nat) (s : jsstring) :
  remove_all_from pat n s = remove_all_from pat O (drop n s).
Proof.
  revert n. induction s as [|c s IH]; intros [|n]; try reflexivity.
  simpl remove_all_from at 1. rewrite IH. reflexivity.
Qed.

(** A text without the pattern is left as it is. *)
Lemma remove_all_from_absent (pat s : jsstring) :
  includes s pat = false -> remove_all_from pat O s = s.
Proof.
  induction s as [|c s IH]; [reflexivity|].
  simpl. intros [Hp Hs]%orb_false_elim. simpl in Hp. rewrite Hp.
  f_equal. apply IH, Hs.
Qed.

End StringFacts.

#[local] Arguments N.eqb : simpl never.

Lemma fence_units : fence = [96; 96; 96]%N.
Proof. reflexivity. Qed.

Lemma fence_json_units : fence_json = [96; 96; 96; 106; 115; 111; 110]%N.
Proof. reflexivity. Qed.

(** Removing the fences, as equations. *)
Lemma remove_fence_nil : JSString.remove_all fence [] = [].
Proof. reflexivity. Qed.

Lemma remove_fence_match (s : jsstring) :
  JSString.remove_all fence ([96; 96; 96]%N ++ s) = JSString.remove_all fence s.
Proof. reflexivity. Qed.

Lemma remove_fence_other (c : code_unit) (s : jsstring) :
  JSString.starts_with fence (c :: s) = false ->
  JSString.remove_all fence (c :: s) = c :: JSString.remove_all fence s.
Proof.
  intros Hp. rewrite fence_units in *. unfold JSString.remove_all.
  simpl JSString.remove_all_from. simpl in Hp. rewrite Hp. reflexivity.
Qed.

Lemma starts_with_fence (s : jsstring) :
  JSString.starts_with fence s = true -> exists s', s = [96; 96; 96]%N ++ s'.
Proof.
  rewrite fence_units. destruct s as [|a [|b [|c s']]]; simpl; try discriminate;
    rewrite ?andb_false_r; try discriminate.
  rewrite andb_true_r.
  intros [Ha [Hb Hc]%andb_prop]%andb_prop.
  apply N.eqb_eq in Ha, Hb, Hc. subst. exists s'. reflexivity.
Qed.

Lemma not_fence_start (a : code_unit) (s : jsstring) :
  a <> 96%N -> JSString.starts_with fence (a :: s) = false.
Proof.
  intros Ha. rewrite fence_units. simpl.
  destruct (N.eqb_spec 96 a); [congruence | reflexivity].
Qed.

Lemma not_fence_start_2 (a b : code_unit) (s : jsstring) :
  b <> 96%N -> JSString.starts_with fence (a :: b :: s) = false.
Proof.
  intros Hb. rewrite fence_units. simpl.
  destruct (N.eqb_spec 96 b); [congruence | apply andb_false_r].
Qed.

Lemma not_fence_start_3 (a b c : code_unit) (s : jsstring) :
  c <> 96%N -> JSString.starts_with fence (a :: b :: c :: s) = false.
Proof.
  intros Hc. rewrite fence_units. simpl.
  destruct (N.eqb_spec 96 c); [congruence | rewrite !andb_false_r; reflexivity].
Qed.

Lemma not_fence_short_1 (a : code_unit) : JSString.starts_with fence [a] = false.
Proof. rewrite fence_units. simpl. apply andb_false_r. Qed.

Lemma not_fence_short_2 (a b : code_unit) : JSString.starts_with fence [a; b] = false.
Proof. rewrite fence_units. simpl. rewrite !andb_false_r. reflexivity. Qed.

Lemma no_fence_start (s : jsstring) :
  JSString.starts_with fence s = false -> Head s.
Proof.
  rewrite fence_units.
  destruct s as [|a s]; [intros _; apply head_nil|].
  destruct (N.eq_dec a 96%N) as [->|Ha]; [|intros _; apply head_other, Ha].
  destruct s as [|b s]; [intros _; apply head_tick|].
  destruct (N.eq_dec b 96%N) as [->|Hb]; [|intros _; apply head_tick_other, Hb].
  destruct s as [|c s]; [intros _; apply head_ticks|].
  destruct (N.eq_dec c 96%N) as [->|Hc]; [|intros _; apply head_ticks_other, Hc].
  discriminate.
Qed.

Lemma Head_no_fence (s : jsstring) : Head s -> JSString.starts_with fence s = false.
Proof.
  intros [| a s' Ha | | b s' Hb | | c s' Hc]; try reflexivity.
  - apply not_fence_start, Ha.
  - apply not_fence_start_2, Hb.
  - apply not_fence_start_3, Hc.
Qed.

Lemma includes_cons (c : code_unit) (s pat : jsstring) :
  JSString.includes (c :: s) pat
  = JSString.starts_with pat (c :: s) || JSString.includes s pat.
Proof. reflexivity. Qed.

(** No fence is left after [.replace(/```/g, '')]. *)
Lemma remove_fence_none (s : jsstring) :
  JSString.includes (JSString.remove_all fence s) fence = false.
Proof.
  remember (length s) as n eqn:Hn. revert s Hn.
  induction n as [n IH] using lt_wf_ind. intros s Hn.
  assert (IHs : forall s', (length s' < length s)%nat ->
            JSString.includes (JSString.remove_all fence s') fence = false).
  { intros s' Hlt. apply (IH (length s')); [subst n; exact Hlt | reflexivity]. }
  clear IH Hn n.
  destruct (JSString.starts_with fence s) eqn:Hp.
  - apply starts_with_fence in Hp as [s' Hs']. rewrite Hs', remove_fence_match.
    apply IHs. rewrite Hs'. simpl. lia.
  - apply no_fence_start in Hp.
    destruct Hp as [| a s' Ha | | b s' Hb | | c s' Hc].
    + reflexivity.
    + rewrite remove_fence_other by (apply not_fence_start, Ha).
      rewrite !includes_cons.
      rewrite not_fence_start by exact Ha.
      apply IHs. simpl. lia.
    + reflexivity.
    + rewrite remove_fence_other by (apply not_fence_start_2, Hb).
      rewrite remove_fence_other by (apply not_fence_start, Hb).
      rewrite !includes_cons.
      rewrite not_fence_start_2 by exact Hb.
      rewrite not_fence_start by exact Hb.
      apply IHs. simpl. lia.
    + reflexivity.
    + rewrite remove_fence_other by (apply not_fence_start_3, Hc).
      rewrite remove_fence_other by (apply not_fence_start_2, Hc).
      rewrite remove_fence_other by (apply not_fence_start, Hc).
      rewrite !includes_cons.
      rewrite not_fence_start_3 by exact Hc.
      rewrite not_fence_start_2 by exact Hc.
      rewrite not_fence_start by exact Hc.
      apply IHs. simpl. lia.
Qed.

(** [strip_fences] hands [JSON.parse] a text without fences whenever the
    trimmed response has one. *)
Lemma strip_fences_none (t : jsstring) :
  JSString.includes (JSString.trim t) fence = true ->
  JSString.includes (strip_fences t) fence = false.
Proof.
  intros Hf. unfold strip_fences. rewrite Hf.
  apply StringFacts.includes_trim, remove_fence_none.
Qed.

Lemma includes_tail (a : code_unit) (s pat : jsstring) :
  JSString.includes (a :: s) pat = false -> JSString.includes s pat = false.
Proof. simpl. intros [_ Hs]%orb_false_elim. exact Hs. Qed.

Lemma includes_head (s pat : jsstring) :
  JSString.includes s pat = false -> JSString.starts_with pat s = false.
Proof. destruct s; simpl; intros [Hp _]%orb_false_elim; exact Hp. Qed.

(** Between the fences: a body without a fence is what is left of
    [body ++ fence]. *)
Lemma remove_fence_closing (body : jsstring) :
  JSString.includes body fence = false ->
  JSString.remove_all fence (body ++ fence) = body.
Proof.
  remember (length body) as n eqn:Hn. revert body Hn.
  induction n as [n IH] using lt_wf_ind. intros body Hn Hb.
  assert (IHs : forall s', (length s' < length body)%nat ->
            JSString.includes s' fence = false ->
            JSString.remove_all fence (s' ++ fence) = s').
  { intros s' Hlt. apply (IH (length s')); [subst n; exact Hlt | reflexivity]. }
  clear IH Hn n.
  pose proof (no_fence_start _ (includes_head _ _ Hb)) as Hstart.
  destruct Hstart as [| a s' Ha | | b s' Hb' | | c s' Hc]; try reflexivity.
  - simpl app. rewrite remove_fence_other by (apply not_fence_start, Ha).
    f_equal. apply IHs; [simpl; lia|]. eapply includes_tail, Hb.
  - simpl app. rewrite remove_fence_other by (apply not_fence_start_2, Hb').
    rewrite remove_fence_other by (apply not_fence_start, Hb').
    do 2 f_equal. apply IHs; [simpl; lia|].
    eapply includes_tail, includes_tail, Hb.
  - simpl app. rewrite remove_fence_other by (apply not_fence_start_3, Hc).
    rewrite remove_fence_other by (apply not_fence_start_2, Hc).
    rewrite remove_fence_other by (apply not_fence_start, Hc).
    do 3 f_equal. apply IHs; [simpl; lia|].
    eapply includes_tail, includes_tail, includes_tail, Hb.
Qed.

(** A body without a fence, followed by the closing fence, has no
    [```json]. *)
Lemma no_fence_json_closing (body : jsstring) :
  JSString.includes body fence = false ->
  JSString.includes (body ++ fence) fence_json = false.
Proof.
  induction body as [|a body IH]; [reflexivity|].
  intros Hb. pose proof (includes_head _ _ Hb) as Hstart.
  change ((a :: body) ++ fence) with (a :: (body ++ fence)).
  rewrite includes_cons. rewrite (IH (includes_tail _ _ _ Hb)), orb_false_r.
  apply no_fence_start in Hstart. rewrite fence_json_units.
  inversion Hstart as [| a' s' Ha | | b s' Hb' | | c s' Hc]; subst; try reflexivity.
  - simpl. destruct (N.eqb_spec 96 a); [congruence|reflexivity].
  - simpl. destruct (N.eqb_spec 96 b); [congruence|reflexivity].
  - simpl. destruct (N.eqb_spec 96 c); [congruence|reflexivity].
Qed.

(** The payload [```json body ```]: what is parsed is the body, trimmed. *)
Lemma strip_fences_json_block (t body : jsstring) :
  JSString.trim t = fence_json ++ body ++ fence ->
  JSString.includes body fence = false ->
  strip_fences t = JSString.trim body.
Proof.
  intros Ht Hb. unfold strip_fences. rewrite Ht.
  replace (JSString.includes (fence_json ++ body ++ fence) fence) with true by reflexivity.
  f_equal.
  replace (JSString.remove_all fence_json (fence_json ++ body ++ fence))
    with (JSString.remove_all_from fence_json O (body ++ fence)) by reflexivity.
  rewrite StringFacts.remove_all_from_absent by (apply no_fence_json_closing, Hb).
  apply remove_fence_closing, Hb.
Qed.

(** The payload [``` body ```] without a language tag. *)
Lemma strip_fences_block (t body : jsstring) :
  JSString.trim t = fence ++ body ++ fence ->
  JSString.includes body fence = false ->
  JSString.includes (JSString.trim t) fence_json = false ->
  strip_fences t = JSString.trim body.
Proof.
  intros Ht Hb Hj. unfold strip_fences. rewrite Ht in *.
  replace (JSString.includes (fence ++ body ++ fence) fence) with true by reflexivity.
  f_equal.
  replace (JSString.remove_all fence_json (fence ++ body ++ fence))
    with (JSString.remove_all_from fence_json O (fence ++ body ++ fence)) by reflexivity.
  rewrite StringFacts.remove_all_from_absent by exact Hj.
  rewrite fence_units at 2. rewrite remove_fence_match.
  apply remove_fence_closing, Hb.
Qed.

(** ** Dates *)

Module DateFacts.
Import JSDate.

(** The calendar date depends on the day only. *)
Lemma calendar_date_Day (t t' : Z) :
  Day t = Day t' -> calendar_date t = calendar_date t'.
Proof.
  unfold calendar_date, YearFromTime, MonthFromTime, DateFromTime.
  intros ->. reflexivity.
Qed.

Lemma digit_not_T (n : Z) : n < 10 -> digit n <> 84%N.
Proof. unfold digit. intros Hn. lia. Qed.

Lemma decimal_from_not_T (fuel : nat) (n : Z) (acc : jsstring) :
  Forall (fun c => c <> 84%N) acc ->
  Forall (fun c => c <> 84%N) (decimal_from fuel n acc).
Proof.
  revert n acc. induction fuel as [|fuel IH]; intros n acc Hacc; simpl.
  - constructor; [|exact Hacc]. apply digit_not_T.
    pose proof (Z.mod_pos_bound n 10). lia.
  - destruct (Z.ltb_spec n 10).
    + constructor; [apply digit_not_T; assumption | exact Hacc].
    + apply IH. constructor; [|exact Hacc]. apply digit_not_T.
      pose proof (Z.mod_pos_bound n 10). lia.
Qed.

Lemma padded_not_T (n : Z) (k : nat) :
  Forall (fun c => c <> 84%N) (ToZeroPaddedDecimalString n k).
Proof.
  unfold ToZeroPaddedDecimalString, decimal. apply Forall_app. split.
  - apply Forall_forall. intros c Hc. apply elem_of_replicate in Hc as [-> _]. lia.
  - apply decimal_from_not_T. constructor.
Qed.

Lemma iso_year_not_T (y : Z) : Forall (fun c => c <> 84%N) (iso_year y).
Proof.
  unfold iso_year. destruct ((0 <=? y) && (y <=? 9999)); [apply padded_not_T|].
  apply Forall_app. split; [|apply padded_not_T].
  destruct (y <? 0); repeat constructor; discriminate.
Qed.

Lemma iso_date_not_T (date : Z * Z * Z) : Forall (fun c => c <> 84%N) (iso_date date).
Proof.
  destruct date as [[y m] d]. unfold iso_date.
  assert (Hdash : Forall (fun c => c <> 84%N) (lit "-")) by (repeat constructor; discriminate).
  apply Forall_app; split; [apply iso_year_not_T|].
  apply Forall_app; split; [exact Hdash|].
  apply Forall_app; split; [apply padded_not_T|].
  apply Forall_app; split; [exact Hdash|apply padded_not_T].
Qed.

(** [split] at a separator the first piece does not contain. *)
Lemma split_first (sep : code_unit) (piece rest : jsstring) :
  Forall (fun c => c <> sep) piece ->
  head (JSString.split sep (piece ++ sep :: rest)) = Some piece.
Proof.
  induction 1 as [|c piece Hc _ IH]; simpl.
  - rewrite N.eqb_refl. reflexivity.
  - destruct (N.eqb_spec c sep); [congruence|].
    destruct (JSString.split sep (piece ++ sep :: rest)) as [|p ps]; [discriminate|].
    simpl in *. congruence.
Qed.

Lemma toISOString_date (t : Z) :
  exists time, toISOString t = iso_date (calendar_date t) ++ 84%N :: time.
Proof.
  unfold toISOString, iso_date, calendar_date.
  eexists. rewrite <- !app_assoc. reflexivity.
Qed.

Lemma decimal_from_nonempty (fuel : nat) (n : Z) (acc : jsstring) :
  decimal_from fuel n acc <> [].
Proof.
  revert n acc. induction fuel as [|fuel IH]; intros n acc; simpl; [discriminate|].
  destruct (n <? 10); [discriminate|apply IH].
Qed.

Lemma padded_nonempty (n : Z) (k : nat) : ToZeroPaddedDecimalString n k <> [].
Proof.
  unfold ToZeroPaddedDecimalString, decimal.
  intros [_ Hd]%app_eq_nil. exact (decimal_from_nonempty _ _ _ Hd).
Qed.

Lemma digit_not_space (n : Z) : 0 <= n -> digit n <> 32%N.
Proof. unfold digit. lia. Qed.

Lemma decimal_from_not_space (fuel : nat) (n : Z) (acc : jsstring) :
  0 <= n ->
  Forall (fun c => c <> 32%N) acc ->
  Forall (fun c => c <> 32%N) (decimal_from fuel n acc).
Proof.
  revert n acc. induction fuel as [|fuel IH]; intros n acc Hn Hacc; simpl.
  - constructor; [|exact Hacc]. apply digit_not_space.
    pose proof (Z.mod_pos_bound n 10). lia.
  - destruct (Z.ltb_spec n 10).
    + constructor; [apply digit_not_space; assumption | exact Hacc].
    + apply IH; [apply Z.div_pos; lia|]. constructor; [|exact Hacc].
      apply digit_not_space. pose proof (Z.mod_pos_bound n 10). lia.
Qed.

Lemma padded_not_space (n : Z) (k : nat) :
  0 <= n -> Forall (fun c => c <> 32%N) (ToZeroPaddedDecimalString n k).
Proof.
  intros Hn. unfold ToZeroPaddedDecimalString, decimal. apply Forall_app. split.
  - apply Forall_forall. intros c Hc. apply elem_of_replicate in Hc as [-> _]. lia.
  - apply decimal_from_not_space; [exact Hn | constructor].
Qed.

End DateFacts.

Module TextFacts.
Import JSString.

Lemma last_unit_app (a p : jsstring) : p <> [] -> last_unit (a ++ p) = last_unit p.
Proof.
  unfold last_unit. rewrite rev_app_distr.
  destruct (rev p) as [|c r] eqn:Hp; [|reflexivity].
  intros Hne. apply (f_equal (@rev _)) in Hp. rewrite rev_involutive in Hp.
  contradiction.
Qed.

Lemma from_space_app (y s : jsstring) :
  Forall (fun c => c <> 32%N) y -> from_space (y ++ s) = from_space s.
Proof.
  induction 1 as [|c y Hc _ IH]; [reflexivity|].
  simpl. destruct (N.eqb_spec c 32); [congruence | exact IH].
Qed.

Lemma before_last_space_app (a y : jsstring) :
  Forall (fun c => c <> 32%N) y ->
  before_last_space (a ++ 32%N :: y) = last_unit a.
Proof.
  intros Hy. unfold before_last_space, last_unit.
  rewrite rev_app_distr. simpl. rewrite <- app_assoc.
  rewrite from_space_app by (apply Forall_rev, Hy).
  simpl. destruct (rev a); reflexivity.
Qed.
End TextFacts.

Section Dates.
Context `{Host}.

Lemma dateKey_calendar (t : Z) :
  App.dateKey t = JSDate.iso_date (JSDate.calendar_date t).
Proof.
  unfold App.dateKey. destruct (DateFacts.toISOString_date t) as [time ->].
  rewrite DateFacts.split_first by apply DateFacts.iso_date_not_T.
  reflexivity.
Qed.

(** The last digit of the day of the month closes the key ... *)
Lemma dateKey_last (t : Z) :
  JSString.last_unit (App.dateKey t)
  = JSString.last_unit (JSDate.pad2 (JSDate.DateFromTime t)).
Proof.
  rewrite dateKey_calendar. unfold JSDate.iso_date, JSDate.calendar_date.
  rewrite !app_assoc. apply TextFacts.last_unit_app, DateFacts.padded_nonempty.
Qed.

(** ... and stands before the last space of the tag. *)
Lemma DateString_day (tv : Z) :
  JSString.before_last_space (JSDate.DateString tv)
  = JSString.last_unit (JSDate.pad2 (JSDate.DateFromTime tv)).
Proof.
  unfold JSDate.DateString.
  set (yv := JSDate.YearFromTime tv).
  set (year := (if 0 <=? yv then [] else lit "-")
               ++ JSDate.ToZeroPaddedDecimalString (Z.abs yv) 4).
  set (front := JSDate.day_name (JSDate.WeekDay tv) ++ lit " "
                ++ JSDate.month_name (JSDate.MonthFromTime tv) ++ lit " ").
  transitivity (JSString.before_last_space
                  ((front ++ JSDate.pad2 (JSDate.DateFromTime tv)) ++ 32%N :: year)).
  { f_equal. unfold front. rewrite <- !app_assoc. reflexivity. }
  rewrite TextFacts.before_last_space_app.
  - apply TextFacts.last_unit_app, DateFacts.padded_nonempty.
  - apply Forall_app. split.
    + destruct (0 <=? yv); repeat constructor; discriminate.
    + apply DateFacts.padded_not_space, Z.abs_nonneg.
Qed.
End Dates.

(* ===================================================================== *)
(** * The program and its stages agree *)
(* ===================================================================== *)

(** Symbolic execution: simplify the run up to the next test, then split on
    the test. *)
Ltac exec :=
  cbn -[App.dateKey App.freshnessTag App.daily_recipe App.daily_recipe_date
        App.benefits App.recipe_data lookup insert lit createClient
        SupabaseConfig.isSupabaseConfigured SupabaseConfig.supabaseUrl
        SupabaseConfig.supabaseAnonKey strip_fences JSString.trim JSString.truthy
        JS.truthy JS.get JS.isArray bool_decide] in *.

Ltac split_on :=
  match goal with
  | |- context [?h Z NewDate ?w] => destruct (h Z NewDate w) as [? ?] eqn:?
  | |- context [localStorage ?d !! ?k] => destruct (localStorage d !! k) eqn:?
  | |- context [bool_decide ?P] => destruct (bool_decide P) eqn:?
  | |- context [JSString.truthy ?s] => destruct (JSString.truthy s) eqn:?
  | |- context [JSON_parse ?s] => destruct (JSON_parse s) eqn:?
  | |- context [JS.truthy ?v] => destruct (JS.truthy v) eqn:?
  | |- context [JS.isArray ?v] => destruct (JS.isArray v) eqn:?
  | |- context [SupabaseConfig.isSupabaseConfigured ?env] =>
      destruct (SupabaseConfig.isSupabaseConfigured env) eqn:?
  | |- context [client ?d] => is_var d; destruct (client d) eqn:?
  | |- context [?h _ (SelectSingle ?k) ?w] =>
      destruct (h _ (SelectSingle k) w) as [[[? ?]|?] ?] eqn:?
  | |- context [?h _ GenerateContent ?w] =>
      destruct (h _ GenerateContent w) as [[[[?|]]|?] ?] eqn:?
  | |- context [?h _ (Upsert ?k ?v) ?w] =>
      destruct (h _ (Upsert k v) w) as [[[? ?]|?] ?] eqn:?
  end.

Ltac unfold_modules :=
  unfold App.fetchDailyRecipe,
    App.isSupabaseConfigured, App.supabase, App.generateDailyRecipe,
    SupabaseClientEager.supabase, SupabaseClientLazy.supabase,
    SupabaseClientLazy.getSupabase, SupabaseClientEager.loaded_client,
    SupabaseClientEager.isSupabaseConfigured,
    SupabaseClientLazy.isSupabaseConfigured,
    GeminiService.generateDailyRecipe, GeminiServicePlain.generateDailyRecipe,
    JSON_parse_stmt.

Section Agreement.
Context `{Host}.
Variable build : Build.
Variable env : ImportMetaEnv.

(** Under any handler, [fetchDailyRecipe] completes, leaves the device and
    makes the calls that [resolve] describes. *)
Lemma interp_fetchDailyRecipe {W} (h : Handler W) (w : W) (d : Device) :
  let o := resolve build env (script build env h w) d in
  fst (fst (interp h (App.fetchDailyRecipe build env d) w)) = (completion o, device o)
  /\ snd (interp h (App.fetchDailyRecipe build env d) w) = trace o.
Proof.
  unfold script, resolve, readLocal, readShared, generate,
    parsed_text, parse_error_label, connect, usable, store_local, written.
  unfold_modules.
  destruct build as [[|] [|]]; exec.
  all: repeat (first [split; reflexivity | discriminate | split_on; exec]).
Qed.

Lemma run_fetchDailyRecipe (e : Env) (d : Device) :
  run e (App.fetchDailyRecipe build env) d = resolve build env e d.
Proof.
  unfold run.
  pose proof (interp_fetchDailyRecipe (scripted e) O d) as [Hr Ht].
  destruct (interp (scripted e) (App.fetchDailyRecipe build env d) O)
    as [[[c d'] n] tr].
  simpl in Hr, Ht.
  change (resolve build env (script build env (scripted e) 0%nat) d)
    with (resolve build env e d) in *.
  destruct (resolve build env e d). simpl in *. congruence.
Qed.

End Agreement.

(* ===================================================================== *)
(** * What a resolution leaves behind *)
(* ===================================================================== *)

Section Projections.
Context `{Host}.
Variable build : Build.
Variable env : ImportMetaEnv.

Ltac crush_resolve :=
  unfold resolve, generated, connect, log_if, store_local;
  repeat (cbn [fst snd device localStorage dailyRecipe isGeneratingRecipe
               completion trace set_localStorage set_dailyRecipe
               set_isGeneratingRecipe log_error set_client];
          match goal with
  | |- context [readLocal ?s ?t] => destruct (readLocal s t)
  | |- context [readShared ?b ?v ?e ?k] => destruct (readShared b v e k)
  | |- context [generate ?b ?a] => destruct (generate b a) as [? [?|]]
  | |- context [JS.truthy ?v] => destruct (JS.truthy v)
  | |- context [App.isSupabaseConfigured ?b ?v] => destruct (App.isSupabaseConfigured b v)
  | |- context [upsert ?e ?k ?v] => destruct (upsert e k v)
  | |- context [supabaseCopy ?b] => destruct (supabaseCopy b)
  | |- context [client ?d] => destruct (client d)
  | |- context [if ?b then _ else _] => is_var b; destruct b
  end); try reflexivity.

Lemma resolve_localStorage (e : Env) (d : Device) :
  localStorage (device (resolve build env e d)) =
  let tag := App.freshnessTag (clock e 1) in
  match readLocal (localStorage d) tag with
  | LocalHit _ => localStorage d
  | LocalMiss _ =>
      match readShared build env e (App.dateKey (clock e 0)) with
      | SharedHit recipe => written recipe tag (localStorage d)
      | SharedThrows _ => localStorage d
      | SharedMiss | SharedUnavailable =>
          if JS.truthy (generated build e)
          then written (generated build e) tag (localStorage d)
          else localStorage d
      end
  end.
Proof. cbv zeta. crush_resolve. Qed.

Lemma resolve_dailyRecipe (e : Env) (d : Device) :
  dailyRecipe (device (resolve build env e d)) =
  match readLocal (localStorage d) (App.freshnessTag (clock e 1)) with
  | LocalHit recipe => recipe
  | LocalMiss _ =>
      match readShared build env e (App.dateKey (clock e 0)) with
      | SharedHit recipe => recipe
      | SharedThrows _ => dailyRecipe d
      | SharedMiss | SharedUnavailable =>
          if JS.truthy (generated build e) then generated build e else dailyRecipe d
      end
  end.
Proof. crush_resolve. Qed.

Lemma resolve_isGeneratingRecipe (e : Env) (d : Device) :
  isGeneratingRecipe (device (resolve build env e d)) =
  match readLocal (localStorage d) (App.freshnessTag (clock e 1)) with
  | LocalHit _ => isGeneratingRecipe d
  | LocalMiss _ => false
  end.
Proof. crush_resolve. Qed.

Lemma resolve_completion (e : Env) (d : Device) :
  completion (resolve build env e d) =
  match readLocal (localStorage d) (App.freshnessTag (clock e 1)) with
  | LocalHit _ => Return tt
  | LocalMiss _ =>
      match readShared build env e (App.dateKey (clock e 0)) with
      | SharedHit _ => Return tt
      | _ => Normal tt
      end
  end.
Proof. crush_resolve. Qed.

(** The network calls of a resolution, in order. *)
Lemma resolve_network (e : Env) (d : Device) :
  List.filter is_network (trace (resolve build env e d)) =
  let today := App.dateKey (clock e 0) in
  match readLocal (localStorage d) (App.freshnessTag (clock e 1)) with
  | LocalHit _ => []
  | LocalMiss _ =>
      match readShared build env e today with
      | SharedHit _ | SharedThrows _ => [ObsSelect today (select_single e today)]
      | SharedMiss =>
          ObsSelect today (select_single e today) :: ObsGenerate (generateContent e)
          :: (if JS.truthy (generated build e)
              then [ObsUpsert today (generated build e) (upsert e today (generated build e))]
              else [])
      | SharedUnavailable => [ObsGenerate (generateContent e)]
      end
  end.
Proof.
  cbv zeta. unfold resolve, generated, readShared.
  destruct (readLocal _ _); [reflexivity|].
  destruct (App.isSupabaseConfigured build env).
  - destruct (select_single e _) as [r|x]; [destruct (usable r)|]; simpl; try reflexivity.
    destruct (generate build (generateContent e)) as [g l]; simpl.
    destruct (JS.truthy g); reflexivity.
  - destruct (generate build (generateContent e)) as [g l]; simpl.
    destruct (JS.truthy g); reflexivity.
Qed.

Lemma resolve_dates (e : Env) (d : Device) :
  List.filter (fun o => negb (is_network o)) (trace (resolve build env e d))
  = [ObsNewDate (clock e 0); ObsNewDate (clock e 1)].
Proof.
  unfold resolve, generated, readShared.
  destruct (readLocal _ _); [reflexivity|].
  destruct (App.isSupabaseConfigured build env).
  - destruct (select_single e _) as [r|x]; [destruct (usable r)|]; simpl; try reflexivity.
    destruct (generate build (generateContent e)) as [g l]; simpl.
    destruct (JS.truthy g); reflexivity.
  - destruct (generate build (generateContent e)) as [g l]; simpl.
    destruct (JS.truthy g); reflexivity.
Qed.
End Projections.

Lemma existsb_generate_network (tr : list Obs) :
  existsb is_generate tr = existsb is_generate (List.filter is_network tr).
Proof.
  induction tr as [|o tr IH]; [reflexivity|].
  destruct o; simpl; rewrite ?IH; reflexivity.
Qed.

Lemma existsb_network (tr : list Obs) :
  existsb is_network tr = match List.filter is_network tr with [] => false | _ => true end.
Proof.
  induction tr as [|o tr IH]; [reflexivity|].
  destruct o; simpl; rewrite ?IH; reflexivity.
Qed.

Lemma filter_select_network (tr : list Obs) :
  List.filter is_select tr = List.filter is_select (List.filter is_network tr).
Proof.
  induction tr as [|o tr IH]; [reflexivity|].
  destruct o; simpl; rewrite ?IH; reflexivity.
Qed.

Lemma filter_upsert_network (tr : list Obs) :
  List.filter is_upsert tr = List.filter is_upsert (List.filter is_network tr).
Proof.
  induction tr as [|o tr IH]; [reflexivity|].
  destruct o; simpl; rewrite ?IH; reflexivity.
Qed.

Section Claims.
Context `{Host}.
Variable build : Build.
Variable env : ImportMetaEnv.

Lemma keys_differ : App.daily_recipe <> App.daily_recipe_date.
Proof. discriminate. Qed.

Lemma written_recipe (recipe : JSValue) (tag : jsstring) (storage : gmap jsstring jsstring) :
  written recipe tag storage !! App.daily_recipe = Some (stringified recipe).
Proof.
  unfold written.
  rewrite lookup_insert_ne by (apply not_eq_sym, keys_differ).
  apply lookup_insert_eq.
Qed.

Lemma written_tag (recipe : JSValue) (tag : jsstring) (storage : gmap jsstring jsstring) :
  written recipe tag storage !! App.daily_recipe_date = Some tag.
Proof. unfold written. apply lookup_insert_eq. Qed.

(** A hit on what a resolution wrote is the parse of what it serialized. *)
Lemma readLocal_written (recipe v : JSValue) (tag : jsstring)
    (storage : gmap jsstring jsstring) :
  readLocal (written recipe tag storage) tag = LocalHit v ->
  JSON_parse (stringified recipe) = Some v.
Proof.
  unfold readLocal. rewrite written_recipe, written_tag. simpl.
  destruct (JSString.truthy (stringified recipe) && _); [|discriminate].
  destruct (JSON_parse (stringified recipe)) as [p|]; [|discriminate].
  destruct (JS.truthy p && _); [|discriminate].
  intros [= ->]. reflexivity.
Qed.

(** Where the lookup does not throw, the generation service is called if
    and only if the local stage misses and the shared stage misses or is
    unavailable. On a local hit, and on a shared hit after a local miss,
    the service is not called, the resolution returns, and the recipe it
    exposes is the cached one. A lookup that throws is the fourth outcome
    of the shared stage, [SharedThrows], and then the service is not
    called either: see [lookup_that_throws]. *)
Lemma generation_iff_local_and_shared_miss (e : Env) (d : Device) :
  let o := run e (App.fetchDailyRecipe build env) d in
  let local := readLocal (localStorage d) (App.freshnessTag (clock e 1)) in
  let shared := readShared build env e (App.dateKey (clock e 0)) in
  (existsb is_generate (trace o) = true <->
     (exists failed, local = LocalMiss failed)
     /\ (shared = SharedMiss \/ shared = SharedUnavailable))
  /\ (forall recipe, local = LocalHit recipe ->
        existsb is_generate (trace o) = false
        /\ dailyRecipe (device o) = recipe /\ completion o = Return tt)
  /\ (forall failed recipe, local = LocalMiss failed -> shared = SharedHit recipe ->
        existsb is_generate (trace o) = false
        /\ dailyRecipe (device o) = recipe /\ completion o = Return tt).
Proof.
  cbv zeta. rewrite run_fetchDailyRecipe.
  rewrite resolve_dailyRecipe, resolve_completion.
  rewrite existsb_generate_network, resolve_network. cbv zeta.
  destruct (readLocal _ _) as [v|failed].
  { simpl. split; [|split].
    - split; [discriminate|]. intros [[f Hf] _]. discriminate.
    - intros r [= <-]. auto.
    - intros f r [=]. }
  destruct (readShared build env e _) as [r| | |x]; simpl.
  - split; [|split].
    + split; [discriminate|]. intros [_ [|]]; discriminate.
    + intros r' [=].
    + intros f r' _ [= <-]. auto.
  - split; [|split]; [split; eauto | intros r [=] | intros f r _ [=]].
  - split; [|split]; [split; eauto | intros r [=] | intros f r _ [=]].
  - split; [|split].
    + split; [discriminate|]. intros [_ [|]]; discriminate.
    + intros r' [=].
    + intros f r' _ [=].
Qed.

(** A lookup that throws ends the resolution in the [catch] block: the
    generation service is not called, nothing is exposed or stored, and
    the resolution still completes normally. *)
Lemma lookup_that_throws (e : Env) (d : Device) (failed : bool) (x : Exn) :
  readLocal (localStorage d) (App.freshnessTag (clock e 1)) = LocalMiss failed ->
  readShared build env e (App.dateKey (clock e 0)) = SharedThrows x ->
  let o := run e (App.fetchDailyRecipe build env) d in
  existsb is_generate (trace o) = false
  /\ completion o = Normal tt
  /\ dailyRecipe (device o) = dailyRecipe d
  /\ localStorage (device o) = localStorage d
  /\ isGeneratingRecipe (device o) = false.
Proof.
  intros Hloc Hshared. cbv zeta. rewrite run_fetchDailyRecipe.
  rewrite existsb_generate_network, resolve_network, resolve_completion,
    resolve_dailyRecipe, resolve_localStorage, resolve_isGeneratingRecipe.
  cbv zeta. rewrite Hloc, Hshared. repeat split; reflexivity.
Qed.

(** C6. Two resolutions on the same calendar date (the same freshness
    tag), the second on the device as the first left it and freshly
    mounted. If the local cache the first left is a hit for the second, the
    second exposes that recipe, makes no lookup, no upsert and no call to
    the generation service, and leaves local storage as it was; the recipe
    is the one the first resolution exposed, as soon as that one survives
    [JSON.stringify] and [JSON.parse]. *)
Theorem C6_same_day_read_is_idempotent (e1 e2 : Env) (d0 : Device) (recipe : JSValue) :
  let first := run e1 (App.fetchDailyRecipe build env) d0 in
  let d1 := App.mount build env (localStorage (device first)) in
  let second := run e2 (App.fetchDailyRecipe build env) d1 in
  App.freshnessTag (clock e1 1) = App.freshnessTag (clock e2 1) ->
  readLocal (localStorage d1) (App.freshnessTag (clock e2 1)) = LocalHit recipe ->
  dailyRecipe (device second) = recipe
  /\ List.filter is_network (trace second) = []
  /\ localStorage (device second) = localStorage (device first)
  /\ completion second = Return tt
  /\ (JSON_parse (stringified (dailyRecipe (device first)))
        = Some (dailyRecipe (device first)) ->
      recipe = dailyRecipe (device first)).
Proof.
  cbv zeta. intros Htag Hhit.
  rewrite (run_fetchDailyRecipe build env e2).
  rewrite resolve_dailyRecipe, resolve_network, resolve_localStorage, resolve_completion.
  cbv zeta. rewrite Hhit.
  repeat (split; [reflexivity|]).
  revert Hhit. simpl. rewrite <- Htag.
  rewrite (run_fetchDailyRecipe build env e1).
  rewrite resolve_dailyRecipe, resolve_localStorage. cbv zeta.
  destruct (readLocal (localStorage d0) _) as [v|failed] eqn:Hloc0.
  { rewrite Hloc0. congruence. }
  destruct (readShared build env e1 _) as [r| | |x].
  - intros Hhit Hround. apply readLocal_written in Hhit. congruence.
  - destruct (JS.truthy (generated build e1)).
    + intros Hhit Hround. apply readLocal_written in Hhit. congruence.
    + rewrite Hloc0. discriminate.
  - destruct (JS.truthy (generated build e1)).
    + intros Hhit Hround. apply readLocal_written in Hhit. congruence.
    + rewrite Hloc0. discriminate.
  - rewrite Hloc0. discriminate.
Qed.

(** C7. An entry whose stored tag is not today's freshness tag is a miss
    of the local stage, whatever the stored recipe: the resolution goes on
    to the network, and the recipe it exposes is the one of a later stage
    (or the one exposed before, when those fail). *)
Theorem C7_stale_tag_is_a_miss (e : Env) (d : Device) :
  localStorage d !! App.daily_recipe_date <> Some (App.freshnessTag (clock e 1)) ->
  let o := run e (App.fetchDailyRecipe build env) d in
  readLocal (localStorage d) (App.freshnessTag (clock e 1)) = LocalMiss false
  /\ existsb is_network (trace o) = true
  /\ isGeneratingRecipe (device o) = false
  /\ dailyRecipe (device o) =
     match readShared build env e (App.dateKey (clock e 0)) with
     | SharedHit recipe => recipe
     | SharedThrows _ => dailyRecipe d
     | SharedMiss | SharedUnavailable =>
         if JS.truthy (generated build e) then generated build e else dailyRecipe d
     end.
Proof.
  intros Hstale. cbv zeta.
  assert (Hmiss : readLocal (localStorage d) (App.freshnessTag (clock e 1)) = LocalMiss false).
  { unfold readLocal. rewrite bool_decide_eq_false_2 by exact Hstale.
    rewrite andb_false_r. reflexivity. }
  split; [exact Hmiss|].
  rewrite run_fetchDailyRecipe.
  rewrite resolve_dailyRecipe, resolve_isGeneratingRecipe, Hmiss.
  split; [|split; reflexivity].
  rewrite existsb_network, resolve_network. cbv zeta. rewrite Hmiss.
  destruct (readShared build env e _); reflexivity.
Qed.

Lemma isSupabaseConfigured_copies :
  App.isSupabaseConfigured build env = SupabaseConfig.isSupabaseConfigured env.
Proof. unfold App.isSupabaseConfigured. destruct (supabaseCopy build); reflexivity. Qed.

Lemma unconfigured :
  SupabaseConfig.supabaseUrl env = [] \/ SupabaseConfig.supabaseAnonKey env = [] ->
  SupabaseConfig.isSupabaseConfigured env = false.
Proof.
  unfold SupabaseConfig.isSupabaseConfigured.
  intros [Hu|Hk]; [rewrite Hu; reflexivity | rewrite Hk].
  destruct (JSString.truthy (SupabaseConfig.supabaseUrl env)) eqn:Ht;
    [reflexivity | exact Ht].
Qed.

Lemma getSupabase_unconfigured {R} (d : Device) :
  SupabaseConfig.isSupabaseConfigured env = false ->
  SupabaseClientLazy.getSupabase (R := R) env d = Ret (Normal None, d).
Proof.
  intros Hcfg. unfold SupabaseClientLazy.getSupabase,
    SupabaseClientLazy.isSupabaseConfigured.
  rewrite Hcfg. reflexivity.
Qed.

(** C8. Without the credentials of the shared store (the URL or the key
    absent or empty) the shared stage is unavailable: a resolution makes no
    lookup and no upsert, after a local miss its only call is the one to
    the generation service, and [getSupabase] returns [null] and leaves the
    device as it is. *)
Theorem C8_unconfigured_store_is_skipped (e : Env) (d : Device) :
  SupabaseConfig.supabaseUrl env = [] \/ SupabaseConfig.supabaseAnonKey env = [] ->
  let o := run e (App.fetchDailyRecipe build env) d in
  readShared build env e (App.dateKey (clock e 0)) = SharedUnavailable
  /\ List.filter is_select (trace o) = []
  /\ List.filter is_upsert (trace o) = []
  /\ (forall failed,
        readLocal (localStorage d) (App.freshnessTag (clock e 1)) = LocalMiss failed ->
        trace o = [ObsNewDate (clock e 0); ObsNewDate (clock e 1);
                   ObsGenerate (generateContent e)])
  /\ (forall d', SupabaseClientLazy.getSupabase (R := unit) env d' = Ret (Normal None, d')).
Proof.
  intros Habsent. pose proof (unconfigured Habsent) as Hcfg. cbv zeta.
  assert (Hshared : readShared build env e (App.dateKey (clock e 0)) = SharedUnavailable).
  { unfold readShared. rewrite isSupabaseConfigured_copies, Hcfg. reflexivity. }
  rewrite run_fetchDailyRecipe.
  rewrite filter_select_network, filter_upsert_network, resolve_network.
  cbv zeta. rewrite Hshared.
  split; [reflexivity|].
  split; [destruct (readLocal _ _); reflexivity|].
  split; [destruct (readLocal _ _); reflexivity|].
  split; [|intros d'; apply getSupabase_unconfigured, Hcfg].
  intros failed Hloc. unfold resolve.
  rewrite Hloc, Hshared, isSupabaseConfigured_copies, Hcfg.
  destruct (generate build (generateContent e)) as [g l].
  destruct (JS.truthy g); reflexivity.
Qed.

(** C10. A freshly mounted device on which both cache stages miss and the
    generation stage returns a falsy value: local storage is left as it
    was, the exposed recipe is [null], the in-flight flag is cleared and the
    resolution completes normally. And in any resolution, local storage
    changes only on a shared hit or on a generated (truthy) recipe. *)
Theorem C10_failed_generation_changes_nothing (e : Env)
    (storage : gmap jsstring jsstring) :
  let d := App.mount build env storage in
  let o := run e (App.fetchDailyRecipe build env) d in
  let shared := readShared build env e (App.dateKey (clock e 0)) in
  (exists failed, readLocal storage (App.freshnessTag (clock e 1)) = LocalMiss failed) ->
  shared = SharedMiss \/ shared = SharedUnavailable ->
  JS.truthy (generated build e) = false ->
  (localStorage (device o) = storage
   /\ dailyRecipe (device o) = JNull
   /\ isGeneratingRecipe (device o) = false
   /\ completion o = Normal tt)
  /\ (forall e' d',
        let o' := run e' (App.fetchDailyRecipe build env) d' in
        let shared' := readShared build env e' (App.dateKey (clock e' 0)) in
        localStorage (device o') <> localStorage d' ->
        (exists recipe, shared' = SharedHit recipe)
        \/ ((shared' = SharedMiss \/ shared' = SharedUnavailable)
            /\ JS.truthy (generated build e') = true)).
Proof.
  cbv zeta. intros [failed Hloc] Hshared Hgen. split.
  - rewrite run_fetchDailyRecipe.
    rewrite resolve_localStorage, resolve_dailyRecipe, resolve_isGeneratingRecipe,
      resolve_completion. cbv zeta. simpl localStorage. rewrite Hloc, Hgen.
    destruct Hshared as [-> | ->]; repeat split; reflexivity.
  - intros e' d'. rewrite run_fetchDailyRecipe, resolve_localStorage. cbv zeta.
    destruct (readLocal (localStorage d') _); [intros Hne; congruence|].
    destruct (readShared build env e' _) as [r| | |x]; eauto;
      try (intros Hne; congruence).
    all: destruct (JS.truthy (generated build e')); cbv iota;
      [eauto | intros Hne; congruence].
Qed.

End Claims.

Lemma served_store (e : Env) {A} (p : Prog A) (n : nat) (store : gmap jsstring JSValue) :
  snd (snd (fst (interp (served e) p (n, store))))
  = apply_upserts (snd (interp (served e) p (n, store))) store.
Proof.
  revert n store.
  induction p as [a|X c k IH]; intros n store; [reflexivity|].
  destruct c; simpl.
  - specialize (IH (clock e n) (S n) store).
    destruct (interp (served e) (k (clock e n)) (S n, store)) as [[a w] tr]. exact IH.
  - specialize (IH (Fulfilled (Store.select store date)) n store).
    destruct (interp (served e) (k (Fulfilled (Store.select store date))) (n, store))
      as [[a w] tr]. exact IH.
  - specialize (IH (Fulfilled {| data := JNull; error := JNull |}) n
                   (Store.upsert store date recipe_data)).
    destruct (interp (served e) (k (Fulfilled {| data := JNull; error := JNull |}))
                (n, Store.upsert store date recipe_data)) as [[a w] tr]. exact IH.
  - specialize (IH (generateContent e) n store).
    destruct (interp (served e) (k (generateContent e)) (n, store)) as [[a w] tr]. exact IH.
Qed.

Section Claims.
Context `{Host}.
Variable build : Build.
Variable env : ImportMetaEnv.

Lemma run_with_store_fetchDailyRecipe (e : Env) (d : Device)
    (store : gmap jsstring JSValue) :
  let o := resolve build env (with_store e store) d in
  run_with_store e (App.fetchDailyRecipe build env) d store
  = {| s_completion := completion o; s_device := device o;
       s_store := apply_upserts (trace o) store; s_trace := trace o |}.
Proof.
  cbv zeta. unfold run_with_store.
  pose proof (interp_fetchDailyRecipe build env (served e) (O, store) d) as [Hr Ht].
  pose proof (served_store e (App.fetchDailyRecipe build env d) O store) as Hs.
  destruct (interp (served e) (App.fetchDailyRecipe build env d) (O, store))
    as [[[c d'] w] tr].
  simpl in Hr, Ht, Hs.
  change (resolve build env (script build env (served e) (0%nat, store)) d)
    with (resolve build env (with_store e store) d) in *.
  congruence.
Qed.

Lemma readShared_stored (e : Env) (store : gmap jsstring JSValue)
    (date : jsstring) (recipe : JSValue) :
  App.isSupabaseConfigured build env = true ->
  store !! date = Some recipe ->
  readShared build env (with_store e store) date = SharedHit recipe.
Proof.
  intros Hcfg Hheld. unfold readShared, with_store, Store.select. simpl.
  rewrite Hcfg, Hheld. reflexivity.
Qed.

(** C5. The store is configured and holds a recipe under today's date
    key, and the local stage misses: the resolution returns with that
    recipe exposed, local storage then holds its serialization and today's
    freshness tag, the only network call was the lookup, and the store is
    as it was. *)
Theorem C5_shared_hit_backfills_local (e : Env) (d : Device)
    (store : gmap jsstring JSValue) (recipe : JSValue) :
  let tag := App.freshnessTag (clock e 1) in
  App.isSupabaseConfigured build env = true ->
  (exists failed, readLocal (localStorage d) tag = LocalMiss failed) ->
  store !! App.dateKey (clock e 0) = Some recipe ->
  let o := run_with_store e (App.fetchDailyRecipe build env) d store in
  dailyRecipe (s_device o) = recipe
  /\ s_completion o = Return tt
  /\ localStorage (s_device o) = written recipe tag (localStorage d)
  /\ localStorage (s_device o) !! App.daily_recipe = Some (stringified recipe)
  /\ localStorage (s_device o) !! App.daily_recipe_date = Some tag
  /\ List.filter is_network (s_trace o)
     = [ObsSelect (App.dateKey (clock e 0))
          (Fulfilled (Store.select store (App.dateKey (clock e 0))))]
  /\ s_store o = store.
Proof.
  cbv zeta. intros Hcfg [failed Hloc] Hheld.
  rewrite run_with_store_fetchDailyRecipe. cbv zeta. simpl.
  pose proof (readShared_stored e store _ recipe Hcfg Hheld) as Hshared.
  rewrite resolve_dailyRecipe, resolve_completion, resolve_localStorage,
    resolve_network.
  cbv zeta. simpl clock. rewrite Hloc, Hshared.
  split; [reflexivity|]. split; [reflexivity|]. split; [reflexivity|].
  split; [apply written_recipe|]. split; [apply written_tag|].
  split; [reflexivity|].
  unfold resolve. simpl clock. rewrite Hloc, Hshared, Hcfg. reflexivity.
Qed.
End Claims.

Section Generation.
Context `{Host}.

(** What the fence-stripping copy of the service returns and logs, under
    any handler. *)
Lemma run_generateDailyRecipe (e : Env) (d : Device) :
  let build := {| supabaseCopy := LazyClient; geminiCopy := FenceStripping |} in
  run e GeminiService.generateDailyRecipe d
  = {| completion := Return (generated build e);
       device := log_if (snd (generate build (generateContent e))) d;
       trace := [ObsGenerate (generateContent e)] |}.
Proof.
  unfold run, GeminiService.generateDailyRecipe, generated, generate, parsed_text,
    parse_error_label, JSON_parse_stmt.
  cbn -[strip_fences lit].
  destruct (generateContent e) as [[[t|]]|x]; cbn -[strip_fences lit]; try reflexivity.
  destruct (JSString.truthy t); cbn -[strip_fences lit]; try reflexivity.
  destruct (JSON_parse (strip_fences t)); reflexivity.
Qed.

Lemma run_generateDailyRecipe_plain (e : Env) (d : Device) :
  let build := {| supabaseCopy := LazyClient; geminiCopy := PlainParse |} in
  run e GeminiServicePlain.generateDailyRecipe d
  = {| completion := Return (generated build e);
       device := log_if (snd (generate build (generateContent e))) d;
       trace := [ObsGenerate (generateContent e)] |}.
Proof.
  unfold run, GeminiServicePlain.generateDailyRecipe, generated, generate, parsed_text,
    parse_error_label, JSON_parse_stmt.
  cbn -[JSString.trim lit].
  destruct (generateContent e) as [[[t|]]|x]; cbn -[JSString.trim lit]; try reflexivity.
  destruct (JSString.truthy t); cbn -[JSString.trim lit]; try reflexivity.
  destruct (JSON_parse (JSString.trim t)); reflexivity.
Qed.

(** The copy of the service that removes code fences, on a response whose
    trimmed text has one: it parses [strip_fences] of the text, a text
    without any fence; it returns the parsed value, and [null] when the
    parse fails. For [```json body ```] and [``` body ```] the parsed text
    is the body, trimmed. *)
Lemma fenced_response_is_stripped_then_parsed (e : Env) (d : Device)
    (response_text : jsstring) :
  generateContent e = Fulfilled {| text := Some response_text |} ->
  JSString.includes (JSString.trim response_text) fence = true ->
  let o := run e GeminiService.generateDailyRecipe d in
  JSString.includes (strip_fences response_text) fence = false
  /\ completion o = Return (match JSON_parse (strip_fences response_text) with
                           | Some recipe => recipe
                           | None => JNull
                           end)
  /\ (forall body,
        JSString.trim response_text = fence_json ++ body ++ fence ->
        JSString.includes body fence = false ->
        strip_fences response_text = JSString.trim body)
  /\ (forall body,
        JSString.trim response_text = fence ++ body ++ fence ->
        JSString.includes body fence = false ->
        JSString.includes (JSString.trim response_text) fence_json = false ->
        strip_fences response_text = JSString.trim body).
Proof.
  intros Hanswer Hfence. cbv zeta.
  split; [apply strip_fences_none, Hfence|].
  split; [|split; intros body; [apply strip_fences_json_block | apply strip_fences_block]].
  rewrite run_generateDailyRecipe. cbv zeta. simpl completion.
  unfold generated, generate, parsed_text. rewrite Hanswer. simpl.
  destruct response_text as [|c s]; [discriminate Hfence|]. simpl JSString.truthy. cbv iota.
  destruct (JSON_parse (strip_fences (c :: s))); reflexivity.
Qed.

(** The other copy parses the trimmed text as it is, fence and all. *)
Lemma plain_copy_parses_the_trimmed_text (e : Env) (d : Device)
    (response_text : jsstring) :
  generateContent e = Fulfilled {| text := Some response_text |} ->
  JSString.truthy response_text = true ->
  completion (run e GeminiServicePlain.generateDailyRecipe d)
  = Return (match JSON_parse (JSString.trim response_text) with
            | Some recipe => recipe
            | None => JNull
            end).
Proof.
  intros Hanswer Htruthy.
  rewrite run_generateDailyRecipe_plain. cbv zeta. simpl completion.
  unfold generated, generate, parsed_text. rewrite Hanswer. simpl.
  rewrite Htruthy. destruct (JSON_parse (JSString.trim response_text)); reflexivity.
Qed.
End Generation.

(** ** Interleavings *)

Lemma answer_for_observe {X} (c : Call X) (x : X) : answer_for c (observe c x) = Some x.
Proof. destruct c; reflexivity. Qed.

Lemma follows_snoc {A} (p : Prog A) (tr : list Obs) {X} (c : Call X)
    (k : X -> Prog A) (x : X) :
  follows p tr (Vis c k) -> follows p (tr ++ [observe c x]) (k x).
Proof.
  revert p. induction tr as [|o tr IH]; intros p; simpl.
  - intros ->. exists x. split; reflexivity.
  - destruct p as [a|Y c' k']; [intros []|].
    intros [y [Ho Hrest]]. exists y. split; [exact Ho | apply IH, Hrest].
Qed.

(** A complete sequence of calls is the run against its own replay. *)
Lemma follows_replay {A} (p : Prog A) (tr : list Obs) (r : A) :
  follows p tr (Ret r) -> interp replay p tr = (r, [], tr).
Proof.
  revert p. induction tr as [|o tr IH]; intros p; simpl.
  - intros ->. reflexivity.
  - destruct p as [a|X c k]; [intros []|].
    intros [x [-> Hrest]]. simpl. rewrite answer_for_observe. simpl.
    rewrite (IH _ Hrest). reflexivity.
Qed.

Lemma published_app (tr tr' : list Obs) :
  published (tr ++ tr') = published tr ++ published tr'.
Proof. unfold published. apply omap_app. Qed.

Module SystemFacts.
Import System.

(** What one step of a device adds to what it has seen and does to the
    store: nothing when the device has returned; otherwise one call, and
    the store takes it when it is an upsert that got through. *)
Lemma step_node_effect (n : Node) (store : gmap jsstring JSValue) (who : bool) :
  let '(o, n', store') := step_node n store in
  let entry := match o with Some obs => [(who, obs)] | None => [] end in
  seen n' = seen n ++ calls_of who entry
  /\ store' = apply_writes (writes entry) store.
Proof.
  unfold step_node. destruct (program n) as [r|X c k].
  - simpl. rewrite app_nil_r. split; reflexivity.
  - destruct c; cbn [contended fst snd observe]; unfold calls_of, writes;
      cbn [omap list_omap fst snd]; rewrite Bool.eqb_reflx; cbn [omap list_omap app seen];
      try (split; reflexivity).
    destruct (accepted (upsert (host n) date recipe_data)); split; reflexivity.
Qed.

Lemma step_node_NodeInv (p0 : Prog (Completion unit unit * Device)) (e : Env)
    (n : Node) (store : gmap jsstring JSValue) :
  NodeInv p0 e n -> NodeInv p0 e (snd (fst (step_node n store))).
Proof.
  intros (Hf & He & Hg & Hu). unfold step_node.
  destruct (program n) as [r|X c k] eqn:Hp.
  { cbn [fst snd]. unfold NodeInv. rewrite Hp. repeat split; assumption. }
  destruct c; cbn [contended fst snd observe seen host program]; unfold NodeInv;
    cbn [seen host program].
  all: split; [apply (follows_snoc p0 (seen n) _ k _ Hf)|].
  all: split; [exact He|].
  all: split; [intros a [Hin|[Hin|[]]]%in_app_iff | intros k' r' a [Hin|[Hin|[]]]%in_app_iff].
  all: try (apply Hg; exact Hin); try (eapply Hu; exact Hin); try discriminate.
  - injection Hin as <- <- <-. rewrite He. reflexivity.
  - injection Hin as <-. rewrite He. reflexivity.
Qed.

Lemma calls_of_app (who : bool) (l l' : list (bool * Obs)) :
  calls_of who (l ++ l') = calls_of who l ++ calls_of who l'.
Proof. unfold calls_of. apply omap_app. Qed.

Lemma writes_app (l l' : list (bool * Obs)) : writes (l ++ l') = writes l ++ writes l'.
Proof. unfold writes. apply omap_app. Qed.

Lemma apply_writes_app (ws ws' : list (bool * (jsstring * JSValue)))
    (store : gmap jsstring JSValue) :
  apply_writes (ws ++ ws') store = apply_writes ws' (apply_writes ws store).
Proof. unfold apply_writes. apply fold_left_app. Qed.

Lemma calls_of_other (who : bool) (entry : list (bool * Obs)) :
  (forall x, In x entry -> fst x = who) -> calls_of (negb who) entry = [].
Proof.
  induction entry as [|x entry IH]; [reflexivity|].
  intros Hall. unfold calls_of. cbn [omap list_omap].
  rewrite (Hall x (or_introl eq_refl)).
  replace (Bool.eqb who (negb who)) with false by (destruct who; reflexivity).
  apply IH. intros y Hy. apply Hall. right. exact Hy.
Qed.

Lemma step_invariant (p1 : Prog (Completion unit unit * Device)) (e1 : Env)
    (p2 : Prog (Completion unit unit * Device)) (e2 : Env)
    (store0 : gmap jsstring JSValue) (who : bool) (s : State) :
  NodeInv p1 e1 (first s) -> NodeInv p2 e2 (second s) -> LogInv store0 s ->
  NodeInv p1 e1 (first (step s who)) /\ NodeInv p2 e2 (second (step s who))
  /\ LogInv store0 (step s who).
Proof.
  intros H1 H2 (Hs1 & Hs2 & Hstore). unfold step.
  pose proof (step_node_effect (if who then second s else first s) (shared s) who) as Heff.
  pose proof (step_node_NodeInv p1 e1 (first s) (shared s) H1) as H1'.
  pose proof (step_node_NodeInv p2 e2 (second s) (shared s) H2) as H2'.
  destruct who.
  - destruct (step_node (second s) (shared s)) as [[o n] store].
    cbv zeta in Heff. destruct Heff as [Hseen Hst]. cbn [fst snd] in H2'.
    cbn [first second shared log].
    split; [exact H1|]. split; [exact H2'|].
    unfold LogInv. cbn [first second shared log].
    rewrite !calls_of_app, writes_app, apply_writes_app, <- Hstore, <- Hs1, <- Hs2.
    split; [|split; [exact Hseen | exact Hst]].
    rewrite (calls_of_other true); [rewrite app_nil_r; reflexivity|].
    destruct o; intros x Hx; [destruct Hx as [<-|[]]; reflexivity | destruct Hx].
  - destruct (step_node (first s) (shared s)) as [[o n] store].
    cbv zeta in Heff. destruct Heff as [Hseen Hst]. cbn [fst snd] in H1'.
    cbn [first second shared log].
    split; [exact H1'|]. split; [exact H2|].
    unfold LogInv. cbn [first second shared log].
    rewrite !calls_of_app, writes_app, apply_writes_app, <- Hstore, <- Hs1, <- Hs2.
    split; [exact Hseen|]. split; [|exact Hst].
    rewrite (calls_of_other false); [rewrite app_nil_r; reflexivity|].
    destruct o; intros x Hx; [destruct Hx as [<-|[]]; reflexivity | destruct Hx].
Qed.

Lemma run_invariant (p1 : Prog (Completion unit unit * Device)) (e1 : Env)
    (p2 : Prog (Completion unit unit * Device)) (e2 : Env)
    (store0 : gmap jsstring JSValue) (schedule : list bool) (s : State) :
  NodeInv p1 e1 (first s) -> NodeInv p2 e2 (second s) -> LogInv store0 s ->
  NodeInv p1 e1 (first (run schedule s)) /\ NodeInv p2 e2 (second (run schedule s))
  /\ LogInv store0 (run schedule s).
Proof.
  revert s. induction schedule as [|who schedule IH]; intros s H1 H2 H3.
  - split; [exact H1|]. split; [exact H2|exact H3].
  - destruct (step_invariant p1 e1 p2 e2 store0 who s H1 H2 H3) as (H1' & H2' & H3').
    exact (IH (step s who) H1' H2' H3').
Qed.

(** The writes of one device among the writes of a log. *)
Lemma writes_calls_of (who : bool) (l : list (bool * Obs)) :
  List.map snd (List.filter (fun w => Bool.eqb (fst w) who) (writes l))
  = taken (calls_of who l).
Proof.
  induction l as [|[w o] l IH]; [reflexivity|].
  unfold writes, calls_of, taken in *. cbn [omap list_omap fst snd].
  destruct o as [t|k a|k r a|a]; cbn [omap list_omap].
  all: destruct (Bool.eqb w who) eqn:Hw; cbn [omap list_omap]; try exact IH.
  all: destruct (accepted a); cbn [List.filter List.map fst snd]; rewrite ?Hw;
    cbn [List.map snd]; rewrite ?IH; reflexivity.
Qed.

Lemma taken_none (tr : list Obs) : published tr = [] -> taken tr = [].
Proof.
  induction tr as [|o tr IH]; [reflexivity|].
  destruct o; simpl; try exact IH. discriminate.
Qed.

(** A device that published once, with an upsert that got through. *)
Lemma taken_published (tr : list Obs) (k : jsstring) (r : JSValue) :
  published tr = [(k, r)] ->
  (forall a, In (ObsUpsert k r a) tr -> accepted a = true) ->
  taken tr = [(k, r)].
Proof.
  induction tr as [|o tr IH]; [discriminate|].
  destruct o as [t|k' a|k' r' a|a]; simpl; intros Hpub Hall;
    try (apply IH; [exact Hpub | intros a' Ha'; apply Hall; right; exact Ha']).
  injection Hpub as -> -> Hrest.
  rewrite (Hall a (or_introl eq_refl)), (taken_none _ Hrest). reflexivity.
Qed.

(** A list of tagged entries none of which has the one tag. *)
Lemma one_writer {T} (who : bool) (l : list (bool * T)) (ys : list T) :
  List.map snd (List.filter (fun w => Bool.eqb (fst w) who) l) = [] ->
  List.map snd (List.filter (fun w => Bool.eqb (fst w) (negb who)) l) = ys ->
  l = List.map (pair (negb who)) ys.
Proof.
  revert ys. induction l as [|[w x] l IH]; intros ys; cbn [List.filter List.map fst snd].
  - intros _ <-. reflexivity.
  - destruct w, who; cbn [Bool.eqb negb List.map snd]; try discriminate.
    all: intros Hno <-; cbn [List.map]; f_equal; apply IH; [exact Hno | reflexivity].
Qed.

(** Two writers with one write each: one of the two orders. *)
Lemma two_writers {T} (l : list (bool * T)) (a b : T) :
  List.map snd (List.filter (fun w => Bool.eqb (fst w) false) l) = [a] ->
  List.map snd (List.filter (fun w => Bool.eqb (fst w) true) l) = [b] ->
  l = [(false, a); (true, b)] \/ l = [(true, b); (false, a)].
Proof.
  destruct l as [|[w x] l]; cbn [List.filter List.map fst snd]; [discriminate|].
  destruct w; cbn [Bool.eqb List.map snd].
  - intros Ha [= -> Hb]. right. f_equal.
    exact (one_writer true l [a] Hb Ha).
  - intros [= -> Ha] Hb. left. f_equal.
    exact (one_writer false l [b] Ha Hb).
Qed.

End SystemFacts.

Lemma published_network (tr : list Obs) :
  published tr = published (List.filter is_network tr).
Proof.
  induction tr as [|o tr IH]; [reflexivity|].
  destruct o; simpl; rewrite ?IH; reflexivity.
Qed.

Lemma In_generate_network (a : Settled GenerateContentResponse) (tr : list Obs) :
  In (ObsGenerate a) tr <-> In (ObsGenerate a) (List.filter is_network tr).
Proof. rewrite filter_In. simpl. tauto. Qed.

Section Concurrent.
Context `{Host}.
Variable build : Build.
Variable env : ImportMetaEnv.

(** What a resolution publishes: the generated recipe under the date key,
    after a miss of a configured store, and nothing otherwise. *)
Lemma resolve_published (e : Env) (d : Device) :
  published (trace (resolve build env e d)) =
  match readLocal (localStorage d) (App.freshnessTag (clock e 1)),
        readShared build env e (App.dateKey (clock e 0)) with
  | LocalMiss _, SharedMiss =>
      if JS.truthy (generated build e)
      then [(App.dateKey (clock e 0), generated build e)]
      else []
  | _, _ => []
  end.
Proof.
  rewrite published_network, resolve_network. cbv zeta.
  destruct (readLocal _ _); [reflexivity|].
  destruct (readShared build env e _); try reflexivity.
  destruct (JS.truthy (generated build e)); reflexivity.
Qed.

Lemma resolve_published_generated (e : Env) (d : Device) (k : jsstring) (r : JSValue) :
  In (k, r) (published (trace (resolve build env e d))) ->
  r = generated build e
  /\ In (ObsGenerate (generateContent e)) (trace (resolve build env e d))
  /\ completion (resolve build env e d) = Normal tt.
Proof.
  rewrite resolve_published, In_generate_network, resolve_network, resolve_completion.
  cbv zeta.
  destruct (readLocal _ _); [intros []|].
  destruct (readShared build env e _); try (intros []).
  destruct (JS.truthy (generated build e)); [|intros []].
  intros [[= _ <-]|[]]. split; [reflexivity|]. split; [|reflexivity].
  right. left. reflexivity.
Qed.

(** A device that has returned went through a resolution that [resolve]
    describes, against the answers it has seen. *)
Lemma finished_resolution (e : Env) (d : Device) (n : System.Node)
    (r : Completion unit unit * Device) :
  System.NodeInv (App.fetchDailyRecipe build env d) e n ->
  System.program n = Ret r ->
  exists e', r = (completion (resolve build env e' d), device (resolve build env e' d))
             /\ System.seen n = trace (resolve build env e' d)
             /\ (In (ObsGenerate (generateContent e')) (System.seen n) ->
                 generateContent e' = generateContent e).
Proof.
  intros (Hf & _ & Hg & _) Hp. rewrite Hp in Hf.
  apply follows_replay in Hf.
  pose proof (interp_fetchDailyRecipe build env replay (System.seen n) d) as [Hr Ht].
  rewrite Hf in Hr, Ht. simpl in Hr, Ht.
  exists (script build env replay (System.seen n)).
  split; [exact Hr|]. split; [exact Ht|]. apply Hg.
Qed.

Lemma finished_published (e : Env) (d : Device) (n : System.Node)
    (k : jsstring) (r : JSValue) :
  System.NodeInv (App.fetchDailyRecipe build env d) e n ->
  System.finished n = true ->
  In (k, r) (published (System.seen n)) ->
  r = generated build e /\ System.result n = Some (Normal tt).
Proof.
  intros Hinv Hfin Hin. unfold System.finished, System.result in *.
  destruct (System.program n) as [res|] eqn:Hp; [|discriminate].
  destruct (finished_resolution e d n res Hinv Hp) as (e' & Hres & Hseen & Hgen).
  rewrite Hseen in Hin, Hgen.
  destruct (resolve_published_generated e' d k r Hin) as (Hr & Hobs & Hc).
  specialize (Hgen Hobs). subst res. rewrite Hc.
  split; [|reflexivity]. rewrite Hr. unfold generated. rewrite Hgen. reflexivity.
Qed.

(** C9. Two devices resolve concurrently, in any interleaving of their
    calls, against one store that overwrites on conflict and may fail an
    upsert; both have returned, the first has published [rA] and the
    second [rB] under the same date key. Then both resolutions completed
    normally, whatever the store answered to the upserts: no error of a
    publish reached the caller. [rA] and [rB] are the recipes the two
    devices generated. The store is what the writes it took, in the order
    in which it took them, make of the store of the start. And when both
    upserts got through, the store took exactly these two writes, in one
    order or the other, and holds under the key the recipe of the later
    one, which is what a lookup then returns. *)
Theorem C9_concurrent_publishes_converge (eA eB : Env) (dA dB : Device)
    (store0 : gmap jsstring JSValue) (schedule : list bool)
    (key : jsstring) (rA rB : JSValue) :
  let s := System.run schedule
             {| System.first := System.boot eA (App.fetchDailyRecipe build env dA);
                System.second := System.boot eB (App.fetchDailyRecipe build env dB);
                System.shared := store0;
                System.log := [] |} in
  System.finished (System.first s) = true ->
  System.finished (System.second s) = true ->
  published (System.seen (System.first s)) = [(key, rA)] ->
  published (System.seen (System.second s)) = [(key, rB)] ->
  (System.result (System.first s) = Some (Normal tt)
   /\ System.result (System.second s) = Some (Normal tt))
  /\ rA = generated build eA /\ rB = generated build eB
  /\ System.shared s = System.apply_writes (System.writes (System.log s)) store0
  /\ (System.accepted (upsert eA key rA) = true ->
      System.accepted (upsert eB key rB) = true ->
      (System.writes (System.log s) = [(false, (key, rA)); (true, (key, rB))]
       /\ System.shared s !! key = Some rB
       /\ Store.select (System.shared s) key = {| data := Store.row rB; error := JNull |})
      \/ (System.writes (System.log s) = [(true, (key, rB)); (false, (key, rA))]
          /\ System.shared s !! key = Some rA
          /\ Store.select (System.shared s) key
             = {| data := Store.row rA; error := JNull |})).
Proof.
  cbv zeta.
  set (s0 := {| System.first := System.boot eA (App.fetchDailyRecipe build env dA);
                System.second := System.boot eB (App.fetchDailyRecipe build env dB);
                System.shared := store0; System.log := [] |}).
  intros HfinA HfinB HpubA HpubB.
  destruct (SystemFacts.run_invariant
              (App.fetchDailyRecipe build env dA) eA
              (App.fetchDailyRecipe build env dB) eB store0 schedule s0)
    as (HA & HB & HseenA & HseenB & Hstore).
  { split; [reflexivity|]. split; [reflexivity|]. split; [intros a []|intros k r a []]. }
  { split; [reflexivity|]. split; [reflexivity|]. split; [intros a []|intros k r a []]. }
  { split; [reflexivity|]. split; reflexivity. }
  set (s := System.run schedule s0) in *.
  assert (HinA : In (key, rA) (published (System.seen (System.first s))))
    by (rewrite HpubA; left; reflexivity).
  assert (HinB : In (key, rB) (published (System.seen (System.second s))))
    by (rewrite HpubB; left; reflexivity).
  destruct (finished_published eA dA _ key rA HA HfinA HinA) as [HrA HresA].
  destruct (finished_published eB dB _ key rB HB HfinB HinB) as [HrB HresB].
  split; [split; assumption|]. split; [exact HrA|]. split; [exact HrB|].
  split; [exact Hstore|].
  intros HaccA HaccB.
  assert (HtakenA : System.taken (System.seen (System.first s)) = [(key, rA)]).
  { apply SystemFacts.taken_published; [exact HpubA|].
    intros a Ha. destruct HA as (_ & _ & _ & Hu). rewrite (Hu _ _ _ Ha). exact HaccA. }
  assert (HtakenB : System.taken (System.seen (System.second s)) = [(key, rB)]).
  { apply SystemFacts.taken_published; [exact HpubB|].
    intros a Ha. destruct HB as (_ & _ & _ & Hu). rewrite (Hu _ _ _ Ha). exact HaccB. }
  rewrite HseenA, <- SystemFacts.writes_calls_of in HtakenA.
  rewrite HseenB, <- SystemFacts.writes_calls_of in HtakenB.
  rewrite Hstore.
  destruct (SystemFacts.two_writers _ _ _ HtakenA HtakenB) as [-> | ->]; [left|right].
  all: split; [reflexivity|].
  all: assert (Hheld : forall r r' : JSValue,
           Store.upsert (Store.upsert store0 key r) key r' !! key = Some r')
         by (intros r r'; unfold Store.upsert; apply lookup_insert_eq).
  all: cbn [System.apply_writes fold_left fst snd].
  all: split; [apply Hheld | unfold Store.select; rewrite Hheld; reflexivity].
Qed.
End Concurrent.

(** ** The scenarios of the specification, evaluated *)

Example reference_parse_recipe :
  ReferenceHost.parse Scenario.recipe_text = Some Scenario.recipe.
Proof. vm_compute. reflexivity. Qed.

Example reference_round_trip :
  ReferenceHost.serialize Scenario.recipe = Some Scenario.recipe_text.
Proof. vm_compute. reflexivity. Qed.

Example reference_parse_fenced :
  ReferenceHost.parse Scenario.fenced_text = None.
Proof. vm_compute. reflexivity. Qed.

(** Scenario A: local cache empty, store not configured, the service
    returns the recipe. *)
Example scenario_A :
  let o := run (Scenario.sending Scenario.recipe_text)
             (App.fetchDailyRecipe (H := ReferenceHost.host)
                Scenario.build Scenario.unconfigured)
             (App.mount Scenario.build Scenario.unconfigured ∅) in
  dailyRecipe (device o) = Scenario.recipe
  /\ localStorage (device o) = Scenario.cached Scenario.today_tag
  /\ trace o = [ObsNewDate Scenario.morning; ObsNewDate Scenario.morning;
                ObsGenerate (Fulfilled {| text := Some Scenario.recipe_text |})].
Proof. vm_compute. repeat split; reflexivity. Qed.

(** Scenario B: the local cache holds today's recipe. *)
Example scenario_B :
  let o := run Scenario.failing
             (App.fetchDailyRecipe (H := ReferenceHost.host)
                Scenario.build Scenario.configured)
             (App.mount Scenario.build Scenario.configured
                (Scenario.cached Scenario.today_tag)) in
  dailyRecipe (device o) = Scenario.recipe
  /\ trace o = [ObsNewDate Scenario.morning; ObsNewDate Scenario.morning].
Proof. vm_compute. repeat split; reflexivity. Qed.

(** Scenario C: the payload comes inside a code fence. *)
Example scenario_C :
  let o := run (Scenario.sending Scenario.fenced_text)
             (App.fetchDailyRecipe (H := ReferenceHost.host)
                Scenario.build Scenario.unconfigured)
             (App.mount Scenario.build Scenario.unconfigured ∅) in
  dailyRecipe (device o) = Scenario.recipe.
Proof. vm_compute. reflexivity. Qed.

(** The copy of the service without the fence removal returns [null] on the
    payload of scenario C, and logs the parse error. *)
Example plain_copy_on_fenced_payload :
  let o := run (Scenario.sending Scenario.fenced_text)
             (GeminiServicePlain.generateDailyRecipe (H := ReferenceHost.host))
             (App.mount Scenario.build Scenario.unconfigured ∅) in
  completion o = Return JNull
  /\ console (device o) = [lit "Error generating daily recipe:"].
Proof. vm_compute. repeat split; reflexivity. Qed.

(** C2, on the code. The generation service answers with the recipe of
    scenario D, which has no [benefits]. The resolution exposes that object
    (not [null]), writes it to local storage under today's tag and publishes
    it; the local stage of the next resolution rejects what was written; and
    a store that holds the object serves it as a hit. Only the local stage
    tests [benefits]. *)
Theorem C2_recipe_without_benefits_is_accepted :
  let fetch := App.fetchDailyRecipe (H := ReferenceHost.host)
                 Scenario.build Scenario.configured in
  let d := App.mount Scenario.build Scenario.configured ∅ in
  let o := run (Scenario.sending Scenario.no_benefits_text) fetch d in
  let o' := run_with_store Scenario.failing fetch d
              {[ Scenario.today_key := Scenario.no_benefits ]} in
  JS.isArray (JS.get Scenario.no_benefits App.benefits) = false
  /\ dailyRecipe (device o) = Scenario.no_benefits
  /\ localStorage (device o) !! App.daily_recipe = Some Scenario.no_benefits_text
  /\ localStorage (device o) !! App.daily_recipe_date = Some Scenario.today_tag
  /\ published (trace o) = [(Scenario.today_key, Scenario.no_benefits)]
  /\ readLocal (H := ReferenceHost.host) (localStorage (device o)) Scenario.today_tag
     = LocalMiss false
  /\ dailyRecipe (s_device o') = Scenario.no_benefits
  /\ s_completion o' = Return tt.
Proof. vm_compute. repeat split; reflexivity. Qed.


(** C4, on the code. The payload of scenario C: valid JSON inside a code
    fence. The copy of the service that removes fences returns the recipe.
    The other copy hands the trimmed text, fence and all, to [JSON.parse],
    which throws; it logs the error and returns [null], and a resolution
    built with it exposes no recipe and stores nothing. *)
Theorem C4_plain_copy_parses_the_fenced_text :
  let e := Scenario.sending Scenario.fenced_text in
  let d := App.mount Scenario.build Scenario.unconfigured ∅ in
  let stripping := run e (GeminiService.generateDailyRecipe (H := ReferenceHost.host)) d in
  let plain := run e (GeminiServicePlain.generateDailyRecipe (H := ReferenceHost.host)) d in
  let o := run e (App.fetchDailyRecipe (H := ReferenceHost.host)
                    Cases.plain_build Scenario.unconfigured)
             (App.mount Cases.plain_build Scenario.unconfigured ∅) in
  JSString.includes (JSString.trim Scenario.fenced_text) fence = true
  /\ ReferenceHost.parse (strip_fences Scenario.fenced_text) = Some Scenario.recipe
  /\ completion stripping = Return Scenario.recipe
  /\ ReferenceHost.parse (JSString.trim Scenario.fenced_text) = None
  /\ completion plain = Return JNull
  /\ console (device plain) = [lit "Error generating daily recipe:"]
  /\ trace o = [ObsNewDate Scenario.morning; ObsNewDate Scenario.morning;
                ObsGenerate (Fulfilled {| text := Some Scenario.fenced_text |})]
  /\ dailyRecipe (device o) = JNull
  /\ localStorage (device o) = ∅.
Proof. vm_compute. repeat split; reflexivity. Qed.

(** ** Instances *)

(** The payload of scenario C through the copy that removes fences. *)
Lemma fenced_response_on_scenario_C :
  let e := Scenario.sending Scenario.fenced_text in
  let d := App.mount Scenario.build Scenario.unconfigured ∅ in
  generateContent e = Fulfilled {| text := Some Scenario.fenced_text |}
  /\ JSString.includes (JSString.trim Scenario.fenced_text) fence = true
  /\ JSString.includes (strip_fences Scenario.fenced_text) fence = false
  /\ completion (run e (GeminiService.generateDailyRecipe (H := ReferenceHost.host)) d)
     = Return (match ReferenceHost.parse (strip_fences Scenario.fenced_text) with
               | Some recipe => recipe
               | None => JNull
               end).
Proof.
  cbv zeta.
  assert (H1 : generateContent (Scenario.sending Scenario.fenced_text)
               = Fulfilled {| text := Some Scenario.fenced_text |}) by reflexivity.
  assert (H2 : JSString.includes (JSString.trim Scenario.fenced_text) fence = true)
    by (vm_compute; reflexivity).
  split; [exact H1|]. split; [exact H2|].
  pose proof (fenced_response_is_stripped_then_parsed (H := ReferenceHost.host)
                (Scenario.sending Scenario.fenced_text)
                (App.mount Scenario.build Scenario.unconfigured ∅)
                Scenario.fenced_text H1 H2) as (Hnone & Hret & _).
  split; [exact Hnone | exact Hret].
Defined.

Lemma C5_witness :
  let fetch := App.fetchDailyRecipe (H := ReferenceHost.host)
                 Scenario.build Scenario.configured in
  let d := App.mount Scenario.build Scenario.configured
             (Scenario.cached Scenario.yesterday_tag) in
  let store : gmap jsstring JSValue := {[ Scenario.today_key := Scenario.other_recipe ]} in
  let o := run_with_store Scenario.failing fetch d store in
  App.isSupabaseConfigured Scenario.build Scenario.configured = true
  /\ (exists failed,
        readLocal (H := ReferenceHost.host) (localStorage d)
          (App.freshnessTag (H := ReferenceHost.host) (clock Scenario.failing 1))
        = LocalMiss failed)
  /\ store !! App.dateKey (clock Scenario.failing 0) = Some Scenario.other_recipe
  /\ dailyRecipe (s_device o) = Scenario.other_recipe
  /\ localStorage (s_device o) !! App.daily_recipe
     = Some (stringified (H := ReferenceHost.host) Scenario.other_recipe)
  /\ localStorage (s_device o) !! App.daily_recipe_date = Some Scenario.today_tag
  /\ s_store o = store.
Proof.
  cbv zeta.
  assert (H1 : App.isSupabaseConfigured Scenario.build Scenario.configured = true)
    by reflexivity.
  assert (H2 : exists failed,
             readLocal (H := ReferenceHost.host)
               (localStorage (App.mount Scenario.build Scenario.configured
                                (Scenario.cached Scenario.yesterday_tag)))
               (App.freshnessTag (H := ReferenceHost.host) (clock Scenario.failing 1))
             = LocalMiss failed)
    by (exists false; vm_compute; reflexivity).
  assert (H3 : ({[ Scenario.today_key := Scenario.other_recipe ]} : gmap jsstring JSValue)
               !! App.dateKey (clock Scenario.failing 0) = Some Scenario.other_recipe)
    by (vm_compute; reflexivity).
  split; [exact H1|]. split; [exact H2|]. split; [exact H3|].
  pose proof (C5_shared_hit_backfills_local (H := ReferenceHost.host)
                Scenario.build Scenario.configured Scenario.failing _ _ _ H1 H2 H3)
    as (Hr & _ & _ & Hs & Ht & _ & Hstore).
  split; [exact Hr|]. split; [exact Hs|]. split; [exact Ht|exact Hstore].
Defined.

Lemma C6_witness :
  let fetch := App.fetchDailyRecipe (H := ReferenceHost.host)
                 Scenario.build Scenario.unconfigured in
  let e := Scenario.sending Scenario.recipe_text in
  let first := run e fetch (App.mount Scenario.build Scenario.unconfigured ∅) in
  let d1 := App.mount Scenario.build Scenario.unconfigured (localStorage (device first)) in
  let second := run Scenario.failing fetch d1 in
  App.freshnessTag (H := ReferenceHost.host) (clock e 1)
  = App.freshnessTag (H := ReferenceHost.host) (clock Scenario.failing 1)
  /\ readLocal (H := ReferenceHost.host) (localStorage d1)
       (App.freshnessTag (H := ReferenceHost.host) (clock Scenario.failing 1))
     = LocalHit Scenario.recipe
  /\ dailyRecipe (device second) = Scenario.recipe
  /\ List.filter is_network (trace second) = []
  /\ Scenario.recipe = dailyRecipe (device first).
Proof.
  cbv zeta.
  assert (H1 : App.freshnessTag (H := ReferenceHost.host)
                 (clock (Scenario.sending Scenario.recipe_text) 1)
               = App.freshnessTag (H := ReferenceHost.host) (clock Scenario.failing 1))
    by reflexivity.
  assert (H2 : readLocal (H := ReferenceHost.host)
                 (localStorage
                    (App.mount Scenario.build Scenario.unconfigured
                       (localStorage
                          (device (run (Scenario.sending Scenario.recipe_text)
                                     (App.fetchDailyRecipe (H := ReferenceHost.host)
                                        Scenario.build Scenario.unconfigured)
                                     (App.mount Scenario.build Scenario.unconfigured ∅))))))
                 (App.freshnessTag (H := ReferenceHost.host) (clock Scenario.failing 1))
               = LocalHit Scenario.recipe)
    by (vm_compute; reflexivity).
  split; [exact H1|]. split; [exact H2|].
  pose proof (C6_same_day_read_is_idempotent (H := ReferenceHost.host)
                Scenario.build Scenario.unconfigured
                (Scenario.sending Scenario.recipe_text) Scenario.failing
                (App.mount Scenario.build Scenario.unconfigured ∅)
                Scenario.recipe H1 H2) as (Hr & Hn & _ & _ & Hsame).
  split; [exact Hr|]. split; [exact Hn|].
  apply Hsame. vm_compute. reflexivity.
Defined.

Lemma C7_witness :
  let fetch := App.fetchDailyRecipe (H := ReferenceHost.host)
                 Scenario.build Scenario.unconfigured in
  let e := Scenario.sending Scenario.other_text in
  let d := App.mount Scenario.build Scenario.unconfigured
             (Scenario.cached Scenario.yesterday_tag) in
  localStorage d !! App.daily_recipe_date
  <> Some (App.freshnessTag (H := ReferenceHost.host) (clock e 1))
  /\ readLocal (H := ReferenceHost.host) (localStorage d)
       (App.freshnessTag (H := ReferenceHost.host) (clock e 1)) = LocalMiss false
  /\ existsb is_network (trace (run e fetch d)) = true.
Proof.
  cbv zeta.
  assert (H1 : localStorage (App.mount Scenario.build Scenario.unconfigured
                               (Scenario.cached Scenario.yesterday_tag))
               !! App.daily_recipe_date
               <> Some (App.freshnessTag (H := ReferenceHost.host)
                          (clock (Scenario.sending Scenario.other_text) 1)))
    by (vm_compute; discriminate).
  split; [exact H1|].
  pose proof (C7_stale_tag_is_a_miss (H := ReferenceHost.host)
                Scenario.build Scenario.unconfigured
                (Scenario.sending Scenario.other_text) _ H1) as (Hm & Hn & _).
  split; [exact Hm | exact Hn].
Defined.

Lemma C8_witness :
  let fetch := App.fetchDailyRecipe (H := ReferenceHost.host)
                 Scenario.build Scenario.unconfigured in
  let e := Scenario.sending Scenario.recipe_text in
  let o := run e fetch (App.mount Scenario.build Scenario.unconfigured ∅) in
  (SupabaseConfig.supabaseUrl Scenario.unconfigured = []
   \/ SupabaseConfig.supabaseAnonKey Scenario.unconfigured = [])
  /\ List.filter is_select (trace o) = []
  /\ List.filter is_upsert (trace o) = [].
Proof.
  cbv zeta.
  assert (H1 : SupabaseConfig.supabaseUrl Scenario.unconfigured = []
               \/ SupabaseConfig.supabaseAnonKey Scenario.unconfigured = [])
    by (left; reflexivity).
  split; [exact H1|].
  pose proof (C8_unconfigured_store_is_skipped (H := ReferenceHost.host)
                Scenario.build Scenario.unconfigured
                (Scenario.sending Scenario.recipe_text)
                (App.mount Scenario.build Scenario.unconfigured ∅) H1)
    as (_ & Hs & Hu & _).
  split; [exact Hs | exact Hu].
Defined.

Lemma C9_witness :
  let fetch := App.fetchDailyRecipe (H := ReferenceHost.host)
                 Scenario.build Scenario.configured in
  let d := App.mount Scenario.build Scenario.configured ∅ in
  let eA := Scenario.sending Scenario.recipe_text in
  let eB := Scenario.sending Scenario.other_text in
  let s := System.run Scenario.both_miss
             {| System.first := System.boot eA (fetch d);
                System.second := System.boot eB (fetch d);
                System.shared := ∅;
                System.log := [] |} in
  System.finished (System.first s) = true
  /\ System.finished (System.second s) = true
  /\ published (System.seen (System.first s)) = [(Scenario.today_key, Scenario.recipe)]
  /\ published (System.seen (System.second s))
     = [(Scenario.today_key, Scenario.other_recipe)]
  /\ System.accepted (upsert eA Scenario.today_key Scenario.recipe) = true
  /\ System.accepted (upsert eB Scenario.today_key Scenario.other_recipe) = true
  /\ System.result (System.first s) = Some (Normal tt)
  /\ System.result (System.second s) = Some (Normal tt)
  /\ System.writes (System.log s)
     = [(false, (Scenario.today_key, Scenario.recipe));
        (true, (Scenario.today_key, Scenario.other_recipe))]
  /\ System.shared s !! Scenario.today_key = Some Scenario.other_recipe.
Proof.
  cbv zeta.
  set (s := System.run Scenario.both_miss _).
  assert (H1 : System.finished (System.first s) = true) by (vm_compute; reflexivity).
  assert (H2 : System.finished (System.second s) = true) by (vm_compute; reflexivity).
  assert (H3 : published (System.seen (System.first s))
               = [(Scenario.today_key, Scenario.recipe)]) by (vm_compute; reflexivity).
  assert (H4 : published (System.seen (System.second s))
               = [(Scenario.today_key, Scenario.other_recipe)]) by (vm_compute; reflexivity).
  assert (H5 : System.accepted (upsert (Scenario.sending Scenario.recipe_text)
                                  Scenario.today_key Scenario.recipe) = true)
    by reflexivity.
  assert (H6 : System.accepted (upsert (Scenario.sending Scenario.other_text)
                                  Scenario.today_key Scenario.other_recipe) = true)
    by reflexivity.
  split; [exact H1|]. split; [exact H2|]. split; [exact H3|]. split; [exact H4|].
  split; [exact H5|]. split; [exact H6|].
  pose proof (C9_concurrent_publishes_converge (H := ReferenceHost.host)
                Scenario.build Scenario.configured
                (Scenario.sending Scenario.recipe_text)
                (Scenario.sending Scenario.other_text)
                _ _ ∅ Scenario.both_miss Scenario.today_key
                Scenario.recipe Scenario.other_recipe H1 H2 H3 H4)
    as ((Ha & Hb) & _ & _ & _ & Horder).
  split; [exact Ha|]. split; [exact Hb|].
  destruct (Horder H5 H6) as [(Hw & Hheld & _) | (Hw & _)].
  - split; [exact Hw | exact Hheld].
  - exfalso. vm_compute in Hw. discriminate Hw.
Defined.

Lemma C10_witness :
  let fetch := App.fetchDailyRecipe (H := ReferenceHost.host)
                 Scenario.build Scenario.configured in
  let storage := Scenario.cached Scenario.yesterday_tag in
  let e := Scenario.failing in
  let o := run e fetch (App.mount Scenario.build Scenario.configured storage) in
  let shared := readShared Scenario.build Scenario.configured e
                  (App.dateKey (clock e 0)) in
  (exists failed,
     readLocal (H := ReferenceHost.host) storage
       (App.freshnessTag (H := ReferenceHost.host) (clock e 1)) = LocalMiss failed)
  /\ (shared = SharedMiss \/ shared = SharedUnavailable)
  /\ JS.truthy (generated (H := ReferenceHost.host) Scenario.build e) = false
  /\ localStorage (device o) = storage
  /\ dailyRecipe (device o) = JNull
  /\ isGeneratingRecipe (device o) = false.
Proof.
  cbv zeta.
  assert (H1 : exists failed,
             readLocal (H := ReferenceHost.host) (Scenario.cached Scenario.yesterday_tag)
               (App.freshnessTag (H := ReferenceHost.host) (clock Scenario.failing 1))
             = LocalMiss failed)
    by (exists false; vm_compute; reflexivity).
  assert (H2 : readShared Scenario.build Scenario.configured
                 Scenario.failing (App.dateKey (clock Scenario.failing 0)) = SharedMiss
               \/ readShared Scenario.build Scenario.configured
                    Scenario.failing (App.dateKey (clock Scenario.failing 0))
                  = SharedUnavailable)
    by (left; vm_compute; reflexivity).
  assert (H3 : JS.truthy (generated (H := ReferenceHost.host) Scenario.build Scenario.failing)
               = false) by reflexivity.
  split; [exact H1|]. split; [exact H2|]. split; [exact H3|].
  pose proof (C10_failed_generation_changes_nothing (H := ReferenceHost.host)
                Scenario.build Scenario.configured Scenario.failing
                (Scenario.cached Scenario.yesterday_tag) H1 H2 H3)
    as ((Hs & Hr & Hg & _) & _).
  split; [exact Hs|]. split; [exact Hr|exact Hg].
Defined.

(* ===================================================================== *)
(** * More on the pipeline *)
(* ===================================================================== *)

(** ** The pipeline under any environment *)

Section AnyEnvironment.
Context `{Host}.
Variable build : Build.
Variable env : ImportMetaEnv.

Lemma run_under_fetchDailyRecipe {W} (h : Handler W) (w : W) (d : Device) :
  run_under h w (App.fetchDailyRecipe build env) d
  = resolve build env (script build env h w) d.
Proof.
  unfold run_under.
  pose proof (interp_fetchDailyRecipe build env h w d) as [Hr Ht].
  destruct (interp h (App.fetchDailyRecipe build env d) w) as [[[c d'] w'] tr].
  simpl in Hr, Ht. cbv zeta in Hr, Ht.
  destruct (resolve build env (script build env h w) d). simpl in *. congruence.
Qed.

Lemma written_other (recipe : JSValue) (tag key : jsstring)
    (storage : gmap jsstring jsstring) :
  key <> App.daily_recipe -> key <> App.daily_recipe_date ->
  written recipe tag storage !! key = storage !! key.
Proof.
  intros Hr Hd. unfold written.
  rewrite !lookup_insert_ne by congruence. reflexivity.
Qed.

(** X1. Whatever the environment answers, and when a call is rejected too,
    the resolution ends without an exception: the promise of
    [fetchDailyRecipe], which nothing awaits, is never rejected. *)
Theorem fetchDailyRecipe_never_rejects {W} (h : Handler W) (w : W) (d : Device) :
  let o := run_under h w (App.fetchDailyRecipe build env) d in
  completion o = Normal tt \/ completion o = Return tt.
Proof.
  cbv zeta. rewrite run_under_fetchDailyRecipe, resolve_completion.
  destruct (readLocal _ _); [right; reflexivity|].
  destruct (readShared _ _ _ _); auto.
Qed.

(** X2. The spinner does not stay: a resolution that starts with
    [isGeneratingRecipe] off ends with it off, whatever the environment
    answers. *)
Theorem spinner_is_off_at_the_end {W} (h : Handler W) (w : W) (d : Device) :
  isGeneratingRecipe d = false ->
  isGeneratingRecipe (device (run_under h w (App.fetchDailyRecipe build env) d)) = false.
Proof.
  intros Hoff. rewrite run_under_fetchDailyRecipe, resolve_isGeneratingRecipe.
  destruct (readLocal _ _); [exact Hoff | reflexivity].
Qed.

(** X3. A resolution writes the two keys of the recipe cache and no other:
    the saved name and the notification flag are as they were. *)
Theorem fetchDailyRecipe_keeps_the_other_keys {W} (h : Handler W) (w : W) (d : Device)
    (key : jsstring) :
  key <> App.daily_recipe -> key <> App.daily_recipe_date ->
  localStorage (device (run_under h w (App.fetchDailyRecipe build env) d)) !! key
  = localStorage d !! key.
Proof.
  intros Hr Hd. rewrite run_under_fetchDailyRecipe, resolve_localStorage. cbv zeta.
  destruct (readLocal _ _); [reflexivity|].
  destruct (readShared _ _ _ _); try reflexivity;
    try (destruct (JS.truthy _); [|reflexivity]); apply written_other; assumption.
Qed.

(** X4. The calls of a resolution to the network: at most one lookup, then at
    most one generation, then at most one upsert, and no upsert without a
    generation before it. *)
Theorem network_calls_come_in_order {W} (h : Handler W) (w : W) (d : Device) :
  let o := run_under h w (App.fetchDailyRecipe build env) d in
  exists lookups generations upserts,
    List.filter is_network (trace o) = lookups ++ generations ++ upserts
    /\ (length lookups <= 1)%nat /\ forallb is_select lookups = true
    /\ (length generations <= 1)%nat /\ forallb is_generate generations = true
    /\ (length upserts <= 1)%nat /\ forallb is_upsert upserts = true
    /\ (upserts <> [] -> generations <> []).
Proof.
  cbv zeta. rewrite run_under_fetchDailyRecipe, resolve_network. cbv zeta.
  set (e := script build env h w).
  destruct (readLocal _ _).
  { exists [], [], []. simpl. repeat split; auto. }
  destruct (readShared _ _ _ _).
  - exists [ObsSelect (App.dateKey (clock e 0)) (select_single e (App.dateKey (clock e 0)))],
      [], []. simpl. repeat split; auto.
  - destruct (JS.truthy (generated build e)).
    + exists [ObsSelect (App.dateKey (clock e 0)) (select_single e (App.dateKey (clock e 0)))],
        [ObsGenerate (generateContent e)],
        [ObsUpsert (App.dateKey (clock e 0)) (generated build e)
           (upsert e (App.dateKey (clock e 0)) (generated build e))].
      simpl. repeat split; auto.
    + exists [ObsSelect (App.dateKey (clock e 0)) (select_single e (App.dateKey (clock e 0)))],
        [ObsGenerate (generateContent e)], [].
      simpl. repeat split; auto.
  - exists [], [ObsGenerate (generateContent e)], []. simpl. repeat split; auto.
  - exists [ObsSelect (App.dateKey (clock e 0)) (select_single e (App.dateKey (clock e 0)))],
      [], []. simpl. repeat split; auto.
Qed.

End AnyEnvironment.

(** ** Failures on the way *)

Ltac settle :=
  repeat first
    [ reflexivity
    | progress cbn [fst snd device localStorage dailyRecipe isGeneratingRecipe console
                    client completion trace set_localStorage set_dailyRecipe
                    set_isGeneratingRecipe log_error set_client head]
    | match goal with
      | |- context [supabaseCopy ?b] => destruct (supabaseCopy b)
      | |- context [client ?d] => is_var d; destruct (client d)
      | |- context [if ?b then _ else _] => is_var b; destruct b
      | |- context [match ?l with Some _ => _ | None => _ end] => is_var l; destruct l
      end ].

Section Failures.
Context `{Host}.
Variable build : Build.
Variable env : ImportMetaEnv.

(** X5. A lookup that is rejected ends the resolution: the error is logged,
    the generation service is not asked, and no recipe is exposed or
    stored. *)
Theorem rejected_lookup_skips_generation (e : Env) (d : Device) (failed : bool) (x : Exn) :
  App.isSupabaseConfigured build env = true ->
  readLocal (localStorage d) (App.freshnessTag (clock e 1)) = LocalMiss failed ->
  select_single e (App.dateKey (clock e 0)) = Rejected x ->
  let o := run e (App.fetchDailyRecipe build env) d in
  existsb is_generate (trace o) = false
  /\ completion o = Normal tt
  /\ head (console (device o)) = Some (lit "Supabase/Gemini error")
  /\ dailyRecipe (device o) = dailyRecipe d
  /\ localStorage (device o) = localStorage d
  /\ isGeneratingRecipe (device o) = false.
Proof.
  intros Hcfg Hloc Hsel. cbv zeta. rewrite run_fetchDailyRecipe.
  unfold resolve, readShared. rewrite Hloc, Hcfg, Hsel.
  unfold connect. cbn [trace completion device].
  repeat split; settle.
Qed.

(** X6. An upsert that is rejected costs nothing but the sharing: the recipe
    is exposed and cached on the device, and the error is logged. *)
Theorem failed_upsert_keeps_the_recipe (e : Env) (d : Device) (failed : bool) (x : Exn) :
  let today := App.dateKey (clock e 0) in
  let tag := App.freshnessTag (clock e 1) in
  readLocal (localStorage d) tag = LocalMiss failed ->
  readShared build env e today = SharedMiss ->
  JS.truthy (generated build e) = true ->
  upsert e today (generated build e) = Rejected x ->
  let o := run e (App.fetchDailyRecipe build env) d in
  completion o = Normal tt
  /\ dailyRecipe (device o) = generated build e
  /\ localStorage (device o) = written (generated build e) tag (localStorage d)
  /\ isGeneratingRecipe (device o) = false
  /\ head (console (device o)) = Some (lit "Supabase/Gemini error").
Proof.
  cbv zeta. intros Hloc Hshared Htruthy Hup. rewrite run_fetchDailyRecipe.
  assert (Hcfg : App.isSupabaseConfigured build env = true).
  { unfold readShared in Hshared.
    destruct (App.isSupabaseConfigured build env); [reflexivity | discriminate]. }
  unfold resolve. rewrite Hloc, Hshared, Hcfg.
  unfold generated in *.
  destruct (generate build (generateContent e)) as [g l]. cbn [fst] in *.
  rewrite Htruthy, Hup. cbn [trace completion device].
  unfold connect, log_if, store_local.
  repeat split; settle.
Qed.

(** X7. A row of the store that holds no recipe is served like any other:
    what is exposed is the missing recipe, and the generation service is
    not asked. *)
Theorem row_without_recipe_is_served (e : Env) (d : Device) (failed : bool)
    (r : PostgrestResponse) :
  let today := App.dateKey (clock e 0) in
  App.isSupabaseConfigured build env = true ->
  readLocal (localStorage d) (App.freshnessTag (clock e 1)) = LocalMiss failed ->
  select_single e today = Fulfilled r ->
  JS.truthy (data r) = true ->
  JS.truthy (error r) = false ->
  JS.truthy (JS.get (data r) App.recipe_data) = false ->
  let o := run e (App.fetchDailyRecipe build env) d in
  completion o = Return tt
  /\ existsb is_generate (trace o) = false
  /\ dailyRecipe (device o) = JS.get (data r) App.recipe_data
  /\ JS.truthy (dailyRecipe (device o)) = false.
Proof.
  cbv zeta. intros Hcfg Hloc Hsel Hdata Herror Hrecipe. rewrite run_fetchDailyRecipe.
  unfold resolve, readShared, usable. rewrite Hloc, Hcfg, Hsel, Hdata, Herror.
  cbn [andb negb trace completion device]. unfold store_local.
  repeat split; try reflexivity. exact Hrecipe.
Qed.

End Failures.

(** ** The generation service *)

Section GenerationService.
Context `{Host}.
Variable build : Build.
Variable env : ImportMetaEnv.

(** X8. [generateDailyRecipe] always returns, under any environment and in
    both copies: it makes one call, throws nothing, returns [null] when the
    call is rejected or the response has no text, and leaves of the device
    all but the console as it was. *)
Theorem generateDailyRecipe_always_returns {W} (h : Handler W) (w : W) (d : Device) :
  let answer := fst (h _ GenerateContent w) in
  let o := run_under h w (App.generateDailyRecipe build) d in
  completion o = Return (fst (generate build answer))
  /\ trace o = [ObsGenerate answer]
  /\ localStorage (device o) = localStorage d
  /\ dailyRecipe (device o) = dailyRecipe d
  /\ isGeneratingRecipe (device o) = isGeneratingRecipe d
  /\ client (device o) = client d
  /\ match answer with
     | Rejected _ => fst (generate build answer) = JNull
     | Fulfilled response =>
         text_truthy (text response) = false -> fst (generate build answer) = JNull
     end.
Proof.
  cbv zeta. unfold run_under, App.generateDailyRecipe, generate, parsed_text,
    parse_error_label, GeminiService.generateDailyRecipe,
    GeminiServicePlain.generateDailyRecipe, JSON_parse_stmt.
  destruct (geminiCopy build).
  all: cbn -[strip_fences JSString.trim lit].
  all: destruct (h _ GenerateContent w) as [[[[t|]]|x] w'];
    cbn -[strip_fences JSString.trim lit].
  all: try (repeat split; try reflexivity; congruence).
  all: destruct (JSString.truthy t); cbn -[strip_fences JSString.trim lit].
  all: try (repeat split; try reflexivity; congruence).
  all: destruct (JSON_parse _); cbn -[strip_fences JSString.trim lit].
  all: repeat split; try reflexivity; congruence.
Qed.

(** X9. On a response without a code fence the two copies of the service
    return the same, after the same call. *)
Theorem copies_agree_without_a_fence (e : Env) (d : Device) :
  (forall t, generateContent e = Fulfilled {| text := Some t |} ->
             JSString.includes (JSString.trim t) fence = false) ->
  let o := run e GeminiService.generateDailyRecipe d in
  let o' := run e GeminiServicePlain.generateDailyRecipe d in
  completion o = completion o' /\ trace o = trace o'
  /\ length (console (device o)) = length (console (device o')).
Proof.
  intros Hfence. cbv zeta.
  rewrite run_generateDailyRecipe, run_generateDailyRecipe_plain. cbv zeta.
  cbn [completion trace device]. unfold generated, generate, parsed_text.
  cbn [geminiCopy].
  destruct (generateContent e) as [[[t|]]|x] eqn:Hanswer;
    cbn [text from_option id]; auto.
  destruct (text_truthy (Some t)); auto.
  unfold strip_fences. rewrite (Hfence t eq_refl).
  destruct (JSON_parse _); auto.
Qed.

End GenerationService.

(** ** The client of the store *)

Section ClientModule.
Variable env : ImportMetaEnv.

(** X10. With the credentials, [getSupabase] returns a client and keeps it:
    the client that is there is returned as it is, and a second call
    returns the client of the first and changes nothing. *)
Theorem getSupabase_keeps_one_client (d : Device) :
  SupabaseConfig.isSupabaseConfigured env = true ->
  exists c d',
    SupabaseClientLazy.getSupabase (R := unit) env d = Ret (Normal (Some c), d')
    /\ client d' = Some c
    /\ SupabaseClientLazy.getSupabase (R := unit) env d' = Ret (Normal (Some c), d')
    /\ (forall c0, client d = Some c0 -> c = c0 /\ d' = d)
    /\ (client d = None ->
          c = createClient (SupabaseConfig.supabaseUrl env)
                           (SupabaseConfig.supabaseAnonKey env)
          /\ d' = set_client (Some c) d).
Proof.
  intros Hcfg. unfold SupabaseClientLazy.getSupabase,
    SupabaseClientLazy.isSupabaseConfigured. rewrite Hcfg. cbn [negb].
  destruct d as [ls r g co [c0|]].
  - exists c0, {| localStorage := ls; dailyRecipe := r; isGeneratingRecipe := g;
                  console := co; client := Some c0 |}.
    cbn. repeat split; congruence.
  - eexists _, _. cbn. repeat split; try reflexivity; discriminate.
Qed.

(** X11. The two copies of the module give [App] the same client when the
    credentials are there; without them a property of [supabase] cannot be
    read in either, with a [TypeError] in one and the message of the proxy
    in the other. *)
Theorem supabase_copies_agree (d : Device) :
  client d = None ->
  if SupabaseConfig.isSupabaseConfigured env
  then exists c,
         SupabaseClientEager.supabase (R := unit) env d = Ret (Normal c, d)
         /\ SupabaseClientLazy.supabase (R := unit) env d
            = Ret (Normal c, set_client (Some c) d)
  else SupabaseClientEager.supabase (R := unit) env d = Ret (Throw TypeError, d)
       /\ SupabaseClientLazy.supabase (R := unit) env d
          = Ret (Throw (Error SupabaseClientLazy.not_configured_message), d).
Proof.
  intros Hnone.
  unfold SupabaseClientEager.supabase, SupabaseClientEager.loaded_client,
    SupabaseClientEager.isSupabaseConfigured, SupabaseClientLazy.supabase,
    SupabaseClientLazy.getSupabase, SupabaseClientLazy.isSupabaseConfigured.
  destruct (SupabaseConfig.isSupabaseConfigured env).
  - eexists. split; [reflexivity|].
    destruct d as [ls r g co cl]. simpl in Hnone. subst cl. reflexivity.
  - split; reflexivity.
Qed.

End ClientModule.

(* ===================================================================== *)
(** * More on texts: trimming and the link of the viewer *)
(* ===================================================================== *)

Module TrimFacts.
Import JSString.

Lemma trimStart_split (s : jsstring) :
  exists w, s = w ++ trimStart s /\ forallb is_white_space w = true.
Proof.
  induction s as [|c s (w & IH & Hw)]; [exists []; split; reflexivity|].
  simpl. destruct (is_white_space c) eqn:Hc.
  - exists (c :: w). simpl. rewrite Hc, Hw. split; [f_equal; exact IH | reflexivity].
  - exists []. split; reflexivity.
Qed.

Lemma trimStart_head (s r : jsstring) (c : code_unit) :
  trimStart s = c :: r -> is_white_space c = false.
Proof.
  induction s as [|a s IH]; simpl; [discriminate|].
  destruct (is_white_space a) eqn:Ha; [exact IH|].
  intros [= <- _]. exact Ha.
Qed.

Lemma forallb_rev (f : code_unit -> bool) (w : jsstring) :
  forallb f (rev w) = forallb f w.
Proof.
  induction w as [|c w IH]; [reflexivity|].
  simpl. rewrite forallb_app, IH. simpl. rewrite andb_true_r. apply andb_comm.
Qed.

Lemma trimEnd_split (s : jsstring) :
  exists w, s = trimEnd s ++ w /\ forallb is_white_space w = true.
Proof.
  unfold trimEnd. destruct (trimStart_split (rev s)) as (w & Hs & Hw).
  exists (rev w). rewrite forallb_rev. split; [|exact Hw].
  rewrite <- rev_app_distr, <- Hs, rev_involutive. reflexivity.
Qed.

Lemma trimEnd_last (s : jsstring) (c : code_unit) :
  last_unit (trimEnd s) = Some c -> is_white_space c = false.
Proof.
  unfold last_unit, trimEnd. rewrite rev_involutive.
  destruct (trimStart (rev s)) as [|a r] eqn:Ht; [discriminate|].
  intros [= <-]. exact (trimStart_head _ _ _ Ht).
Qed.

(** What [trim] keeps: the text between the white space at both ends. *)
Lemma trim_split (s : jsstring) :
  exists before after, s = before ++ trim s ++ after
    /\ forallb is_white_space before = true /\ forallb is_white_space after = true.
Proof.
  destruct (trimStart_split s) as (before & Hs & Hb).
  destruct (trimEnd_split (trimStart s)) as (after & Ht & Ha).
  exists before, after. unfold trim. rewrite <- Ht. auto.
Qed.

Lemma trim_head (s r : jsstring) (c : code_unit) :
  trim s = c :: r -> is_white_space c = false.
Proof.
  intros Ht. destruct (trimEnd_split (trimStart s)) as (after & Hs & _).
  fold (trim s) in Hs. rewrite Ht in Hs. exact (trimStart_head _ _ _ Hs).
Qed.

Lemma trimStart_blank (s : jsstring) :
  forallb is_white_space s = true -> trimStart s = [].
Proof.
  induction s as [|c s IH]; [reflexivity|]. simpl.
  intros [Hc Hs]%andb_prop. rewrite Hc. apply IH, Hs.
Qed.

(** A text is trimmed to nothing exactly when it is white space. *)
Lemma trim_blank (s : jsstring) :
  trim s = [] <-> forallb is_white_space s = true.
Proof.
  split.
  - intros Ht. destruct (trim_split s) as (before & after & Hs & Hb & Ha).
    rewrite Hs, Ht, !forallb_app, Hb, Ha. reflexivity.
  - intros Hs. unfold trim. rewrite (trimStart_blank _ Hs). reflexivity.
Qed.
End TrimFacts.

Module PreviewFacts.
Import JSString JSText.

Lemma starts_with_refl (s : jsstring) : starts_with s s = true.
Proof. induction s as [|c s IH]; [reflexivity|]. simpl. rewrite N.eqb_refl. exact IH. Qed.

Lemma endsWith_app (s suffix : jsstring) : endsWith (s ++ suffix) suffix = true.
Proof.
  unfold endsWith. rewrite rev_app_distr.
  apply StringFacts.starts_with_app, starts_with_refl.
Qed.

(** Before the first [/view] nothing is removed. *)
Lemma view_does_not_straddle (c : code_unit) (b rest : jsstring) :
  starts_with (lit "/view") (c :: b) = false ->
  starts_with (lit "/view") ((c :: b) ++ lit "/view" ++ rest) = false.
Proof.
  change (lit "/view") with [47; 118; 105; 101; 119]%N.
  destruct b as [|c2 [|c3 [|c4 [|c5 b]]]]; simpl.
  all: repeat match goal with
       | |- context [(?a =? ?x)%N] =>
           is_var x; destruct (N.eqb_spec a x); subst; simpl; try reflexivity
       end.
  all: try discriminate; try reflexivity.
Qed.

Lemma remove_view_to_end_first (base query : jsstring) :
  includes base (lit "/view") = false ->
  forallb (fun c => negb (is_line_terminator c)) query = true ->
  remove_view_to_end (base ++ lit "/view" ++ query) = base.
Proof.
  intros Hbase Hq. induction base as [|c base IH].
  - assert (Hm : view_to_end (lit "/view" ++ query) = true).
    { unfold view_to_end. apply andb_true_iff. split; [|exact Hq].
      apply StringFacts.starts_with_app, starts_with_refl. }
    change ([] ++ lit "/view" ++ query) with (47%N :: (lit "view" ++ query)).
    change (lit "/view" ++ query) with (47%N :: (lit "view" ++ query)) in Hm.
    cbn [remove_view_to_end]. rewrite Hm. reflexivity.
  - rewrite includes_cons in Hbase. apply orb_false_elim in Hbase as [Hhead Htail].
    change ((c :: base) ++ lit "/view" ++ query)
      with (c :: (base ++ lit "/view" ++ query)).
    cbn [remove_view_to_end]. unfold view_to_end at 1.
    change (c :: (base ++ lit "/view" ++ query))
      with ((c :: base) ++ lit "/view" ++ query).
    rewrite (view_does_not_straddle _ _ _ Hhead). cbn [andb].
    f_equal. apply IH, Htail.
Qed.
End PreviewFacts.

(* ===================================================================== *)
(** * More on dates: what the key and the tag tell *)
(* ===================================================================== *)

Module CivilFacts.
Import JSDate.

(** The month and the day of the month are in their ranges, and the date
    gives the day number back. *)
Lemma civil_spec (day : Z) :
  let '(y, m, d) := civil day in
  1 <= m <= 12 /\ 1 <= d <= 31 /\ ReferenceDate.days_from_civil y m d = day.
Proof.
  unfold civil, ReferenceDate.days_from_civil. cbv zeta.
  set (z := day + 719468).
  set (era := z / 146097).
  set (doe := z - era * 146097).
  assert (Hdoe : 0 <= doe < 146097).
  { unfold doe, era. Z.to_euclidean_division_equations. lia. }
  set (yoe := (doe - doe / 1460 + doe / 36524 - doe / 146096) / 365).
  set (doy := doe - (365 * yoe + yoe / 4 - yoe / 100)).
  assert (Hy : 0 <= yoe <= 399 /\ 0 <= doy <= 365).
  { unfold doy, yoe. Z.to_euclidean_division_equations. lia. }
  set (mp := (5 * doy + 2) / 153).
  assert (Hmp : 0 <= mp <= 11) by (unfold mp; Z.to_euclidean_division_equations; lia).
  set (d := doy - (153 * mp + 2) / 5 + 1).
  assert (Hd : 1 <= d <= 31) by (unfold d, mp; Z.to_euclidean_division_equations; lia).
  destruct (Z.ltb_spec mp 10) as [Hlt|Hge].
  - replace (mp + 3 <=? 2) with false by (symmetry; apply Z.leb_gt; lia).
    split; [lia|]. split; [exact Hd|].
    replace (mp + 3 - 3) with mp by lia.
    replace ((yoe + era * 400 + 0) / 400) with era
      by (Z.to_euclidean_division_equations; lia).
    replace (yoe + era * 400 + 0 - era * 400) with yoe by lia.
    unfold d, doy, doe, z. lia.
  - replace (mp - 9 <=? 2) with true by (symmetry; apply Z.leb_le; lia).
    split; [lia|]. split; [exact Hd|].
    replace (mp - 9 + 9) with mp by lia.
    replace ((yoe + era * 400 + 1 - 1) / 400) with era
      by (Z.to_euclidean_division_equations; lia).
    replace (yoe + era * 400 + 1 - 1 - era * 400) with yoe by lia.
    unfold d, doy, doe, z. lia.
Qed.

Lemma civil_inj (day day' : Z) : civil day = civil day' -> day = day'.
Proof.
  intros Heq. pose proof (civil_spec day) as H1. pose proof (civil_spec day') as H2.
  rewrite Heq in H1. destruct (civil day') as [[y m] d].
  destruct H1 as (_ & _ & <-). destruct H2 as (_ & _ & <-). reflexivity.
Qed.

Lemma calendar_date_inj (t t' : Z) : calendar_date t = calendar_date t' -> Day t = Day t'.
Proof.
  unfold calendar_date, YearFromTime, MonthFromTime, DateFromTime. intros Heq.
  apply civil_inj. destruct (civil (Day t)) as [[y m] d], (civil (Day t')) as [[y' m'] d'].
  simpl in Heq. injection Heq as -> Hm ->. f_equal. f_equal. lia.
Qed.

Lemma MonthFromTime_range (t : Z) : 0 <= MonthFromTime t <= 11.
Proof.
  unfold MonthFromTime. pose proof (civil_spec (Day t)) as Hs.
  destruct (civil (Day t)) as [[y m] d]. simpl. lia.
Qed.

Lemma DateFromTime_range (t : Z) : 1 <= DateFromTime t <= 31.
Proof.
  unfold DateFromTime. pose proof (civil_spec (Day t)) as Hs.
  destruct (civil (Day t)) as [[y m] d]. simpl. lia.
Qed.

Lemma WeekDay_range (t : Z) : 0 <= WeekDay t <= 6.
Proof. unfold WeekDay. pose proof (Z.mod_pos_bound (Day t + 4) 7). lia. Qed.
End CivilFacts.

Module DecimalFacts.
Import JSDate ReferenceDate.

Lemma digit_is_digit (d : Z) : 0 <= d <= 9 -> ReferenceHost.is_digit (digit d) = true.
Proof.
  intros Hd. unfold ReferenceHost.is_digit, digit.
  apply andb_true_iff. split; apply N.leb_le; lia.
Qed.

Lemma digit_value (d : Z) : 0 <= d -> Z.of_N (digit d) - 48 = d.
Proof. intros Hd. unfold digit. lia. Qed.

Lemma decimal_from_app (fuel : nat) (n : Z) (acc : jsstring) :
  decimal_from fuel n acc = decimal_from fuel n [] ++ acc.
Proof.
  revert n acc. induction fuel as [|fuel IH]; intros n acc; simpl; [reflexivity|].
  destruct (n <? 10); [reflexivity|].
  rewrite (IH _ (_ :: acc)), (IH _ [_]), <- app_assoc. reflexivity.
Qed.

Lemma number_from_app (a : Z) (s t : jsstring) :
  number_from a (s ++ t) =
  match number_from a s with Some b => number_from b t | None => None end.
Proof.
  revert a. induction s as [|c s IH]; intros a; simpl; [reflexivity|].
  destruct (ReferenceHost.is_digit c); [apply IH | reflexivity].
Qed.

Lemma number_decimal_from (fuel : nat) (n : Z) :
  0 <= n < 2 ^ (Z.of_nat fuel + 1) ->
  number (decimal_from fuel n []) = Some n.
Proof.
  unfold number. revert n. induction fuel as [|fuel IH]; intros n Hn.
  - simpl in *. assert (n mod 10 = n) as -> by (apply Z.mod_small; lia).
    rewrite digit_is_digit, digit_value by lia. f_equal; lia.
  - simpl decimal_from. destruct (Z.ltb_spec n 10) as [Hlt|Hge].
    + simpl. rewrite digit_is_digit, digit_value by lia. f_equal; lia.
    + rewrite decimal_from_app, number_from_app, IH.
      * pose proof (Z.mod_pos_bound n 10). simpl.
        rewrite digit_is_digit, digit_value by lia.
        pose proof (Z.div_mod n 10). f_equal; lia.
      * replace (Z.of_nat (S fuel) + 1) with (Z.succ (Z.of_nat fuel + 1)) in Hn by lia.
        rewrite Z.pow_succ_r in Hn by lia.
        Z.to_euclidean_division_equations. lia.
Qed.

Lemma number_decimal (n : Z) : 0 <= n -> number (decimal n) = Some n.
Proof.
  intros Hn. unfold decimal. apply number_decimal_from.
  rewrite Z2Nat.id by apply Z.log2_nonneg.
  destruct (Z.eq_dec n 0) as [->|Hne]; [simpl; lia|].
  pose proof (Z.log2_spec n). rewrite <- Z.add_1_r in *. lia.
Qed.

Lemma number_zeros (k : nat) (a : Z) (s : jsstring) :
  number_from 0 (replicate k 48%N ++ s) = number_from 0 s.
Proof. induction k as [|k IH]; [reflexivity | exact IH]. Qed.

(** Reading a padded number gives the number back. *)
Lemma number_padded (n : Z) (k : nat) :
  0 <= n -> number (ToZeroPaddedDecimalString n k) = Some n.
Proof.
  intros Hn. unfold ToZeroPaddedDecimalString, number.
  rewrite (number_zeros _ 0). apply number_decimal, Hn.
Qed.

Lemma padded_inj (n n' : Z) (k k' : nat) :
  0 <= n -> 0 <= n' ->
  ToZeroPaddedDecimalString n k = ToZeroPaddedDecimalString n' k' -> n = n'.
Proof.
  intros Hn Hn' Heq. apply (f_equal number) in Heq.
  rewrite !number_padded in Heq by assumption. congruence.
Qed.

Lemma decimal_from_length (fuel k : nat) (n : Z) :
  0 <= n < 10 ^ Z.of_nat (S k) -> (length (decimal_from fuel n []) <= S k)%nat.
Proof.
  revert k n. induction fuel as [|fuel IH]; intros k n Hn; simpl; [lia|].
  destruct (Z.ltb_spec n 10) as [Hlt|Hge]; [simpl; lia|].
  rewrite decimal_from_app, length_app. simpl.
  destruct k as [|k]; [change (10 ^ Z.of_nat 1) with 10 in Hn; lia|].
  assert (length (decimal_from fuel (n / 10) []) <= S k)%nat; [|lia].
  apply IH. replace (Z.of_nat (S (S k))) with (Z.succ (Z.of_nat (S k))) in Hn by lia.
  rewrite Z.pow_succ_r in Hn by lia. Z.to_euclidean_division_equations. lia.
Qed.

(** A number of at most [k] digits is padded to [k] code units. *)
Lemma padded_length (n : Z) (k : nat) :
  0 <= n < 10 ^ Z.of_nat (S k) -> length (ToZeroPaddedDecimalString n (S k)) = S k.
Proof.
  intros Hn. unfold ToZeroPaddedDecimalString, decimal.
  pose proof (decimal_from_length (Z.to_nat (Z.log2 n)) k n Hn).
  rewrite length_app, length_replicate. unfold code_unit in *. lia.
Qed.

Lemma decimal_from_digits (fuel : nat) (n : Z) (acc : jsstring) :
  0 <= n ->
  Forall (fun c => ReferenceHost.is_digit c = true) acc ->
  Forall (fun c => ReferenceHost.is_digit c = true) (decimal_from fuel n acc).
Proof.
  revert n acc. induction fuel as [|fuel IH]; intros n acc Hn Hacc; simpl.
  - constructor; [|exact Hacc]. apply digit_is_digit.
    pose proof (Z.mod_pos_bound n 10). lia.
  - destruct (Z.ltb_spec n 10).
    + constructor; [apply digit_is_digit; lia | exact Hacc].
    + apply IH; [apply Z.div_pos; lia|]. constructor; [|exact Hacc].
      apply digit_is_digit. pose proof (Z.mod_pos_bound n 10). lia.
Qed.

Lemma padded_digits (n : Z) (k : nat) :
  0 <= n ->
  Forall (fun c => ReferenceHost.is_digit c = true) (ToZeroPaddedDecimalString n k).
Proof.
  intros Hn. unfold ToZeroPaddedDecimalString, decimal. apply Forall_app. split.
  - apply Forall_forall. intros c Hc. apply elem_of_replicate in Hc as [-> _]. reflexivity.
  - apply decimal_from_digits; [exact Hn | constructor].
Qed.

Lemma padded_head (n : Z) (k : nat) :
  0 <= n -> exists c s, ToZeroPaddedDecimalString n k = c :: s
                        /\ ReferenceHost.is_digit c = true.
Proof.
  intros Hn. pose proof (padded_digits n k Hn) as Hd.
  pose proof (DateFacts.padded_nonempty n k) as Hne.
  destruct (ToZeroPaddedDecimalString n k) as [|c s]; [congruence|].
  exists c, s. split; [reflexivity|]. inversion Hd; assumption.
Qed.

Lemma pad2_length (n : Z) : 0 <= n <= 99 -> length (pad2 n) = 2%nat.
Proof. intros Hn. apply (padded_length n 1). simpl. lia. Qed.

Lemma iso_year_inj (y y' : Z) : iso_year y = iso_year y' -> y = y'.
Proof.
  unfold iso_year.
  destruct (Z.leb_spec 0 y), (Z.leb_spec y 9999), (Z.leb_spec 0 y'), (Z.leb_spec y' 9999);
    cbn [andb]; intros Heq.
  all: repeat match goal with
       | H : context [?a <? ?b] |- _ => destruct (Z.ltb_spec a b); try lia
       end.
  all: try (apply padded_inj in Heq; lia).
  all: try (injection Heq as Heq; apply padded_inj in Heq; lia).
  all: try discriminate.
  all: try (destruct (padded_head y 4) as (c & s & Hc & Hd); [lia|];
            rewrite Hc in Heq; injection Heq as -> _; discriminate).
  all: try (destruct (padded_head y' 4) as (c & s & Hc & Hd); [lia|];
            rewrite Hc in Heq; injection Heq as <- _; discriminate).
Qed.

End DecimalFacts.

Module RenderingFacts.
Import JSDate.

Lemma small_cases (n lo : Z) (k : nat) (P : Z -> Prop) :
  (forall i : nat, (i < k)%nat -> P (lo + Z.of_nat i)) ->
  lo <= n < lo + Z.of_nat k -> P n.
Proof.
  intros HP Hn. replace n with (lo + Z.of_nat (Z.to_nat (n - lo))) by lia.
  apply HP. lia.
Qed.

Lemma day_name_length (w : Z) : 0 <= w <= 6 -> length (day_name w) = 3%nat.
Proof.
  intros Hw. apply (small_cases w 0 7); [|lia].
  intros i Hi. do 7 (destruct i as [|i]; [reflexivity|]). lia.
Qed.

Lemma month_name_length (m : Z) : 0 <= m <= 11 -> length (month_name m) = 3%nat.
Proof.
  intros Hm. apply (small_cases m 0 12); [|lia].
  intros i Hi. do 12 (destruct i as [|i]; [reflexivity|]). lia.
Qed.

Lemma month_name_inj (m m' : Z) :
  0 <= m <= 11 -> 0 <= m' <= 11 -> month_name m = month_name m' -> m = m'.
Proof.
  intros Hm Hm'. revert m' Hm'.
  apply (small_cases m 0 12); [|lia]. intros i Hi m' Hm'.
  apply (small_cases m' 0 12); [|lia]. intros j Hj.
  do 12 (destruct i as [|i]; [do 12 (destruct j as [|j]; [vm_compute; congruence|]); lia|]).
  lia.
Qed.

Lemma signed_year_inj (y y' : Z) :
  (if 0 <=? y then [] else lit "-") ++ ToZeroPaddedDecimalString (Z.abs y) 4
  = (if 0 <=? y' then [] else lit "-") ++ ToZeroPaddedDecimalString (Z.abs y') 4 ->
  y = y'.
Proof.
  destruct (Z.leb_spec 0 y), (Z.leb_spec 0 y'); simpl; intros Heq.
  - apply DecimalFacts.padded_inj in Heq; lia.
  - destruct (DecimalFacts.padded_head (Z.abs y) 4) as (c & s & Hc & Hd); [lia|].
    rewrite Hc in Heq. injection Heq as -> _. discriminate.
  - destruct (DecimalFacts.padded_head (Z.abs y') 4) as (c & s & Hc & Hd); [lia|].
    rewrite Hc in Heq. injection Heq as <- _. discriminate.
  - injection Heq as Heq. apply DecimalFacts.padded_inj in Heq; lia.
Qed.

(** The text of a date tells its calendar date. *)
Lemma DateString_inj (tv tv' : Z) :
  DateString tv = DateString tv' -> calendar_date tv = calendar_date tv'.
Proof.
  unfold DateString, calendar_date. cbv zeta. intros Heq.
  pose proof (CivilFacts.MonthFromTime_range tv) as Hm.
  pose proof (CivilFacts.MonthFromTime_range tv') as Hm'.
  pose proof (CivilFacts.DateFromTime_range tv) as Hd.
  pose proof (CivilFacts.DateFromTime_range tv') as Hd'.
  apply app_inj_1 in Heq as [_ Heq];
    [|rewrite !day_name_length by apply CivilFacts.WeekDay_range; reflexivity].
  injection Heq as Heq.
  apply app_inj_1 in Heq as [Hmonth Heq];
    [|rewrite !month_name_length by assumption; reflexivity].
  injection Heq as Heq.
  apply app_inj_1 in Heq as [Hdate Heq];
    [|rewrite !DecimalFacts.pad2_length by lia; reflexivity].
  injection Heq as Heq.
  apply month_name_inj in Hmonth; [|assumption..].
  apply DecimalFacts.padded_inj in Hdate; [|lia..].
  apply signed_year_inj in Heq. congruence.
Qed.

Lemma DateString_Day (tv tv' : Z) : Day tv = Day tv' -> DateString tv = DateString tv'.
Proof.
  unfold DateString, YearFromTime, MonthFromTime, DateFromTime, WeekDay.
  intros ->. reflexivity.
Qed.

(** The date part of [toISOString] tells the calendar date. *)
Lemma iso_date_inj (t t' : Z) :
  iso_date (calendar_date t) = iso_date (calendar_date t') ->
  calendar_date t = calendar_date t'.
Proof.
  unfold iso_date, calendar_date. intros Heq.
  pose proof (CivilFacts.MonthFromTime_range t) as Hm.
  pose proof (CivilFacts.MonthFromTime_range t') as Hm'.
  pose proof (CivilFacts.DateFromTime_range t) as Hd.
  pose proof (CivilFacts.DateFromTime_range t') as Hd'.
  apply app_inj_2 in Heq as [Hyear Heq].
  - injection Heq as Heq.
    apply app_inj_1 in Heq as [Hmonth Heq];
      [|rewrite !DecimalFacts.pad2_length by lia; reflexivity].
    injection Heq as Hdate.
    apply DecimalFacts.iso_year_inj in Hyear.
    apply DecimalFacts.padded_inj in Hmonth; [|lia..].
    apply DecimalFacts.padded_inj in Hdate; [|lia..].
    f_equal; [f_equal|]; [assumption | lia | assumption].
  - simpl. rewrite !length_app. simpl.
    rewrite !DecimalFacts.pad2_length by lia. reflexivity.
Qed.

End RenderingFacts.

Section DayKeys.
Context `{Host}.

(** X12. The key of the shared store names the day in UTC: two instants have
    the same key exactly when they fall on the same day of UTC. *)
Theorem dateKey_names_the_UTC_day (t t' : Z) :
  App.dateKey t = App.dateKey t' <-> JSDate.Day t = JSDate.Day t'.
Proof.
  rewrite !dateKey_calendar. split.
  - intros Heq. apply CivilFacts.calendar_date_inj, RenderingFacts.iso_date_inj, Heq.
  - intros Heq. rewrite (DateFacts.calendar_date_Day _ _ Heq). reflexivity.
Qed.

(** X13. The tag of the local cache names the local day. *)
Theorem freshnessTag_names_the_local_day (t t' : Z) :
  App.freshnessTag t = App.freshnessTag t'
  <-> JSDate.Day (t + LocalTZA t) = JSDate.Day (t' + LocalTZA t').
Proof.
  unfold App.freshnessTag, JSDate.toDateString. split.
  - intros Heq. apply CivilFacts.calendar_date_inj, RenderingFacts.DateString_inj, Heq.
  - apply RenderingFacts.DateString_Day.
Qed.
End DayKeys.

Section KeyFormat.

(** X14. In the years 0 to 9999 the key of the shared store is [YYYY-MM-DD]:
    four, two and two digits that read as the year, the month from 1 and
    the day of the month of the instant in UTC. *)
Theorem dateKey_is_a_calendar_date (t : Z) :
  0 <= JSDate.YearFromTime t <= 9999 ->
  exists year month day,
    App.dateKey t = year ++ lit "-" ++ month ++ lit "-" ++ day
    /\ length (App.dateKey t) = 10%nat
    /\ length year = 4%nat /\ length month = 2%nat /\ length day = 2%nat
    /\ ReferenceDate.number year = Some (JSDate.YearFromTime t)
    /\ ReferenceDate.number month = Some (JSDate.MonthFromTime t + 1)
    /\ ReferenceDate.number day = Some (JSDate.DateFromTime t)
    /\ 1 <= JSDate.MonthFromTime t + 1 <= 12
    /\ 1 <= JSDate.DateFromTime t <= 31.
Proof.
  intros Hyear.
  pose proof (CivilFacts.MonthFromTime_range t) as Hm.
  pose proof (CivilFacts.DateFromTime_range t) as Hd.
  exists (JSDate.ToZeroPaddedDecimalString (JSDate.YearFromTime t) 4),
    (JSDate.pad2 (JSDate.MonthFromTime t + 1)), (JSDate.pad2 (JSDate.DateFromTime t)).
  assert (Hkey : App.dateKey t
            = JSDate.ToZeroPaddedDecimalString (JSDate.YearFromTime t) 4 ++ lit "-"
              ++ JSDate.pad2 (JSDate.MonthFromTime t + 1) ++ lit "-"
              ++ JSDate.pad2 (JSDate.DateFromTime t)).
  { rewrite dateKey_calendar. unfold JSDate.iso_date, JSDate.calendar_date, JSDate.iso_year.
    replace ((0 <=? JSDate.YearFromTime t) && (JSDate.YearFromTime t <=? 9999)) with true;
      [reflexivity|].
    symmetry. apply andb_true_iff. split; apply Z.leb_le; lia. }
  assert (Hly : length (JSDate.ToZeroPaddedDecimalString (JSDate.YearFromTime t) 4) = 4%nat).
  { apply (DecimalFacts.padded_length _ 3).
    change (10 ^ Z.of_nat 4) with 10000. lia. }
  assert (Hlm : length (JSDate.pad2 (JSDate.MonthFromTime t + 1)) = 2%nat)
    by (apply DecimalFacts.pad2_length; lia).
  assert (Hld : length (JSDate.pad2 (JSDate.DateFromTime t)) = 2%nat)
    by (apply DecimalFacts.pad2_length; lia).
  split; [exact Hkey|]. split.
  { rewrite Hkey, !length_app, Hly, Hlm, Hld. reflexivity. }
  split; [exact Hly|]. split; [exact Hlm|]. split; [exact Hld|].
  split; [apply DecimalFacts.number_padded; lia|].
  split; [apply DecimalFacts.number_padded; lia|].
  split; [apply DecimalFacts.number_padded; lia|].
  split; lia.
Qed.
End KeyFormat.

(** ** The two renderings of today *)



Section TwoRenderings.
Context `{Host}.
Variable build : Build.
Variable env : ImportMetaEnv.




End TwoRenderings.

(** The key and the tag of [Scenario.across_midnight]. *)
Example across_midnight_key :
  App.dateKey (clock Scenario.across_midnight 0) = lit "2026-11-03".
Proof. vm_compute. reflexivity. Qed.

Example across_midnight_tag :
  App.freshnessTag (H := ReferenceHost.host) (clock Scenario.across_midnight 1)
  = lit "Wed Nov 04 2026".
Proof. vm_compute. reflexivity. Qed.

(** The code reads the clock once for the key and once for the tag. When
    midnight passes between the two readings, the key is the third of
    November and the tag the fourth, and no instant renders as both. *)
Lemma two_readings_straddle_midnight :
  ~ from_one_instant (H := ReferenceHost.host) Scenario.across_midnight.
Proof.
  intros [t [Hkey Htag]].
  apply (f_equal JSString.last_unit) in Hkey.
  rewrite (dateKey_last t) in Hkey.
  apply (f_equal JSString.before_last_space) in Htag.
  unfold App.freshnessTag, JSDate.toDateString in Htag.
  rewrite (DateString_day (t + LocalTZA t)) in Htag.
  change (LocalTZA t) with 0 in Htag. rewrite !Z.add_0_r in Htag.
  rewrite <- Hkey in Htag. vm_compute in Htag. discriminate Htag.
Qed.


(* ===================================================================== *)
(** * The session, the viewer, the notifications, the videos *)
(* ===================================================================== *)

(** ** The session *)

Section Login.

(** X15. The login form logs nobody in on a blank name, and otherwise logs in
    and saves the name without the white space around it. *)
Theorem handleSubmit_saves_the_trimmed_name (name : jsstring) (p : Page) :
  let p' := Shell.handleSubmit Shell.handleLogin name p in
  if forallb JSString.is_white_space name then p' = p
  else exists before n after,
      name = before ++ n ++ after
      /\ forallb JSString.is_white_space before = true
      /\ forallb JSString.is_white_space after = true
      /\ (exists c r, n = c :: r /\ JSString.is_white_space c = false)
      /\ (exists c, JSString.last_unit n = Some c /\ JSString.is_white_space c = false)
      /\ userName (ui p') = Some n
      /\ Shell.getItem Shell.lancheirinha_user_name p' = Some n.
Proof.
  cbv zeta. unfold Shell.handleSubmit.
  destruct (forallb JSString.is_white_space name) eqn:Hblank.
  - apply TrimFacts.trim_blank in Hblank. rewrite Hblank. reflexivity.
  - destruct (JSString.trim name) as [|c r] eqn:Ht.
    { apply TrimFacts.trim_blank in Ht. congruence. }
    destruct (TrimFacts.trim_split name) as (before & after & Hs & Hb & Ha).
    cbn [JSString.truthy].
    exists before, (c :: r), after. rewrite Ht in Hs.
    split; [exact Hs|]. split; [exact Hb|]. split; [exact Ha|].
    split; [exists c, r; split; [reflexivity | exact (TrimFacts.trim_head _ _ _ Ht)]|].
    split.
    + destruct (JSString.last_unit (c :: r)) as [l|] eqn:Hl.
      * exists l. split; [reflexivity|].
        rewrite <- Ht in Hl. unfold JSString.trim in Hl.
        exact (TrimFacts.trimEnd_last _ _ Hl).
      * unfold JSString.last_unit in Hl. simpl in Hl.
        destruct (rev r); discriminate.
    + split; [reflexivity|].
      unfold Shell.handleLogin, Shell.getItem. simpl. apply lookup_insert_eq.
Qed.

End Login.

Module ShellFacts.

Lemma toISOString_truthy (t : Z) : JSString.truthy (JSDate.toISOString t) = true.
Proof.
  unfold JSDate.toISOString.
  destruct (JSDate.iso_year (JSDate.YearFromTime t)) as [|c s] eqn:Hy; [|reflexivity].
  exfalso. unfold JSDate.iso_year in Hy.
  destruct (_ && _) in Hy.
  - exact (DateFacts.padded_nonempty _ _ Hy).
  - destruct (_ <? 0) in Hy; discriminate.
Qed.

(** No date reads [Invalid Date]. *)
Lemma DateString_valid (tv : Z) : JSDate.DateString tv <> lit "Invalid Date".
Proof.
  unfold JSDate.DateString. cbv zeta.
  change (lit "Invalid Date") with (lit "Inv" ++ lit "alid Date").
  intros Heq. apply app_inj_1 in Heq as [_ Heq]; [discriminate|].
  apply RenderingFacts.day_name_length, CivilFacts.WeekDay_range.
Qed.

Section Check.
Context `{Host} `{DateHost}.

Lemma checkNotifications_userName (now : Z) (p : Page) :
  userName (ui (Shell.checkNotifications now p)) = userName (ui p).
Proof.
  unfold Shell.checkNotifications.
  destruct (text_truthy _); [|reflexivity].
  destruct (bool_decide _); reflexivity.
Qed.

(** The flag of a page on which it holds a readable date. *)
Lemma checkNotifications_readable (now t : Z) (v : jsstring) (p : Page) :
  Shell.getItem Shell.notifications_disabled_until p = Some v ->
  JSString.truthy v = true ->
  Date_parse v = Some t ->
  Shell.checkNotifications now p =
  if decide (JSDate.Day (t + LocalTZA t) = JSDate.Day (now + LocalTZA now))
  then Shell.setNotificationsDisabledUntil (Some v) p
  else Shell.setNotificationsDisabledUntil None
         (Shell.removeItem Shell.notifications_disabled_until p).
Proof.
  intros Hv Htruthy Hparse. unfold Shell.checkNotifications.
  rewrite Hv. cbn [text_truthy from_option id]. rewrite Htruthy, Hparse.
  cbn [Shell.toDateString]. unfold JSDate.toDateString.
  destruct (decide _) as [Hday|Hday].
  - rewrite bool_decide_eq_false_2; [reflexivity|].
    intros Hne. apply Hne. symmetry. apply RenderingFacts.DateString_Day, Hday.
  - rewrite bool_decide_eq_true_2; [reflexivity|].
    intros Heq. apply Hday. symmetry.
    apply CivilFacts.calendar_date_inj, RenderingFacts.DateString_inj, Heq.
Qed.
End Check.

Lemma category_name_inj (c c' : Types.Category) :
  Types.category_name c = Types.category_name c' -> c = c'.
Proof. destruct c, c'; vm_compute; congruence. Qed.

Lemma category_name_not_Tudo (c : Types.Category) : Types.category_name c <> lit "Tudo".
Proof. destruct c; vm_compute; congruence. Qed.

(** The string of a category is the string of a filter for [Salgadas] and
    for [Doces] only. *)
Lemma filter_name_category (f : Shell.Filter) (c : Types.Category) :
  Types.category_name c = Shell.filter_name f
  <-> (f = Shell.Salgadas /\ c = Types.Salgadas) \/ (f = Shell.Doces /\ c = Types.Doces).
Proof.
  destruct f, c; vm_compute; split; intros Heq;
    try discriminate Heq; try reflexivity; auto;
    destruct Heq as [[Hf Hc] | [Hf Hc]]; discriminate.
Qed.

Lemma filter_name_not_Tudo (f : Shell.Filter) :
  f <> Shell.Tudo -> Shell.filter_name f <> lit "Tudo".
Proof. destruct f; intros Hf; [contradiction| | |]; vm_compute; congruence. Qed.

End ShellFacts.

Section Session.
Context `{Host} `{DateHost}.
Variable build : Build.
Variable env : ImportMetaEnv.

(** X16. A login is kept across a reload: the name [handleLogin] saved is the
    user name after the next mount, unless it is the empty string, which
    the mount takes for no name. *)
Theorem login_is_restored_after_reload (name : jsstring) (now : Z) (p : Page) :
  let p' := Shell.mountEffect now (Shell.reload build env (Shell.handleLogin name p)) in
  userName (ui p') = (if JSString.truthy name then Some name else None)
  /\ isLoading (ui p') = false.
Proof.
  cbv zeta. unfold Shell.mountEffect. split; [|reflexivity].
  change (userName (ui (Shell.setIsLoading false ?q))) with (userName (ui q)).
  rewrite ShellFacts.checkNotifications_userName.
  unfold Shell.restoreUserName, Shell.getItem, Shell.reload, Shell.handleLogin.
  cbn [dev ui localStorage Shell.setItem Shell.setUserName Shell.with_ui App.mount
       set_localStorage].
  rewrite lookup_insert_eq. cbn [text_truthy].
  destruct (JSString.truthy name); reflexivity.
Qed.

(** X17. Logging out forgets the name, for this page and for the next mount,
    and nothing else: every other key of local storage is as it was, and
    with it the cached recipe. *)
Theorem logout_forgets_only_the_name (now : Z) (p : Page) :
  let p' := Shell.handleLogout p in
  userName (ui p') = None
  /\ activeTab (ui p') = Types.home
  /\ showNotification (ui p') = false
  /\ Shell.getItem Shell.lancheirinha_user_name p' = None
  /\ userName (ui (Shell.mountEffect now (Shell.reload build env p'))) = None
  /\ (forall key, key <> Shell.lancheirinha_user_name ->
        Shell.getItem key p' = Shell.getItem key p)
  /\ (forall tag, readLocal (localStorage (dev p')) tag
                  = readLocal (localStorage (dev p)) tag)
  /\ dailyRecipe (dev p') = dailyRecipe (dev p).
Proof.
  cbv zeta.
  assert (Hkeys : forall key, key <> Shell.lancheirinha_user_name ->
            Shell.getItem key (Shell.handleLogout p) = Shell.getItem key p).
  { intros key Hkey. unfold Shell.getItem, Shell.handleLogout. simpl.
    apply lookup_delete_ne. congruence. }
  assert (Hgone : Shell.getItem Shell.lancheirinha_user_name (Shell.handleLogout p) = None).
  { unfold Shell.getItem, Shell.handleLogout. simpl. apply lookup_delete_eq. }
  repeat split; try reflexivity; try assumption.
  - unfold Shell.mountEffect.
    change (userName (ui (Shell.setIsLoading false ?q))) with (userName (ui q)).
    rewrite ShellFacts.checkNotifications_userName.
    unfold Shell.restoreUserName.
    change (Shell.getItem ?k (Shell.reload build env ?q)) with (Shell.getItem k q).
    rewrite Hgone. reflexivity.
  - intros tag. unfold readLocal.
    change (localStorage (dev ?q) !! ?k) with (Shell.getItem k q).
    rewrite !Hkeys by (vm_compute; congruence). reflexivity.
Qed.

End Session.

Section LoginLogout.

(** X18. Logging out undoes a login: on a browser without a saved name, local
    storage after a login and a logout is as it was before. *)
Theorem logout_undoes_login (name : jsstring) (p : Page) :
  Shell.getItem Shell.lancheirinha_user_name p = None ->
  let p' := Shell.handleLogout (Shell.handleLogin name p) in
  localStorage (dev p') = localStorage (dev p)
  /\ userName (ui p') = None.
Proof.
  intros Hnone. cbv zeta. split; [|reflexivity].
  unfold Shell.handleLogout, Shell.handleLogin. simpl.
  apply delete_insert_id. exact Hnone.
Qed.

End LoginLogout.

(** ** The viewer of materials *)

Section Viewer.

(** X19. A link to Google Drive is opened as a link that ends in [/preview];
    any other link is opened as it is. *)
Theorem drive_links_open_as_previews (url : jsstring) (p : Page) :
  exists link, viewingMaterial (ui (Shell.handleViewMaterial url p)) = Some link
    /\ if JSString.includes url (lit "drive.google.com")
       then JSText.endsWith link (lit "/preview") = true
       else link = url.
Proof.
  exists (Shell.previewUrl url). split; [reflexivity|].
  unfold Shell.previewUrl.
  destruct (JSString.includes url (lit "drive.google.com")); [|reflexivity].
  destruct (JSText.endsWith url (lit "/preview")) eqn:Hend; cbn [andb negb].
  - exact Hend.
  - apply PreviewFacts.endsWith_app.
Qed.

(** X20. Opening the link that was opened changes nothing: the link of a link
    is that link. *)
Theorem handleViewMaterial_is_idempotent (url : jsstring) (p : Page) :
  Shell.handleViewMaterial (Shell.previewUrl url) (Shell.handleViewMaterial url p)
  = Shell.handleViewMaterial url p.
Proof.
  assert (Hidem : Shell.previewUrl (Shell.previewUrl url) = Shell.previewUrl url).
  { unfold Shell.previewUrl at 2 3.
    destruct (_ && _) eqn:Hcond;
      [|unfold Shell.previewUrl; rewrite Hcond; reflexivity].
    unfold Shell.previewUrl. rewrite PreviewFacts.endsWith_app.
    rewrite andb_false_r. reflexivity. }
  unfold Shell.handleViewMaterial. rewrite Hidem. reflexivity.
Qed.

(** X21. The share link of a file, [.../view?...], is opened as
    [.../preview]. *)
Theorem share_link_opens_as_preview (base query : jsstring) (p : Page) :
  JSString.includes base (lit "drive.google.com") = true ->
  JSString.includes base (lit "/view") = false ->
  forallb (fun c => negb (JSText.is_line_terminator c)) query = true ->
  JSText.endsWith (base ++ lit "/view" ++ query) (lit "/preview") = false ->
  viewingMaterial (ui (Shell.handleViewMaterial (base ++ lit "/view" ++ query) p))
  = Some (base ++ lit "/preview").
Proof.
  intros Hdrive Hview Hquery Hend.
  unfold Shell.handleViewMaterial, Shell.previewUrl.
  rewrite (StringFacts.includes_app_l _ _ _ Hdrive), Hend.
  cbn [andb negb]. rewrite PreviewFacts.remove_view_to_end_first by assumption.
  reflexivity.
Qed.

End Viewer.

(** ** Notifications *)

Section NotificationFlag.
Context `{Host} `{DateHost}.
Variable build : Build.
Variable env : ImportMetaEnv.

(** X22. Once notifications are disabled, no tick of the interval shows one
    and the effect on the user name arms no timer; the flag stays in local
    storage. *)
Theorem disabled_notifications_stay_off (now : Z) (ticks : nat) (p : Page) :
  let p' := Nat.iter ticks Shell.notificationTick
              (Shell.disableNotificationsForToday now p) in
  showNotification (ui p') = false
  /\ Shell.armsLoginNotification p' = false
  /\ Shell.getItem Shell.notifications_disabled_until p' = Some (JSDate.toISOString now).
Proof.
  cbv zeta.
  assert (Hflag : Shell.getItem Shell.notifications_disabled_until
                    (Shell.disableNotificationsForToday now p)
                  = Some (JSDate.toISOString now)).
  { unfold Shell.getItem, Shell.disableNotificationsForToday. simpl.
    apply lookup_insert_eq. }
  assert (Hiter : Nat.iter ticks Shell.notificationTick
                    (Shell.disableNotificationsForToday now p)
                  = Shell.disableNotificationsForToday now p).
  { induction ticks as [|ticks IH]; [reflexivity|].
    simpl. rewrite IH. unfold Shell.notificationTick. rewrite Hflag.
    cbn [text_truthy]. rewrite ShellFacts.toISOString_truthy. reflexivity. }
  rewrite Hiter. split; [reflexivity|]. split; [|exact Hflag].
  unfold Shell.armsLoginNotification, Shell.disableNotificationsForToday. simpl.
  rewrite ShellFacts.toISOString_truthy. apply andb_false_r.
Qed.

(** X23. Notifications disabled at [t0], the application loaded again at [t1],
    on a host that reads the date it wrote: on the same local day they stay
    disabled, on another day the flag is removed and the next tick shows
    the notification. *)
Theorem notifications_return_on_another_day (t0 t1 : Z) (p : Page) :
  Date_parse (JSDate.toISOString t0) = Some t0 ->
  let p' := Shell.mountEffect t1
              (Shell.reload build env (Shell.disableNotificationsForToday t0 p)) in
  if decide (JSDate.Day (t0 + LocalTZA t0) = JSDate.Day (t1 + LocalTZA t1))
  then notificationsDisabledUntil (ui p') = Some (JSDate.toISOString t0)
       /\ Shell.getItem Shell.notifications_disabled_until p' = Some (JSDate.toISOString t0)
       /\ showNotification (ui (Shell.notificationTick p')) = false
  else notificationsDisabledUntil (ui p') = None
       /\ Shell.getItem Shell.notifications_disabled_until p' = None
       /\ showNotification (ui (Shell.notificationTick p')) = true.
Proof.
  intros Hparse. cbv zeta. unfold Shell.mountEffect.
  set (q := Shell.restoreUserName _).
  assert (Hflag : Shell.getItem Shell.notifications_disabled_until q
                  = Some (JSDate.toISOString t0)).
  { unfold q, Shell.restoreUserName. destruct (text_truthy _).
    all: unfold Shell.getItem, Shell.reload, Shell.disableNotificationsForToday; simpl.
    all: apply lookup_insert_eq. }
  assert (Hshow : showNotification (ui q) = false).
  { unfold q, Shell.restoreUserName. destruct (text_truthy _); reflexivity. }
  rewrite (ShellFacts.checkNotifications_readable t1 t0 _ q Hflag
             (ShellFacts.toISOString_truthy t0) Hparse).
  destruct (decide _) as [Hday|Hday].
  - split; [reflexivity|]. split; [exact Hflag|].
    unfold Shell.notificationTick.
    change (Shell.getItem ?k (Shell.setIsLoading _ (Shell.setNotificationsDisabledUntil _ q)))
      with (Shell.getItem k q).
    rewrite Hflag. cbn [text_truthy]. rewrite ShellFacts.toISOString_truthy.
    exact Hshow.
  - split; [reflexivity|].
    assert (Hgone : Shell.getItem Shell.notifications_disabled_until
              (Shell.setIsLoading false
                 (Shell.setNotificationsDisabledUntil None
                    (Shell.removeItem Shell.notifications_disabled_until q))) = None).
    { unfold Shell.getItem. simpl. apply lookup_delete_eq. }
    split; [exact Hgone|].
    unfold Shell.notificationTick. rewrite Hgone. reflexivity.
Qed.

(** X24. A flag that is no date is removed at the next mount, whatever the
    day. *)
Theorem unreadable_flag_is_cleared (now : Z) (v : jsstring) (p : Page) :
  Shell.getItem Shell.notifications_disabled_until p = Some v ->
  JSString.truthy v = true ->
  Date_parse v = None ->
  let p' := Shell.checkNotifications now p in
  notificationsDisabledUntil (ui p') = None
  /\ Shell.getItem Shell.notifications_disabled_until p' = None.
Proof.
  intros Hv Htruthy Hparse. cbv zeta. unfold Shell.checkNotifications.
  rewrite Hv. cbn [text_truthy from_option id]. rewrite Htruthy, Hparse.
  rewrite bool_decide_eq_true_2 by apply ShellFacts.DateString_valid.
  split; [reflexivity|]. unfold Shell.getItem. simpl. apply lookup_delete_eq.
Qed.

End NotificationFlag.

(** ** The list of videos *)

Section Videos.
Variable VIDEOS : list Types.Video.

(** X25. Under [Tudo] every video is listed. Under [Salgadas] and under
    [Doces] the videos of that category are listed and no other. Under the
    fourth filter no video is listed: its string is not the string of any
    category. Every list is a sublist of the videos, in their order, and a
    video of the category [Sem Gluten] is listed under [Tudo] only. *)
Theorem videos_under_each_filter :
  Shell.filteredVideos VIDEOS Shell.Tudo = VIDEOS
  /\ (forall v, In v (Shell.filteredVideos VIDEOS Shell.Salgadas)
                <-> In v VIDEOS /\ Types.category v = Types.Salgadas)
  /\ (forall v, In v (Shell.filteredVideos VIDEOS Shell.Doces)
                <-> In v VIDEOS /\ Types.category v = Types.Doces)
  /\ Shell.filter_name Shell.SemGluten <> Types.category_name Types.SemGluten
  /\ Shell.filteredVideos VIDEOS Shell.SemGluten = []
  /\ (forall f, sublist (Shell.filteredVideos VIDEOS f) VIDEOS)
  /\ (forall f v, In v (Shell.filteredVideos VIDEOS f) ->
                  Types.category v = Types.SemGluten -> f = Shell.Tudo).
Proof.
  assert (Hin : forall f v, f <> Shell.Tudo ->
            (In v (Shell.filteredVideos VIDEOS f)
             <-> In v VIDEOS
                 /\ ((f = Shell.Salgadas /\ Types.category v = Types.Salgadas)
                     \/ (f = Shell.Doces /\ Types.category v = Types.Doces)))).
  { intros f v Hf. unfold Shell.filteredVideos.
    rewrite bool_decide_eq_false_2 by apply ShellFacts.filter_name_not_Tudo, Hf.
    rewrite filter_In, bool_decide_eq_true, ShellFacts.filter_name_category.
    reflexivity. }
  split; [reflexivity|]. split; [|split; [|split; [|split; [|split]]]].
  - intros v. rewrite Hin by discriminate.
    split; intros [Hv Hc]; (split; [exact Hv|]).
    + destruct Hc as [[_ Hc] | [Hf _]]; [exact Hc | discriminate Hf].
    + left. split; [reflexivity | exact Hc].
  - intros v. rewrite Hin by discriminate.
    split; intros [Hv Hc]; (split; [exact Hv|]).
    + destruct Hc as [[Hf _] | [_ Hc]]; [discriminate Hf | exact Hc].
    + right. split; [reflexivity | exact Hc].
  - vm_compute. congruence.
  - destruct (Shell.filteredVideos VIDEOS Shell.SemGluten) as [|v vs] eqn:Hl;
      [reflexivity|].
    assert (Hv : In v (Shell.filteredVideos VIDEOS Shell.SemGluten))
      by (rewrite Hl; left; reflexivity).
    apply Hin in Hv; [|discriminate].
    destruct Hv as [_ [[Hf _] | [Hf _]]]; discriminate Hf.
  - intros f. clear Hin. unfold Shell.filteredVideos.
    destruct (bool_decide (Shell.filter_name f = lit "Tudo")); [reflexivity|].
    induction VIDEOS as [|v vs IH]; [constructor|].
    cbn [List.filter]. destruct (bool_decide _); [apply sublist_skip | apply sublist_cons];
      exact IH.
  - intros f v Hv Hc.
    destruct f; [reflexivity| | |]; (apply Hin in Hv; [|discriminate]);
      destruct Hv as [_ [[Hf Hc'] | [Hf Hc']]]; congruence.
Qed.

End Videos.

(* ===================================================================== *)
(** * The recipe card *)
(* ===================================================================== *)

Section Card.
Context `{Host}.
Variable build : Build.
Variable env : ImportMetaEnv.

(** X26. A recipe the local stage lets through has a list of benefits, which
    the card shows; on such a recipe the card can fail on the ingredients
    only. *)
Theorem local_hit_shows_its_benefits (storage : gmap jsstring jsstring)
    (tag : jsstring) (recipe : JSValue) :
  readLocal storage tag = LocalHit recipe ->
  exists items,
    JS.get recipe App.benefits = JArray items
    /\ match HomeSection.recipeCard recipe false with
       | inr (HomeSection.Recipe _ _ _ benefits _ _) => benefits = Some items
       | inr _ => False
       | inl e =>
           HomeSection.optional_map (JS.get recipe (lit "ingredients")) = inl e
       end.
Proof.
  unfold readLocal. destruct (_ && _); [|discriminate].
  destruct (JSON_parse _) as [parsed|]; [|discriminate].
  destruct (JS.truthy parsed) eqn:Htruthy; [|discriminate].
  destruct (JS.get parsed App.benefits) as [| | | | |items|] eqn:Hb; try discriminate.
  intros [= <-]. exists items. split; [exact Hb|].
  unfold HomeSection.recipeCard. rewrite Htruthy.
  destruct (HomeSection.optional_map (JS.get parsed (lit "ingredients"))); [reflexivity|].
  change (lit "benefits") with App.benefits. rewrite Hb. reflexivity.
Qed.

(** X27. The shared stage checks nothing of the recipe it serves: when the
    row holds a recipe whose ingredients or benefits are neither absent
    nor a list, that recipe is exposed and the card throws a [TypeError]
    on it. *)
Theorem unchecked_recipe_breaks_the_card (e : Env) (d : Device) (failed : bool)
    (r : PostgrestResponse) :
  let recipe := JS.get (data r) App.recipe_data in
  App.isSupabaseConfigured build env = true ->
  readLocal (localStorage d) (App.freshnessTag (clock e 1)) = LocalMiss failed ->
  select_single e (App.dateKey (clock e 0)) = Fulfilled r ->
  usable r = true ->
  JS.truthy recipe = true ->
  HomeSection.optional_map (JS.get recipe (lit "ingredients")) = inl TypeError
  \/ HomeSection.optional_map (JS.get recipe (lit "benefits")) = inl TypeError ->
  let o := run e (App.fetchDailyRecipe build env) d in
  dailyRecipe (device o) = recipe
  /\ HomeSection.recipeCard (dailyRecipe (device o)) (isGeneratingRecipe (device o))
     = inl TypeError.
Proof.
  cbv zeta. intros Hcfg Hloc Hsel Husable Htruthy Hbad.
  rewrite run_fetchDailyRecipe.
  unfold resolve, readShared. rewrite Hloc, Hcfg, Hsel, Husable.
  cbn [device dailyRecipe isGeneratingRecipe set_isGeneratingRecipe store_local
       set_localStorage set_dailyRecipe].
  unfold store_local. cbn [dailyRecipe isGeneratingRecipe set_isGeneratingRecipe
    set_localStorage set_dailyRecipe].
  split; [reflexivity|].
  unfold HomeSection.recipeCard. rewrite Htruthy.
  destruct Hbad as [Hi|Hb].
  - rewrite Hi. reflexivity.
  - rewrite Hb.
    destruct (HomeSection.optional_map (JS.get _ (lit "ingredients"))) as [x|] eqn:Hi;
      [|reflexivity].
    f_equal. unfold HomeSection.optional_map in Hi.
    destruct (JS.get _ (lit "ingredients")) in Hi; congruence.
Qed.

End Card.

(* ===================================================================== *)
(** * The mount effect and the resolution it starts *)
(* ===================================================================== *)

Section Mount.
Context `{Host} `{DateHost}.
Variable build : Build.
Variable env : ImportMetaEnv.

(** Local storage without one key. *)
Lemma readLocal_delete (key tag : jsstring) (storage : gmap jsstring jsstring) :
  key <> App.daily_recipe -> key <> App.daily_recipe_date ->
  readLocal (delete key storage) tag = readLocal storage tag.
Proof.
  intros Hr Hd. unfold readLocal.
  rewrite !lookup_delete_ne by congruence. reflexivity.
Qed.

Lemma written_delete (key tag : jsstring) (recipe : JSValue)
    (storage : gmap jsstring jsstring) :
  key <> App.daily_recipe -> key <> App.daily_recipe_date ->
  written recipe tag (delete key storage) = delete key (written recipe tag storage).
Proof.
  intros Hr Hd. unfold written.
  rewrite !delete_insert_ne by congruence. reflexivity.
Qed.

(** A resolution on a device from whose storage another key was removed
    is the resolution on the device, with the key removed afterwards. *)
Lemma resolve_delete (key : jsstring) (e : Env) (d : Device) :
  key <> App.daily_recipe -> key <> App.daily_recipe_date ->
  resolve build env e (set_localStorage (delete key (localStorage d)) d)
  = let o := resolve build env e d in
    {| completion := completion o;
       device := set_localStorage (delete key (localStorage (device o))) (device o);
       trace := trace o |}.
Proof.
  intros Hr Hd. cbv zeta. unfold resolve.
  cbn [localStorage set_localStorage].
  rewrite readLocal_delete by assumption.
  destruct (readLocal _ _); [reflexivity|].
  destruct (readShared _ _ _ _).
  all: unfold connect, store_local, log_if.
  all: repeat first
    [ progress cbn [fst snd device localStorage dailyRecipe isGeneratingRecipe console
                    client completion trace set_localStorage set_dailyRecipe
                    set_isGeneratingRecipe log_error set_client]
    | rewrite written_delete by assumption
    | reflexivity
    | match goal with
      | |- context [generate ?b ?a] => destruct (generate b a) as [? [?|]]
      | |- context [JS.truthy ?v] => destruct (JS.truthy v)
      | |- context [App.isSupabaseConfigured ?b ?v] =>
          destruct (App.isSupabaseConfigured b v)
      | |- context [upsert ?e ?k ?v] => destruct (upsert e k v)
      | |- context [supabaseCopy ?b] => destruct (supabaseCopy b)
      | |- context [client ?d] => is_var d; destruct (client d)
      | |- context [if ?b then _ else _] => is_var b; destruct b
      end ].
Qed.

Lemma flag_differs :
  Shell.notifications_disabled_until <> App.daily_recipe
  /\ Shell.notifications_disabled_until <> App.daily_recipe_date
  /\ Shell.lancheirinha_user_name <> App.daily_recipe
  /\ Shell.lancheirinha_user_name <> App.daily_recipe_date.
Proof. repeat split; vm_compute; discriminate. Qed.

Lemma resolve_other_key (key : jsstring) (e : Env) (d : Device) :
  key <> App.daily_recipe -> key <> App.daily_recipe_date ->
  localStorage (device (resolve build env e d)) !! key = localStorage d !! key.
Proof.
  intros Hr Hd. rewrite resolve_localStorage. cbv zeta.
  destruct (readLocal _ _); [reflexivity|].
  destruct (readShared _ _ _ _); try reflexivity;
    try (destruct (JS.truthy _); [|reflexivity]); apply written_other; assumption.
Qed.

(** X28. The statements of the mount effect and the resolution it starts
    do not meet: whether the resolution runs before the other statements
    of the effect or after them, under any environment the page ends with
    the same cells and the same device, and the resolution completes in
    the same way after the same calls. *)
Theorem mount_effect_and_resolution_commute {W} (h : Handler W) (w : W) (now : Z)
    (p : Page) :
  let fetch := App.fetchDailyRecipe build env in
  let resolved := run_under h w fetch (dev p) in
  let after := Shell.mountEffect now {| ui := ui p; dev := device resolved |} in
  let before := Shell.mountEffect now p in
  let then_resolved := run_under h w fetch (dev before) in
  ui after = ui before
  /\ dev after = device then_resolved
  /\ completion then_resolved = completion resolved
  /\ trace then_resolved = trace resolved.
Proof.
  cbv zeta. rewrite !run_under_fetchDailyRecipe.
  set (e := script build env h w).
  destruct flag_differs as (Hf1 & Hf2 & Hn1 & Hn2).
  pose proof (resolve_other_key _ e (dev p) Hn1 Hn2) as Hname.
  pose proof (resolve_other_key _ e (dev p) Hf1 Hf2) as Hflag.
  unfold Shell.mountEffect, Shell.checkNotifications, Shell.restoreUserName,
    Shell.getItem.
  cbn [dev ui]. rewrite Hname.
  destruct (text_truthy (localStorage (dev p) !! Shell.lancheirinha_user_name)).
  all: cbn -[resolve lookup delete lit Shell.notifications_disabled_until Shell.lancheirinha_user_name Shell.toDateString bool_decide text_truthy]; rewrite Hflag.
  all: destruct (text_truthy (localStorage (dev p) !! Shell.notifications_disabled_until));
    [|repeat split; reflexivity].
  all: destruct (bool_decide _); [|repeat split; reflexivity].
  all: cbn -[resolve lookup delete lit Shell.notifications_disabled_until Shell.lancheirinha_user_name Shell.toDateString bool_decide text_truthy].
  all: rewrite (resolve_delete _ e (dev p) Hf1 Hf2).
  all: repeat split; reflexivity.
Qed.

End Mount.

(* ===================================================================== *)
(** * The further properties on the examples *)
(* ===================================================================== *)

Lemma share_link_opens_as_preview_witness :
  let url := Cases.share_base ++ lit "/view" ++ Cases.share_query in
  JSString.includes Cases.share_base (lit "drive.google.com") = true
  /\ JSString.includes Cases.share_base (lit "/view") = false
  /\ forallb (fun c => negb (JSText.is_line_terminator c)) Cases.share_query = true
  /\ JSText.endsWith url (lit "/preview") = false
  /\ viewingMaterial (ui (Shell.handleViewMaterial url Cases.page))
     = Some (lit "https://drive.google.com/file/d/1AbC/preview").
Proof.
  cbv zeta.
  assert (H1 : JSString.includes Cases.share_base (lit "drive.google.com") = true)
    by (vm_compute; reflexivity).
  assert (H2 : JSString.includes Cases.share_base (lit "/view") = false)
    by (vm_compute; reflexivity).
  assert (H3 : forallb (fun c => negb (JSText.is_line_terminator c)) Cases.share_query = true)
    by (vm_compute; reflexivity).
  assert (H4 : JSText.endsWith (Cases.share_base ++ lit "/view" ++ Cases.share_query)
                 (lit "/preview") = false)
    by (vm_compute; reflexivity).
  split; [exact H1|]. split; [exact H2|]. split; [exact H3|]. split; [exact H4|].
  exact (share_link_opens_as_preview Cases.share_base Cases.share_query Cases.page
           H1 H2 H3 H4).
Defined.

Lemma notifications_return_on_another_day_witness :
  let disabled := Shell.disableNotificationsForToday Scenario.morning Cases.page in
  let reloaded := Shell.reload Scenario.build Scenario.configured disabled in
  let same_day := Shell.mountEffect (H := ReferenceHost.host) (H0 := ReferenceDate.host)
                    Scenario.before_midnight reloaded in
  let next_day := Shell.mountEffect (H := ReferenceHost.host) (H0 := ReferenceDate.host)
                    Scenario.midnight reloaded in
  Date_parse (DateHost := ReferenceDate.host) (JSDate.toISOString Scenario.morning)
  = Some Scenario.morning
  /\ notificationsDisabledUntil (ui same_day) = Some (lit "2026-11-03T10:00:00.123Z")
  /\ showNotification (ui (Shell.notificationTick same_day)) = false
  /\ notificationsDisabledUntil (ui next_day) = None
  /\ showNotification (ui (Shell.notificationTick next_day)) = true.
Proof.
  cbv zeta.
  assert (H1 : Date_parse (DateHost := ReferenceDate.host)
                 (JSDate.toISOString Scenario.morning) = Some Scenario.morning)
    by (vm_compute; reflexivity).
  split; [exact H1|].
  pose proof (notifications_return_on_another_day (H := ReferenceHost.host)
                (H0 := ReferenceDate.host) Scenario.build Scenario.configured
                Scenario.morning Scenario.before_midnight Cases.page H1) as Hsame.
  pose proof (notifications_return_on_another_day (H := ReferenceHost.host)
                (H0 := ReferenceDate.host) Scenario.build Scenario.configured
                Scenario.morning Scenario.midnight Cases.page H1) as Hnext.
  cbv zeta in Hsame, Hnext.
  destruct (decide (JSDate.Day (Scenario.morning + LocalTZA Scenario.morning)
                    = JSDate.Day (Scenario.before_midnight + LocalTZA Scenario.before_midnight)))
    as [_|Hne]; [|exfalso; apply Hne; vm_compute; reflexivity].
  destruct (decide (JSDate.Day (Scenario.morning + LocalTZA Scenario.morning)
                    = JSDate.Day (Scenario.midnight + LocalTZA Scenario.midnight)))
    as [Heq|_]; [exfalso; vm_compute in Heq; discriminate|].
  destruct Hsame as (Ha & _ & Hb). destruct Hnext as (Hc & _ & Hd).
  split; [exact Ha|]. split; [exact Hb|]. split; [exact Hc|exact Hd].
Defined.

Lemma unreadable_flag_is_cleared_witness :
  let p := Shell.setItem Shell.notifications_disabled_until (lit "tomorrow") Cases.page in
  let p' := Shell.checkNotifications (H := ReferenceHost.host) (H0 := ReferenceDate.host)
              Scenario.morning p in
  Shell.getItem Shell.notifications_disabled_until p = Some (lit "tomorrow")
  /\ JSString.truthy (lit "tomorrow") = true
  /\ Date_parse (DateHost := ReferenceDate.host) (lit "tomorrow") = None
  /\ notificationsDisabledUntil (ui p') = None
  /\ Shell.getItem Shell.notifications_disabled_until p' = None.
Proof.
  cbv zeta.
  assert (H1 : Shell.getItem Shell.notifications_disabled_until
                 (Shell.setItem Shell.notifications_disabled_until (lit "tomorrow") Cases.page)
               = Some (lit "tomorrow")) by (vm_compute; reflexivity).
  assert (H2 : JSString.truthy (lit "tomorrow") = true) by reflexivity.
  assert (H3 : Date_parse (DateHost := ReferenceDate.host) (lit "tomorrow") = None)
    by (vm_compute; reflexivity).
  split; [exact H1|]. split; [exact H2|]. split; [exact H3|].
  exact (unreadable_flag_is_cleared (H := ReferenceHost.host) (H0 := ReferenceDate.host)
           Scenario.morning (lit "tomorrow") _ H1 H2 H3).
Defined.

Lemma spinner_is_off_at_the_end_witness :
  let fetch := App.fetchDailyRecipe (H := ReferenceHost.host)
                 Scenario.build Scenario.configured in
  let d := App.mount Scenario.build Scenario.configured ∅ in
  isGeneratingRecipe d = false
  /\ isGeneratingRecipe (device (run_under (scripted Cases.lookup_down) O fetch d)) = false.
Proof.
  cbv zeta.
  assert (H1 : isGeneratingRecipe (App.mount Scenario.build Scenario.configured ∅) = false)
    by reflexivity.
  split; [exact H1|].
  exact (spinner_is_off_at_the_end (H := ReferenceHost.host)
           Scenario.build Scenario.configured (scripted Cases.lookup_down) O _ H1).
Defined.

Lemma fetchDailyRecipe_keeps_the_other_keys_witness :
  let fetch := App.fetchDailyRecipe (H := ReferenceHost.host)
                 Scenario.build Scenario.configured in
  let d := dev (Shell.handleLogin (lit "Ana") Cases.page) in
  let e := Scenario.sending Scenario.recipe_text in
  Shell.lancheirinha_user_name <> App.daily_recipe
  /\ Shell.lancheirinha_user_name <> App.daily_recipe_date
  /\ localStorage (device (run_under (scripted e) O fetch d)) !! Shell.lancheirinha_user_name
     = Some (lit "Ana").
Proof.
  cbv zeta.
  assert (H1 : Shell.lancheirinha_user_name <> App.daily_recipe)
    by (vm_compute; discriminate).
  assert (H2 : Shell.lancheirinha_user_name <> App.daily_recipe_date)
    by (vm_compute; discriminate).
  split; [exact H1|]. split; [exact H2|].
  rewrite (fetchDailyRecipe_keeps_the_other_keys (H := ReferenceHost.host)
             Scenario.build Scenario.configured
             (scripted (Scenario.sending Scenario.recipe_text)) O
             (dev (Shell.handleLogin (lit "Ana") Cases.page))
             Shell.lancheirinha_user_name H1 H2).
  vm_compute. reflexivity.
Defined.

Lemma rejected_lookup_skips_generation_witness :
  let fetch := App.fetchDailyRecipe (H := ReferenceHost.host)
                 Scenario.build Scenario.configured in
  let d := App.mount Scenario.build Scenario.configured ∅ in
  let e := Cases.lookup_down in
  let o := run e fetch d in
  App.isSupabaseConfigured Scenario.build Scenario.configured = true
  /\ readLocal (H := ReferenceHost.host) (localStorage d)
       (App.freshnessTag (H := ReferenceHost.host) (clock e 1)) = LocalMiss false
  /\ select_single e (App.dateKey (clock e 0)) = Rejected (Error (lit "Failed to fetch"))
  /\ existsb is_generate (trace o) = false
  /\ dailyRecipe (device o) = JNull.
Proof.
  cbv zeta.
  assert (H1 : App.isSupabaseConfigured Scenario.build Scenario.configured = true)
    by reflexivity.
  assert (H2 : readLocal (H := ReferenceHost.host)
                 (localStorage (App.mount Scenario.build Scenario.configured ∅))
                 (App.freshnessTag (H := ReferenceHost.host) (clock Cases.lookup_down 1))
               = LocalMiss false) by (vm_compute; reflexivity).
  assert (H3 : select_single Cases.lookup_down (App.dateKey (clock Cases.lookup_down 0))
               = Rejected (Error (lit "Failed to fetch"))) by reflexivity.
  split; [exact H1|]. split; [exact H2|]. split; [exact H3|].
  pose proof (rejected_lookup_skips_generation (H := ReferenceHost.host)
                Scenario.build Scenario.configured Cases.lookup_down _ false _ H1 H2 H3)
    as (Hg & _ & _ & Hr & _).
  split; [exact Hg | exact Hr].
Defined.

Lemma failed_upsert_keeps_the_recipe_witness :
  let fetch := App.fetchDailyRecipe (H := ReferenceHost.host)
                 Scenario.build Scenario.configured in
  let d := App.mount Scenario.build Scenario.configured ∅ in
  let e := Cases.upsert_down in
  let o := run e fetch d in
  readLocal (H := ReferenceHost.host) (localStorage d)
    (App.freshnessTag (H := ReferenceHost.host) (clock e 1)) = LocalMiss false
  /\ readShared Scenario.build Scenario.configured e (App.dateKey (clock e 0)) = SharedMiss
  /\ JS.truthy (generated (H := ReferenceHost.host) Scenario.build e) = true
  /\ upsert e (App.dateKey (clock e 0)) (generated (H := ReferenceHost.host) Scenario.build e)
     = Rejected (Error (lit "Failed to fetch"))
  /\ completion o = Normal tt
  /\ dailyRecipe (device o) = generated (H := ReferenceHost.host) Scenario.build e.
Proof.
  cbv zeta.
  assert (H1 : readLocal (H := ReferenceHost.host)
                 (localStorage (App.mount Scenario.build Scenario.configured ∅))
                 (App.freshnessTag (H := ReferenceHost.host) (clock Cases.upsert_down 1))
               = LocalMiss false) by (vm_compute; reflexivity).
  assert (H2 : readShared Scenario.build Scenario.configured Cases.upsert_down
                 (App.dateKey (clock Cases.upsert_down 0)) = SharedMiss)
    by (vm_compute; reflexivity).
  assert (H3 : JS.truthy (generated (H := ReferenceHost.host) Scenario.build Cases.upsert_down)
               = true) by (vm_compute; reflexivity).
  assert (H4 : upsert Cases.upsert_down (App.dateKey (clock Cases.upsert_down 0))
                 (generated (H := ReferenceHost.host) Scenario.build Cases.upsert_down)
               = Rejected (Error (lit "Failed to fetch"))) by reflexivity.
  split; [exact H1|]. split; [exact H2|]. split; [exact H3|]. split; [exact H4|].
  pose proof (failed_upsert_keeps_the_recipe (H := ReferenceHost.host)
                Scenario.build Scenario.configured Cases.upsert_down _ false _ H1 H2 H3 H4)
    as (Hc & Hr & _).
  split; [exact Hc | exact Hr].
Defined.

Lemma row_without_recipe_is_served_witness :
  let fetch := App.fetchDailyRecipe (H := ReferenceHost.host)
                 Scenario.build Scenario.configured in
  let d := App.mount Scenario.build Scenario.configured ∅ in
  let e := Cases.empty_row in
  let r := {| data := JObject []; error := JNull |} in
  let o := run e fetch d in
  App.isSupabaseConfigured Scenario.build Scenario.configured = true
  /\ readLocal (H := ReferenceHost.host) (localStorage d)
       (App.freshnessTag (H := ReferenceHost.host) (clock e 1)) = LocalMiss false
  /\ select_single e (App.dateKey (clock e 0)) = Fulfilled r
  /\ JS.truthy (data r) = true
  /\ JS.truthy (error r) = false
  /\ JS.truthy (JS.get (data r) App.recipe_data) = false
  /\ existsb is_generate (trace o) = false
  /\ dailyRecipe (device o) = JUndefined.
Proof.
  cbv zeta.
  assert (H1 : App.isSupabaseConfigured Scenario.build Scenario.configured = true)
    by reflexivity.
  assert (H2 : readLocal (H := ReferenceHost.host)
                 (localStorage (App.mount Scenario.build Scenario.configured ∅))
                 (App.freshnessTag (H := ReferenceHost.host) (clock Cases.empty_row 1))
               = LocalMiss false) by (vm_compute; reflexivity).
  assert (H3 : select_single Cases.empty_row (App.dateKey (clock Cases.empty_row 0))
               = Fulfilled {| data := JObject []; error := JNull |}) by reflexivity.
  assert (H4 : JS.truthy (data {| data := JObject []; error := JNull |}) = true)
    by reflexivity.
  assert (H5 : JS.truthy (error {| data := JObject []; error := JNull |}) = false)
    by reflexivity.
  assert (H6 : JS.truthy (JS.get (data {| data := JObject []; error := JNull |})
                            App.recipe_data) = false) by reflexivity.
  split; [exact H1|]. split; [exact H2|]. split; [exact H3|]. split; [exact H4|].
  split; [exact H5|]. split; [exact H6|].
  pose proof (row_without_recipe_is_served (H := ReferenceHost.host)
                Scenario.build Scenario.configured Cases.empty_row _ false _
                H1 H2 H3 H4 H5 H6) as (_ & Hg & Hr & _).
  split; [exact Hg | exact Hr].
Defined.

Lemma copies_agree_without_a_fence_witness :
  let e := Scenario.sending Scenario.recipe_text in
  let d := App.mount Scenario.build Scenario.configured ∅ in
  (forall t, generateContent e = Fulfilled {| text := Some t |} ->
             JSString.includes (JSString.trim t) fence = false)
  /\ completion (run e (GeminiService.generateDailyRecipe (H := ReferenceHost.host)) d)
     = Return Scenario.recipe
  /\ completion (run e (GeminiServicePlain.generateDailyRecipe (H := ReferenceHost.host)) d)
     = Return Scenario.recipe.
Proof.
  cbv zeta.
  assert (H1 : forall t,
             generateContent (Scenario.sending Scenario.recipe_text)
             = Fulfilled {| text := Some t |} ->
             JSString.includes (JSString.trim t) fence = false).
  { intros t [= <-]. vm_compute. reflexivity. }
  split; [exact H1|].
  pose proof (copies_agree_without_a_fence (H := ReferenceHost.host)
                (Scenario.sending Scenario.recipe_text)
                (App.mount Scenario.build Scenario.configured ∅) H1) as (Hc & _).
  cbv zeta in Hc. rewrite <- Hc. split; vm_compute; reflexivity.
Defined.

Lemma getSupabase_keeps_one_client_witness :
  let d := App.mount Scenario.build Scenario.configured ∅ in
  SupabaseConfig.isSupabaseConfigured Scenario.configured = true
  /\ exists c d',
       SupabaseClientLazy.getSupabase (R := unit) Scenario.configured d
       = Ret (Normal (Some c), d')
       /\ SupabaseClientLazy.getSupabase (R := unit) Scenario.configured d'
          = Ret (Normal (Some c), d').
Proof.
  cbv zeta.
  assert (H1 : SupabaseConfig.isSupabaseConfigured Scenario.configured = true)
    by reflexivity.
  split; [exact H1|].
  destruct (getSupabase_keeps_one_client Scenario.configured
              (App.mount Scenario.build Scenario.configured ∅) H1)
    as (c & d' & Hfirst & _ & Hsecond & _).
  exists c, d'. split; [exact Hfirst | exact Hsecond].
Defined.

Lemma supabase_copies_agree_witness :
  let d := App.mount Scenario.build Scenario.configured ∅ in
  client d = None
  /\ exists c,
       SupabaseClientEager.supabase (R := unit) Scenario.configured d = Ret (Normal c, d)
       /\ SupabaseClientLazy.supabase (R := unit) Scenario.configured d
          = Ret (Normal c, set_client (Some c) d).
Proof.
  cbv zeta.
  assert (H1 : client (App.mount Scenario.build Scenario.configured ∅) = None)
    by reflexivity.
  split; [exact H1|].
  exact (supabase_copies_agree Scenario.configured _ H1).
Defined.

Lemma dateKey_is_a_calendar_date_witness :
  0 <= JSDate.YearFromTime Scenario.morning <= 9999
  /\ App.dateKey Scenario.morning = lit "2026-11-03"
  /\ length (App.dateKey Scenario.morning) = 10%nat.
Proof.
  assert (H1 : 0 <= JSDate.YearFromTime Scenario.morning <= 9999)
    by (vm_compute; split; discriminate).
  split; [exact H1|].
  destruct (dateKey_is_a_calendar_date Scenario.morning H1)
    as (y & m & d & _ & Hlen & _).
  split; [vm_compute; reflexivity | exact Hlen].
Defined.

Lemma logout_undoes_login_witness :
  Shell.getItem Shell.lancheirinha_user_name Cases.page = None
  /\ localStorage (dev (Shell.handleLogout (Shell.handleLogin (lit "Ana") Cases.page)))
     = localStorage (dev Cases.page).
Proof.
  assert (H1 : Shell.getItem Shell.lancheirinha_user_name Cases.page = None)
    by reflexivity.
  split; [exact H1|].
  exact (proj1 (logout_undoes_login (lit "Ana") Cases.page H1)).
Defined.

Lemma unchecked_recipe_breaks_the_card_witness :
  let fetch := App.fetchDailyRecipe (H := ReferenceHost.host)
                 Scenario.build Scenario.configured in
  let d := App.mount Scenario.build Scenario.configured ∅ in
  let e := Cases.odd_row in
  let r := {| data := Store.row Cases.text_for_a_list; error := JNull |} in
  let recipe := JS.get (data r) App.recipe_data in
  let o := run e fetch d in
  App.isSupabaseConfigured Scenario.build Scenario.configured = true
  /\ readLocal (H := ReferenceHost.host) (localStorage d)
       (App.freshnessTag (H := ReferenceHost.host) (clock e 1)) = LocalMiss false
  /\ select_single e (App.dateKey (clock e 0)) = Fulfilled r
  /\ usable r = true
  /\ JS.truthy recipe = true
  /\ (HomeSection.optional_map (JS.get recipe (lit "ingredients")) = inl TypeError
      \/ HomeSection.optional_map (JS.get recipe (lit "benefits")) = inl TypeError)
  /\ dailyRecipe (device o) = Cases.text_for_a_list
  /\ HomeSection.recipeCard (dailyRecipe (device o)) (isGeneratingRecipe (device o))
     = inl TypeError.
Proof.
  cbv zeta.
  set (r := {| data := Store.row Cases.text_for_a_list; error := JNull |}).
  assert (H1 : App.isSupabaseConfigured Scenario.build Scenario.configured = true)
    by reflexivity.
  assert (H2 : readLocal (H := ReferenceHost.host)
                 (localStorage (App.mount Scenario.build Scenario.configured ∅))
                 (App.freshnessTag (H := ReferenceHost.host) (clock Cases.odd_row 1))
               = LocalMiss false) by (vm_compute; reflexivity).
  assert (H3 : select_single Cases.odd_row (App.dateKey (clock Cases.odd_row 0))
               = Fulfilled r) by reflexivity.
  assert (H4 : usable r = true) by reflexivity.
  assert (H5 : JS.truthy (JS.get (data r) App.recipe_data) = true)
    by (vm_compute; reflexivity).
  assert (H6 : HomeSection.optional_map
                 (JS.get (JS.get (data r) App.recipe_data) (lit "ingredients"))
               = inl TypeError
               \/ HomeSection.optional_map
                    (JS.get (JS.get (data r) App.recipe_data) (lit "benefits"))
                  = inl TypeError) by (left; vm_compute; reflexivity).
  split; [exact H1|]. split; [exact H2|]. split; [exact H3|]. split; [exact H4|].
  split; [exact H5|]. split; [exact H6|].
  pose proof (unchecked_recipe_breaks_the_card (H := ReferenceHost.host)
                Scenario.build Scenario.configured Cases.odd_row _ false r
                H1 H2 H3 H4 H5 H6) as (Hr & Hc).
  split; [|exact Hc]. rewrite Hr. vm_compute. reflexivity.
Defined.

Lemma local_hit_shows_its_benefits_witness :
  readLocal (H := ReferenceHost.host) (Scenario.cached Scenario.today_tag) Scenario.today_tag
  = LocalHit Scenario.recipe
  /\ exists items, JS.get Scenario.recipe App.benefits = JArray items.
Proof.
  assert (H1 : readLocal (H := ReferenceHost.host) (Scenario.cached Scenario.today_tag)
                 Scenario.today_tag = LocalHit Scenario.recipe)
    by (vm_compute; reflexivity).
  split; [exact H1|].
  destruct (local_hit_shows_its_benefits (H := ReferenceHost.host) _ _ _ H1)
    as (items & Hitems & _).
  exists items. exact Hitems.
Defined.
